(** * Fiddler MCP client and bridge: a shallow embedding

    The development follows [src/gemini-fiddler-client.py] (the orchestration
    client: transport, call extractor, name resolution, tool invoker and the
    chat loop, and [load_config]) and [src/5ire-bridge.py] (the tool server's
    [clear_sessions], and its HTTP client with the session tools built on it).

    Python text is a [string] of bytes; JSON values are the inductive [json];
    a Python [dict] is an association list that keeps insertion order and has
    no repeated key; an exception is a value of [exn], carried by [res].
    Numbers are integers: a JSON text with a fraction or an exponent is outside
    the model. *)

From Stdlib Require Import String Ascii List ZArith Bool Arith Lia.
Import ListNotations.
Set Warnings "-register-all,-abstract-large-number".
Local Open Scope string_scope.
Local Open Scope list_scope.
Local Open Scope nat_scope.

Notation "a +++ b" := (String.append a b) (at level 60, right associativity).

(** ** Python strings *)

Module Py.

(** [str.isspace] on one ASCII character: TAB..CR, FS..US and the blank. *)
Definition is_space (c : ascii) : bool :=
  let n := nat_of_ascii c in
  ((9 <=? n) && (n <=? 13)) || ((28 <=? n) && (n <=? 32)).

Fixpoint lstrip (s : string) : string :=
  match s with
  | String c s' => if is_space c then lstrip s' else s
  | EmptyString => EmptyString
  end.

Fixpoint rstrip (s : string) : string :=
  match s with
  | EmptyString => EmptyString
  | String c s' =>
      match rstrip s' with
      | EmptyString => if is_space c then EmptyString else String c EmptyString
      | r => String c r
      end
  end.

(** [s.strip()] *)
Definition strip (s : string) : string := rstrip (lstrip s).

(** [s.startswith(p)] *)
Definition startswith (p s : string) : bool := String.prefix p s.

(** [s.split(sep)] for a one-character separator. *)
Fixpoint split_on (sep : ascii) (s : string) : list string :=
  match s with
  | EmptyString => [EmptyString]
  | String c s' =>
      if Ascii.eqb c sep then EmptyString :: split_on sep s'
      else match split_on sep s' with
           | h :: t => String c h :: t
           | [] => [String c EmptyString]
           end
  end.

(** [sep.join(l)] *)
Definition join (sep : string) (l : list string) : string := String.concat sep l.

(** The slice [l[1:-1]]. *)
Definition slice_1_m1 {A} (l : list A) : list A := removelast (tl l).

(** [s[:n]] *)
Fixpoint take (n : nat) (s : string) : string :=
  match n, s with
  | S n', String c s' => String c (take n' s')
  | _, _ => EmptyString
  end.

Definition lower_ascii (c : ascii) : ascii :=
  let n := nat_of_ascii c in
  if (65 <=? n) && (n <=? 90) then ascii_of_nat (n + 32) else c.

(** [s.lower()] *)
Fixpoint lower (s : string) : string :=
  match s with
  | EmptyString => EmptyString
  | String c s' => String (lower_ascii c) (lower s')
  end.

(** [p in s] for strings. *)
Fixpoint contains (p s : string) : bool :=
  String.prefix p s ||
  match s with
  | EmptyString => false
  | String _ s' => contains p s'
  end.

Definition is_digit (c : ascii) : bool :=
  let n := nat_of_ascii c in (48 <=? n) && (n <=? 57).

Fixpoint all_chars (p : ascii -> bool) (s : string) : bool :=
  match s with
  | EmptyString => true
  | String c s' => p c && all_chars p s'
  end.

(** [s.isdigit()] *)
Definition isdigit (s : string) : bool :=
  negb (String.eqb s EmptyString) && all_chars is_digit s.

Definition digit_char (n : nat) : ascii := ascii_of_nat (48 + n).

Fixpoint nat_digits (fuel n : nat) (acc : string) : string :=
  match fuel with
  | 0 => acc
  | S f =>
      let acc' := String (digit_char (n mod 10)) acc in
      if n / 10 =? 0 then acc' else nat_digits f (n / 10) acc'
  end.

(** [str(n)] for a natural number. *)
Definition str_nat (n : nat) : string := nat_digits (S n) n EmptyString.

(** [str(z)] for an integer. *)
Definition str_Z (z : Z) : string :=
  match z with
  | Z0 => "0"
  | Zpos _ => str_nat (Z.to_nat z)
  | Zneg _ => String "-" (str_nat (Z.to_nat (- z)))
  end.

(** [int(s)] for a string of digits. *)
Definition int_of_digits (s : string) : Z :=
  (fix go (s : string) (acc : Z) : Z :=
     match s with
     | EmptyString => acc
     | String c s' => go s' (10 * acc + Z.of_nat (nat_of_ascii c - 48))%Z
     end) s 0%Z.

End Py.

(** ** JSON values, Python objects *)

Inductive json : Type :=
| JNull
| JBool (b : bool)
| JInt (z : Z)
| JStr (s : string)
| JList (l : list json)
| JDict (d : list (string * json)).

Definition dict := list (string * json).

(** [d.get(k)], [None] when the key is absent. *)
Fixpoint dget (k : string) (d : dict) : option json :=
  match d with
  | [] => None
  | (k', v) :: d' => if String.eqb k k' then Some v else dget k d'
  end.

(** [d[k] = v]: an existing key keeps its place, a new one goes last. *)
Fixpoint dset (k : string) (v : json) (d : dict) : dict :=
  match d with
  | [] => [(k, v)]
  | (k', v') :: d' =>
      if String.eqb k k' then (k, v) :: d' else (k', v') :: dset k v d'
  end.

(** [k in d] *)
Definition dmem (k : string) (d : dict) : bool :=
  match dget k d with Some _ => true | None => false end.

(** [d.setdefault(k, v)], the dictionary after the call. *)
Definition setdefault (k : string) (v : json) (d : dict) : dict :=
  if dmem k d then d else dset k v d.

(** [d.get(k, dflt)] *)
Definition dget_or (k : string) (dflt : json) (d : dict) : json :=
  match dget k d with Some v => v | None => dflt end.

(** [d.get(k)] as a Python value: an absent key gives [None]. *)
Definition dget_none (k : string) (d : dict) : json := dget_or k JNull d.

(** [bool(x)] *)
Definition truthy (j : json) : bool :=
  match j with
  | JNull => false
  | JBool b => b
  | JInt z => negb (Z.eqb z 0)
  | JStr s => negb (String.eqb s EmptyString)
  | JList l => match l with [] => false | _ => true end
  | JDict d => match d with [] => false | _ => true end
  end.

(** [a or b] *)
Definition py_or (a b : json) : json := if truthy a then a else b.

(** [a and b] *)
Definition py_and (a b : json) : json := if truthy a then b else a.

(** [x is False] *)
Definition is_False (j : json) : bool :=
  match j with JBool false => true | _ => false end.

(** [x == s] for a string literal [s]. *)
Definition eq_str (j : json) (s : string) : bool :=
  match j with JStr t => String.eqb t s | _ => false end.

(** Exceptions the modelled code can raise or has to catch. *)
Inductive exn : Type :=
| AttributeError
| TypeError
| KeyError
| ValueError
| KeyboardInterrupt
| RuntimeError (msg : string)
| SystemExit (code : Z).

Inductive res (A : Type) : Type :=
| Ok (a : A)
| Raise (e : exn).
Arguments Ok {A} a.
Arguments Raise {A} e.

(** [str(x)]: exact on [None], booleans, integers and strings; a list or a
    dictionary is rendered as Python's [repr] does when its strings need no
    escaping. *)
Fixpoint py_str_aux (quote : bool) (j : json) : string :=
  match j with
  | JNull => "None"
  | JBool true => "True"
  | JBool false => "False"
  | JInt z => Py.str_Z z
  | JStr s => if quote then "'" +++ s +++ "'" else s
  | JList l =>
      "[" +++ String.concat ", " (map (py_str_aux true) l) +++ "]"
  | JDict d =>
      "{" +++ String.concat ", "
               (map (fun kv => "'" +++ fst kv +++ "': " +++ py_str_aux true (snd kv)) d)
          +++ "}"
  end.

Definition py_str (j : json) : string := py_str_aux false j.

Definition dquote : ascii := "034"%char.
Definition squote : ascii := "'"%char.
Definition newline : ascii := "010"%char.
Definition backslash : ascii := "\"%char.

(** Texts with double quotes are written with [']: [dq s] turns each ['] of
    [s] into a double quote. *)
Fixpoint dq (s : string) : string :=
  match s with
  | EmptyString => EmptyString
  | String c s' => String (if Ascii.eqb c squote then dquote else c) (dq s')
  end.

(** ** A JSON decoder

    [json.loads] is a library function; the client is written against any
    decoder (a section variable below).  [Json.loads] is the instance the
    concrete runs use: RFC 8259 texts with integer numbers, decoded as
    [json.loads] decodes them (a repeated key keeps its first place and its
    last value). *)

Module Json.

Definition is_ws (c : ascii) : bool :=
  let n := nat_of_ascii c in
  (n =? 32) || (n =? 9) || (n =? 10) || (n =? 13).

Fixpoint skip_ws (s : string) : string :=
  match s with
  | String c s' => if is_ws c then skip_ws s' else s
  | EmptyString => EmptyString
  end.

Definition hex_val (c : ascii) : option nat :=
  let n := nat_of_ascii c in
  if (48 <=? n) && (n <=? 57) then Some (n - 48)
  else if (97 <=? n) && (n <=? 102) then Some (n - 87)
  else if (65 <=? n) && (n <=? 70) then Some (n - 55)
  else None.

Definition hex4 (a b c d : ascii) : option nat :=
  match hex_val a, hex_val b, hex_val c, hex_val d with
  | Some x, Some y, Some z, Some w => Some (((x * 16 + y) * 16 + z) * 16 + w)
  | _, _, _, _ => None
  end.

(** The UTF-8 bytes of a code point of the basic plane. *)
Definition utf8 (n : nat) : string :=
  if n <? 128 then String (ascii_of_nat n) EmptyString
  else if n <? 2048 then
    String (ascii_of_nat (192 + n / 64))
      (String (ascii_of_nat (128 + n mod 64)) EmptyString)
  else
    String (ascii_of_nat (224 + n / 4096))
      (String (ascii_of_nat (128 + (n / 64) mod 64))
         (String (ascii_of_nat (128 + n mod 64)) EmptyString)).

Definition unescape (e : ascii) : option ascii :=
  if Ascii.eqb e dquote then Some dquote
  else if Ascii.eqb e backslash then Some backslash
  else if Ascii.eqb e "/" then Some "/"%char
  else if Ascii.eqb e "b" then Some "008"%char
  else if Ascii.eqb e "f" then Some "012"%char
  else if Ascii.eqb e "n" then Some newline
  else if Ascii.eqb e "r" then Some "013"%char
  else if Ascii.eqb e "t" then Some "009"%char
  else None.

(** The characters of a string literal after its opening quote, and the text
    after its closing quote. *)
Fixpoint string_body (s : string) : option (string * string) :=
  match s with
  | EmptyString => None
  | String c s' =>
      if Ascii.eqb c dquote then Some (EmptyString, s')
      else if Ascii.eqb c backslash then
        match s' with
        | EmptyString => None
        | String e s'' =>
            if Ascii.eqb e "u" then
              match s'' with
              | String h1 (String h2 (String h3 (String h4 s4))) =>
                  match hex4 h1 h2 h3 h4 with
                  | Some n =>
                      if (55296 <=? n) && (n <=? 57343) then None
                      else match string_body s4 with
                           | Some (t, r) => Some (utf8 n +++ t, r)
                           | None => None
                           end
                  | None => None
                  end
              | _ => None
              end
            else
              match unescape e with
              | Some ch =>
                  match string_body s'' with
                  | Some (t, r) => Some (String ch t, r)
                  | None => None
                  end
              | None => None
              end
        end
      else if nat_of_ascii c <? 32 then None
      else match string_body s' with
           | Some (t, r) => Some (String c t, r)
           | None => None
           end
  end.

Fixpoint span_digits (s : string) : string * string :=
  match s with
  | String c s' =>
      if Py.is_digit c then let (d, r) := span_digits s' in (String c d, r)
      else (EmptyString, s)
  | EmptyString => (EmptyString, EmptyString)
  end.

Definition starts_float (r : string) : bool :=
  match r with
  | String c _ => Ascii.eqb c "." || Ascii.eqb c "e" || Ascii.eqb c "E"
  | EmptyString => false
  end.

(** An integer literal: an optional sign, then [0] or digits that do not
    start with [0]. *)
Definition number (s : string) : option (Z * string) :=
  let '(neg, s1) :=
    match s with
    | String c t => if Ascii.eqb c "-" then (true, t) else (false, s)
    | EmptyString => (false, s)
    end in
  let '(ds, r) :=
    match s1 with
    | String c t => if Ascii.eqb c "0" then ("0", t) else span_digits s1
    | EmptyString => (EmptyString, EmptyString)
    end in
  match ds with
  | EmptyString => None
  | _ =>
      if starts_float r then None
      else Some (if neg then (- Py.int_of_digits ds)%Z else Py.int_of_digits ds, r)
  end.

Definition literal (w : string) (v : json) (s : string) : option (json * string) :=
  if String.prefix w s
  then Some (v, String.substring (String.length w) (String.length s - String.length w) s)
  else None.

Fixpoint value (fuel : nat) (s : string) : option (json * string) :=
  match fuel with
  | 0 => None
  | S f =>
      match s with
      | EmptyString => None
      | String c s' =>
          if Ascii.eqb c "{" then
            match skip_ws s' with
            | String c1 r1 =>
                if Ascii.eqb c1 "}" then Some (JDict [], r1)
                else members f (String c1 r1) []
            | EmptyString => None
            end
          else if Ascii.eqb c "[" then
            match skip_ws s' with
            | String c1 r1 =>
                if Ascii.eqb c1 "]" then Some (JList [], r1)
                else elements f (String c1 r1) []
            | EmptyString => None
            end
          else if Ascii.eqb c dquote then
            match string_body s' with
            | Some (t, r) => Some (JStr t, r)
            | None => None
            end
          else if Ascii.eqb c "t" then literal "true" (JBool true) s
          else if Ascii.eqb c "f" then literal "false" (JBool false) s
          else if Ascii.eqb c "n" then literal "null" JNull s
          else match number s with
               | Some (z, r) => Some (JInt z, r)
               | None => None
               end
      end
  end

with elements (fuel : nat) (s : string) (acc : list json) : option (json * string) :=
  match fuel with
  | 0 => None
  | S f =>
      match value f s with
      | Some (v, r) =>
          match skip_ws r with
          | String c r' =>
              if Ascii.eqb c "," then elements f (skip_ws r') (v :: acc)
              else if Ascii.eqb c "]" then Some (JList (rev (v :: acc)), r')
              else None
          | EmptyString => None
          end
      | None => None
      end
  end

with members (fuel : nat) (s : string) (acc : dict) : option (json * string) :=
  match fuel with
  | 0 => None
  | S f =>
      match s with
      | String q s' =>
          if Ascii.eqb q dquote then
            match string_body s' with
            | Some (k, r) =>
                match skip_ws r with
                | String c r' =>
                    if Ascii.eqb c ":" then
                      match value f (skip_ws r') with
                      | Some (v, r2) =>
                          match skip_ws r2 with
                          | String c2 r3 =>
                              if Ascii.eqb c2 "," then members f (skip_ws r3) (dset k v acc)
                              else if Ascii.eqb c2 "}" then Some (JDict (dset k v acc), r3)
                              else None
                          | EmptyString => None
                          end
                      | None => None
                      end
                    else None
                | EmptyString => None
                end
            | None => None
            end
          else None
      | EmptyString => None
      end
  end.

(** [json.loads(s)]; [None] stands for [JSONDecodeError].  Two nested calls
    consume at least one character, so the fuel never runs out. *)
Definition loads (s : string) : option json :=
  match value (2 * String.length s + 4) (skip_ws s) with
  | Some (v, r) => if String.eqb (skip_ws r) EmptyString then Some v else None
  | None => None
  end.

End Json.

(** ** Regular expressions

    A backtracking matcher with the preference order of Python's [re]: the
    left branch of an alternative first, a greedy star as many rounds as
    possible first, a lazy star as few as possible first.  The continuation
    receives the rest of the text and the groups captured so far. *)

Module Re.

Inductive regex : Type :=
| Eps
| Chr (p : ascii -> bool)
| Seq (r1 r2 : regex)
| Alt (r1 r2 : regex)
| Star (r : regex)
| LazyStar (r : regex)
| Group (n : nat) (r : regex)
| Backref (n : nat)
| Eol.

Definition caps := list (nat * string).

Fixpoint cget (n : nat) (c : caps) : option string :=
  match c with
  | [] => None
  | (m, s) :: c' => if n =? m then Some s else cget n c'
  end.

Definition cset (n : nat) (s : string) (c : caps) : caps := (n, s) :: c.

(** [m.group(n)], the empty string for a group that took no part. *)
Definition group (n : nat) (c : caps) : string :=
  match cget n c with Some s => s | None => EmptyString end.

(** What was consumed between the text [s] and its suffix [s']. *)
Definition consumed (s s' : string) : string :=
  Py.take (String.length s - String.length s') s.

Fixpoint drop_prefix (p s : string) : option string :=
  match p, s with
  | EmptyString, _ => Some s
  | String a p', String b s' => if Ascii.eqb a b then drop_prefix p' s' else None
  | String _ _, EmptyString => None
  end.

(** The rounds of a greedy star: one more round first, as long as it
    consumes something; [n] bounds the rounds by the length of the text. *)
Fixpoint star_rounds {R : Type}
    (m : string -> caps -> (string -> caps -> option R) -> option R)
    (k : string -> caps -> option R) (n : nat) (s : string) (c : caps) : option R :=
  match n with
  | 0 => k s c
  | S n' =>
      match m s c (fun s' c' =>
                     if String.length s' <? String.length s
                     then star_rounds m k n' s' c' else None) with
      | Some x => Some x
      | None => k s c
      end
  end.

(** The rounds of a lazy star: the rest of the pattern first. *)
Fixpoint lazy_rounds {R : Type}
    (m : string -> caps -> (string -> caps -> option R) -> option R)
    (k : string -> caps -> option R) (n : nat) (s : string) (c : caps) : option R :=
  match k s c with
  | Some x => Some x
  | None =>
      match n with
      | 0 => None
      | S n' =>
          m s c (fun s' c' =>
                   if String.length s' <? String.length s
                   then lazy_rounds m k n' s' c' else None)
      end
  end.

Fixpoint rmatch {R : Type} (r : regex) (s : string) (c : caps)
    (k : string -> caps -> option R) {struct r} : option R :=
  match r with
  | Eps => k s c
  | Chr p =>
      match s with
      | String a s' => if p a then k s' c else None
      | EmptyString => None
      end
  | Seq r1 r2 => rmatch r1 s c (fun s' c' => rmatch r2 s' c' k)
  | Alt r1 r2 =>
      match rmatch r1 s c k with
      | Some x => Some x
      | None => rmatch r2 s c k
      end
  | Star r1 => star_rounds (rmatch r1) k (String.length s) s c
  | LazyStar r1 => lazy_rounds (rmatch r1) k (String.length s) s c
  | Group n r1 => rmatch r1 s c (fun s' c' => k s' (cset n (consumed s s') c'))
  | Backref n =>
      match drop_prefix (group n c) s with
      | Some s' => k s' c
      | None => None
      end
  | Eol =>
      if String.eqb s EmptyString || String.eqb s (String newline EmptyString)
      then k s c else None
  end.

(** A match object: where it starts, its text, its groups, the text after. *)
Record found : Type := Found
  { m_start : nat; m_text : string; m_groups : caps; m_rest : string }.

(** [re.match] at the head of [s]. *)
Definition match_here (r : regex) (s : string) : option (string * caps) :=
  rmatch r s [] (fun s' c => Some (s', c)).

(** [re.search(r, s)], with [pos] characters already passed. *)
Fixpoint search_from (r : regex) (pos : nat) (s : string) : option found :=
  match match_here r s with
  | Some (s', c) => Some (Found pos (consumed s s') c s')
  | None =>
      match s with
      | EmptyString => None
      | String _ s' => search_from r (S pos) s'
      end
  end.

Definition search (r : regex) (s : string) : option found := search_from r 0 s.

(** The successive matches [re.finditer] yields; after an empty match the scan
    moves one character on. *)
Fixpoint finditer_fuel (r : regex) (fuel : nat) (s : string) : list found :=
  match fuel with
  | 0 => []
  | S f =>
      match search r s with
      | None => []
      | Some m =>
          m :: match m_text m, m_rest m with
               | EmptyString, String _ t => finditer_fuel r f t
               | EmptyString, EmptyString => []
               | String _ _, t => finditer_fuel r f t
               end
      end
  end.

Definition finditer (r : regex) (s : string) : list found :=
  finditer_fuel r (S (String.length s)) s.

(** [re.findall] for a pattern without groups: the matched texts. *)
Definition findall (r : regex) (s : string) : list string :=
  map m_text (finditer r s).

(** [re.sub(r, '', s)] *)
Fixpoint sub_empty_fuel (r : regex) (fuel : nat) (s : string) : string :=
  match fuel with
  | 0 => s
  | S f =>
      match search r s with
      | None => s
      | Some m =>
          Py.take (m_start m) s +++
          match m_text m, m_rest m with
          | EmptyString, String a t => String a (sub_empty_fuel r f t)
          | EmptyString, EmptyString => EmptyString
          | String _ _, t => sub_empty_fuel r f t
          end
      end
  end.

Definition sub_empty (r : regex) (s : string) : string :=
  sub_empty_fuel r (S (String.length s)) s.

(** Building blocks. *)
Definition lit (a : ascii) : regex := Chr (Ascii.eqb a).
Definition lit_nocase (a : ascii) : regex :=
  Chr (fun b => Ascii.eqb (Py.lower_ascii a) (Py.lower_ascii b)).
Definition none_of (l : list ascii) : regex :=
  Chr (fun b => negb (existsb (Ascii.eqb b) l)).
Definition one_of (l : list ascii) : regex :=
  Chr (fun b => existsb (Ascii.eqb b) l).

Fixpoint word (s : string) : regex :=
  match s with
  | EmptyString => Eps
  | String a s' => Seq (lit a) (word s')
  end.

Fixpoint word_nocase (s : string) : regex :=
  match s with
  | EmptyString => Eps
  | String a s' => Seq (lit_nocase a) (word_nocase s')
  end.

Definition opt (r : regex) : regex := Alt r Eps.
Definition plus (r : regex) : regex := Seq r (Star r).

(** [\w], [\s] and [.] (without [DOTALL]) on ASCII text. *)
Definition is_word (c : ascii) : bool :=
  let n := nat_of_ascii c in
  ((48 <=? n) && (n <=? 57)) || ((65 <=? n) && (n <=? 90))
  || ((97 <=? n) && (n <=? 122)) || (n =? 95).
Definition w : regex := Chr is_word.
Definition sp : regex := Chr Py.is_space.
Definition dot : regex := Chr (fun c => negb (Ascii.eqb c newline)).

End Re.

(** ** The call extractor's patterns *)

Module Pat.
Import Re.

Definition no_brace : regex := none_of ["{"; "}"]%char.
Definition no_bracket : regex := none_of ["["; "]"]%char.

(** Any run of characters that are no braces and of brace pairs holding no
    brace: the non-capturing starred group of the first pattern. *)
Definition brace_items : regex :=
  Star (Alt no_brace (Seq (lit "{") (Seq (Star no_brace) (lit "}")))).

(** The same for square brackets: the starred group of the second pattern. *)
Definition bracket_items : regex :=
  Star (Alt no_bracket (Seq (lit "[") (Seq (Star no_bracket) (lit "]")))).

(** The key [tool] or [tool_code] between its two double quotes. *)
Definition tool_key : regex :=
  Seq (lit dquote) (Seq (word "tool") (Seq (opt (word "_code")) (lit dquote))).

(** The first entry of [json_patterns]. *)
Definition json_object : regex :=
  Seq (lit "{") (Seq brace_items (Seq tool_key (Seq brace_items (lit "}")))).

(** The second entry of [json_patterns]. *)
Definition json_array : regex :=
  Seq (lit "[") (Seq bracket_items (Seq tool_key (Seq bracket_items (lit "]")))).

(** [plain_text_pattern]: group 1 is [fiddler_mcp__] and word characters,
    then a parenthesis pair around group 2, a lazy run of any character but
    the newline. *)
Definition plain_text : regex :=
  Seq (Group 1 (Seq (word "fiddler_mcp__") (plus w)))
    (Seq (lit "(") (Seq (Group 2 (LazyStar dot)) (lit ")"))).

(** The same up to the opening parenthesis. *)
Definition plain_text_head : regex :=
  Seq (Group 1 (Seq (word "fiddler_mcp__") (plus w))) (lit "(").

(** The dotted form [fiddler_mcp.name(...)] looked for in a [tool_code]. *)
Definition dotted_code : regex :=
  Seq (word "fiddler_mcp.")
    (Seq (Group 1 (plus w))
       (Seq (lit "(") (Seq (Group 2 (LazyStar dot)) (lit ")")))).

(** One [key=value] pair of the plain-text form: group 2 is an optional
    quote, group 3 a run without comma or quote, closed by group 2 again. *)
Definition plain_arg : regex :=
  Seq (Group 1 (plus w))
    (Seq (lit "=")
       (Seq (Group 2 (opt (one_of [dquote; squote])))
          (Seq (Group 3 (plus (none_of [","%char; squote; dquote]))) (Backref 2)))).

(** One quoted [key='value'] pair of a [tool_code]. *)
Definition code_arg : regex :=
  Seq (Group 1 (plus w))
    (Seq (lit "=")
       (Seq (one_of [squote; dquote])
          (Seq (Group 2 (plus (none_of [squote; dquote]))) (one_of [squote; dquote])))).

(** A dangling [Tool Call:] or [Next:] label at the end, in any letter case. *)
Definition dangling_label : regex :=
  Seq (Group 1 (Alt (word_nocase "Tool Call") (word_nocase "Next")))
    (Seq (lit ":") (Seq (Star sp) Eol)).

End Pat.

Definition fence : string := "```".

(** ** The client's state and its outside world *)

(** What the client writes to the tool server's standard input.  A request
    whose [params] are empty goes out without the [params] member. *)
Inductive message : Type :=
| Request (id : nat) (method : string) (params : dict)
| Notification (method : string) (params : dict).

(** What reading the server's standard output gives for one request: a line
    that decodes to a JSON object, a line that does not decode (with the
    decoder's message), nothing within the timeout, or the end of the stream. *)
Inductive reply : Type :=
| Reply (response : dict)
| Malformed (detail : string)
| Silent
| Closed.

(** One call of [model.generate_content]: the text [extract_text_safe] finds
    in the response (empty when the response is blocked), or the exception the
    call raises. *)
Inductive generated : Type :=
| Text (s : string)
| Fails (e : exn).

(** The prompts of [chat], by kind; their wording plays no part here. *)
Inductive prompt : Type :=
| InitialQuery (user_query : string)
| StricterRetry (user_query : string)
| ToolAnalysis (tool_name : json) (tool_result : json) (user_query : string)
| FollowUp (tool_name : json) (tool_result : json).

(** A [generate_content] call: the prompt and the [temperature] of its
    [generation_config], if it has one. *)
Record generation : Type := Generation
  { g_prompt : prompt; g_temperature : option Z }.

(** An entry of [conversation_history]; a tool entry keeps the result
    itself where the source keeps its [json.dumps]. *)
Inductive turn : Type :=
| UserTurn (content : string)
| AssistantTurn (content : string)
| ToolTurn (tool : json) (content : json)
| SystemTurn (content : string)
| ErrorTurn (content : string).

Record client : Type := Client
  { request_id : nat;
    conversation_history : list turn;
    available_tools : list json;
    max_followups : nat;
    auto_save_full_bodies : bool;
    verbose_logging : bool;
    (** [mcp_process.poll() is None] *)
    alive : bool;
    (** written to the server, oldest first *)
    wire : list message;
    (** the server's coming answers, one per request *)
    server : list reply;
    (** the model's coming answers, one per [generate_content] call *)
    agent : list generated;
    (** the [generate_content] calls made, oldest first *)
    asked : list generation;
    (** the [call_tool] invocations made by [chat], oldest first *)
    invoked : list (json * json) }.

(** [GeminiFiddlerClient.__init__] with [GEMINI_MAX_TOOL_CALLS] unset. *)
Definition default_max_followups : nat := 10.

Definition new_client (server : list reply) (agent : list generated) : client :=
  Client 0 [] [] default_max_followups false false true [] server agent [] [].

Definition with_request_id (n : nat) (c : client) : client :=
  Client n (conversation_history c) (available_tools c) (max_followups c)
    (auto_save_full_bodies c) (verbose_logging c) (alive c) (wire c) (server c)
    (agent c) (asked c) (invoked c).
Definition with_history (h : list turn) (c : client) : client :=
  Client (request_id c) h (available_tools c) (max_followups c)
    (auto_save_full_bodies c) (verbose_logging c) (alive c) (wire c) (server c)
    (agent c) (asked c) (invoked c).
Definition with_tools (t : list json) (c : client) : client :=
  Client (request_id c) (conversation_history c) t (max_followups c)
    (auto_save_full_bodies c) (verbose_logging c) (alive c) (wire c) (server c)
    (agent c) (asked c) (invoked c).
Definition with_max_followups (n : nat) (c : client) : client :=
  Client (request_id c) (conversation_history c) (available_tools c) n
    (auto_save_full_bodies c) (verbose_logging c) (alive c) (wire c) (server c)
    (agent c) (asked c) (invoked c).
Definition with_alive (b : bool) (c : client) : client :=
  Client (request_id c) (conversation_history c) (available_tools c) (max_followups c)
    (auto_save_full_bodies c) (verbose_logging c) b (wire c) (server c)
    (agent c) (asked c) (invoked c).
Definition with_wire (w : list message) (c : client) : client :=
  Client (request_id c) (conversation_history c) (available_tools c) (max_followups c)
    (auto_save_full_bodies c) (verbose_logging c) (alive c) w (server c)
    (agent c) (asked c) (invoked c).
Definition with_server (r : list reply) (c : client) : client :=
  Client (request_id c) (conversation_history c) (available_tools c) (max_followups c)
    (auto_save_full_bodies c) (verbose_logging c) (alive c) (wire c) r
    (agent c) (asked c) (invoked c).
Definition with_agent (a : list generated) (c : client) : client :=
  Client (request_id c) (conversation_history c) (available_tools c) (max_followups c)
    (auto_save_full_bodies c) (verbose_logging c) (alive c) (wire c) (server c)
    a (asked c) (invoked c).
Definition with_asked (a : list generation) (c : client) : client :=
  Client (request_id c) (conversation_history c) (available_tools c) (max_followups c)
    (auto_save_full_bodies c) (verbose_logging c) (alive c) (wire c) (server c)
    (agent c) a (invoked c).
Definition with_invoked (i : list (json * json)) (c : client) : client :=
  Client (request_id c) (conversation_history c) (available_tools c) (max_followups c)
    (auto_save_full_bodies c) (verbose_logging c) (alive c) (wire c) (server c)
    (agent c) (asked c) i.

(** Computations of the client: they read and change the state, and end with
    a value or an exception. *)
Definition M (A : Type) : Type := client -> res A * client.

Definition ret {A} (a : A) : M A := fun c => (Ok a, c).
Definition raise {A} (e : exn) : M A := fun c => (Raise e, c).
Definition bind {A B} (m : M A) (f : A -> M B) : M B :=
  fun c =>
    match m c with
    | (Ok a, c') => f a c'
    | (Raise e, c') => (Raise e, c')
    end.
Definition lift {A} (r : res A) : M A := fun c => (r, c).
Definition modify (f : client -> client) : M unit := fun c => (Ok tt, f c).
Definition gets {A} (f : client -> A) : M A := fun c => (Ok (f c), c).

(** [try: m except: h] *)
Definition catch {A} (m : M A) (h : exn -> M A) : M A :=
  fun c =>
    match m c with
    | (Ok a, c') => (Ok a, c')
    | (Raise e, c') => h e c'
    end.

Notation "x <- m ;; k" := (bind m (fun x => k))
  (at level 61, m at next level, right associativity).
Notation "m ;;; k" := (bind m (fun _ => k))
  (at level 61, right associativity).

Definition rbind {A B} (r : res A) (f : A -> res B) : res B :=
  match r with
  | Ok a => f a
  | Raise e => Raise e
  end.

Notation "x <~ r ;; k" := (rbind r (fun x => k))
  (at level 61, r at next level, right associativity).

(** [str * n] *)
Fixpoint repeat_char (a : ascii) (n : nat) : string :=
  match n with
  | 0 => EmptyString
  | S n' => String a (repeat_char a n')
  end.

(** Digits with a comma before every group of three from the right. *)
Fixpoint commas (s : string) : string :=
  match s with
  | EmptyString => EmptyString
  | String c s' =>
      String c (if (0 <? String.length s') && (String.length s' mod 3 =? 0)
                then String "," (commas s') else commas s')
  end.

Definition int_of_bool (b : bool) : Z := if b then 1%Z else 0%Z.

(** The format [{x:,}] of an f-string. *)
Definition format_comma (j : json) : res string :=
  let fmt (z : Z) :=
    match z with
    | Zneg _ => String "-" (commas (Py.str_nat (Z.to_nat (- z))))
    | _ => commas (Py.str_nat (Z.to_nat z))
    end in
  match j with
  | JInt z => Ok (fmt z)
  | JBool b => Ok (fmt (int_of_bool b))
  | JStr _ => Raise ValueError
  | _ => Raise TypeError
  end.

(** [x > n] for an integer literal [n]. *)
Definition py_gt (j : json) (n : Z) : res bool :=
  match j with
  | JInt z => Ok (n <? z)%Z
  | JBool b => Ok (n <? int_of_bool b)%Z
  | _ => Raise TypeError
  end.

(** ** The client *)

Section Client.

(** [json.loads]: [None] is a [JSONDecodeError]. *)
Variable json_loads : string -> option json.

(** *** Call extractor *)

(** The [tool_code] branch of [_process_tool_call_data]. *)
Definition tool_code_call (code : string) : option json :=
  let hit :=
    match Re.search Pat.plain_text code with
    | Some m => Some (Re.group 1 (Re.m_groups m), Re.group 2 (Re.m_groups m))
    | None =>
        match Re.search Pat.dotted_code code with
        | Some m =>
            Some ("fiddler_mcp__" +++ Re.group 1 (Re.m_groups m),
                  Re.group 2 (Re.m_groups m))
        | None => None
        end
    end in
  match hit with
  | Some (tool_name, args_str) =>
      let arguments :=
        fold_left
          (fun (d : dict) m =>
             dset (Re.group 1 (Re.m_groups m)) (JStr (Re.group 2 (Re.m_groups m))) d)
          (Re.finditer Pat.code_arg args_str) [] in
      Some (JDict [("tool", JStr tool_name); ("arguments", JDict arguments)])
  | None => None
  end.

Definition _process_tool_call_data (data : json) : res (option json) :=
  let first :=
    match data with
    | JList (d :: _) => Some d
    | JList [] => None
    | _ => Some data
    end in
  match first with
  | Some (JDict d) =>
      if dmem "tool" d && dmem "arguments" d then Ok (Some (JDict d))
      else if dmem "tool_code" d then
        match dget_or "tool_code" (JStr EmptyString) d with
        | JStr code => Ok (tool_code_call code)
        | _ => Raise TypeError
        end
      else Ok None
  | _ => Ok None
  end.

(** The two loops over [json_patterns] and their matches: the first match
    that decodes and yields a call wins; a match that does not decode is
    skipped. *)
Fixpoint first_call (matches : list string) : res (option json) :=
  match matches with
  | [] => Ok None
  | m :: rest =>
      match json_loads m with
      | None => first_call rest
      | Some data =>
          match _process_tool_call_data data with
          | Raise e => Raise e
          | Ok (Some r) => if truthy r then Ok (Some r) else first_call rest
          | Ok None => first_call rest
          end
      end
  end.

(** The plain-text fallback [fiddler_mcp__name(key=value, ...)]. *)
Definition plain_text_call (response_text : string) : option json :=
  match Re.search Pat.plain_text response_text with
  | Some m =>
      let tool_name := Re.group 1 (Re.m_groups m) in
      let args_str := Re.group 2 (Re.m_groups m) in
      let arguments :=
        fold_left
          (fun (d : dict) a =>
             let key := Re.group 1 (Re.m_groups a) in
             let quote := Re.group 2 (Re.m_groups a) in
             let value := Re.group 3 (Re.m_groups a) in
             if String.eqb quote EmptyString && Py.isdigit value
             then dset key (JInt (Py.int_of_digits value)) d
             else dset key (JStr value) d)
          (Re.finditer Pat.plain_arg args_str) [] in
      Some (JDict [("tool", JStr tool_name); ("arguments", JDict arguments)])
  | None => None
  end.

(** The text between the fence lines: [strip] of [lines[1:-1]] joined. *)
Definition unfence (response_text : string) : string :=
  Py.strip
    (Py.join (String newline EmptyString)
       (Py.slice_1_m1 (Py.split_on newline response_text))).

Definition parse_gemini_response (response_text : string) : res (option json) :=
  let response_text := Py.strip response_text in
  if String.eqb response_text EmptyString then Ok None
  else
    let response_text :=
      if Py.startswith fence response_text then unfence response_text
      else response_text in
    match json_loads response_text with
    | Some data => _process_tool_call_data data
    | None =>
        match first_call (Re.findall Pat.json_object response_text ++
                          Re.findall Pat.json_array response_text) with
        | Raise e => Raise e
        | Ok (Some r) => Ok (Some r)
        | Ok None => Ok (plain_text_call response_text)
        end
    end.

Definition _extract_text_before_tool_call (response_text : string) : string :=
  let response_text := Py.strip response_text in
  let len := String.length response_text in
  let start_of (r : Re.regex) (pos : nat) :=
    match Re.search r response_text with
    | Some m => Nat.min pos (Re.m_start m)
    | None => pos
    end in
  let earliest_pos :=
    start_of Pat.plain_text_head (start_of Pat.json_array (start_of Pat.json_object len)) in
  if earliest_pos <? len then
    Py.strip (Re.sub_empty Pat.dangling_label (Py.strip (Py.take earliest_pos response_text)))
  else response_text.

(** *** Transport session *)

Definition type_name (j : json) : string :=
  match j with
  | JNull => "NoneType"
  | JBool _ => "bool"
  | JInt _ => "int"
  | JStr _ => "str"
  | JList _ => "list"
  | JDict _ => "dict"
  end.

Definition no_attribute (j : json) (attr : string) : string :=
  "'" +++ type_name j +++ "' object has no attribute '" +++ attr +++ "'".

Definition error_reply (msg : string) : dict := [("error", JStr msg)].

(** [send_mcp_request]: every failure comes back as an [error] mapping, none
    is raised.  The reply is logged before it is returned; with the compact
    log a [tools/call] reply whose [result] is no mapping makes the logging
    fail, and the generic handler turns that into an [error] mapping too. *)
Definition send_mcp_request (method : string) (params : dict) : M dict :=
  fun c =>
    let id := S (request_id c) in
    let c := with_request_id id c in
    if negb (alive c) then (Ok (error_reply "MCP server process has terminated"), c)
    else
      let c := with_wire (wire c ++ [Request id method params]) c in
      match server c with
      | [] => (Ok (error_reply "MCP request failed: MCP server response timeout (30s)"), c)
      | r :: rest =>
          let c := with_server rest c in
          match r with
          | Silent =>
              (Ok (error_reply "MCP request failed: MCP server response timeout (30s)"), c)
          | Closed =>
              (Ok (error_reply "MCP request failed: MCP server closed connection"), c)
          | Malformed detail =>
              (Ok (error_reply ("Invalid JSON response: " +++ detail)), c)
          | Reply response =>
              if negb (verbose_logging c) && negb (dmem "error" response)
                 && String.eqb method "tools/call"
              then
                match dget "result" response with
                | Some (JDict _) | None => (Ok response, c)
                | Some j =>
                    (Ok (error_reply ("MCP request failed: " +++ no_attribute j "get")), c)
                end
              else (Ok response, c)
          end
      end.

(** [send_mcp_notification]: the error text, or [None]. *)
Definition send_mcp_notification (method : string) (params : dict) : M (option string) :=
  fun c =>
    if negb (alive c) then (Ok (Some "MCP server process has terminated"), c)
    else (Ok None, with_wire (wire c ++ [Notification method params]) c).

Definition initialize_params : dict :=
  [("protocolVersion", JStr "2024-11-05");
   ("capabilities", JDict []);
   ("clientInfo",
    JDict [("name", JStr "gemini-fiddler-client"); ("version", JStr "1.0.0")])].

(** [initialize_mcp]: a reply without [result] is reported on the console
    and nothing else happens. *)
Definition initialize_mcp : M unit :=
  response <- send_mcp_request "initialize" initialize_params ;;
  match dget "result" response with
  | Some result =>
      match result with
      | JDict rd =>
          match dget_or "serverInfo" (JDict []) rd with
          | JDict _ =>
              _ <- send_mcp_notification "notifications/initialized" [] ;;
              ret tt
          | _ => raise AttributeError
          end
      | _ => raise AttributeError
      end
  | None => ret tt
  end.

(** [start_mcp_server] once the log file is open and the process spawned:
    the handshake, and on any exception out of it the process is terminated
    and the program exits with status 1. *)
Definition start_mcp_server : M unit :=
  catch initialize_mcp
    (fun _ => modify (with_alive false) ;;; raise (SystemExit 1)).

Definition list_tools : M (list json) :=
  response <- send_mcp_request "tools/list" [] ;;
  if dmem "error" response then ret []
  else
    match dget_or "result" (JDict []) response with
    | JDict rd =>
        match dget_or "tools" (JList []) rd with
        | JList tools => modify (with_tools tools) ;;; ret tools
        | _ => raise TypeError
        end
    | _ => raise AttributeError
    end.

(** *** Name resolution and tool invoker *)

Definition NON_PREFIXED_ALIASES : list (string * string) :=
  [("get_sessions", "fiddler_mcp__live_sessions");
   ("live_sessions", "fiddler_mcp__live_sessions");
   ("list_sessions", "fiddler_mcp__live_sessions");
   ("session_body", "fiddler_mcp__session_body");
   ("get_body", "fiddler_mcp__session_body");
   ("session_headers", "fiddler_mcp__session_headers");
   ("get_headers", "fiddler_mcp__session_headers");
   ("compare_sessions", "fiddler_mcp__compare_sessions");
   ("sessions_search", "fiddler_mcp__sessions_search");
   ("search_sessions", "fiddler_mcp__sessions_search");
   ("live_stats", "fiddler_mcp__live_stats");
   ("get_stats", "fiddler_mcp__live_stats");
   ("sessions_timeline", "fiddler_mcp__sessions_timeline");
   ("sessions_clear", "fiddler_mcp__sessions_clear")].

Definition TOOL_ALIASES : list (string * string) :=
  [("fiddler_mcp__session_details", "fiddler_mcp__session_body");
   ("fiddler_mcp__sessions_details", "fiddler_mcp__session_body");
   ("fiddler_mcp__get_session", "fiddler_mcp__session_body");
   ("fiddler_mcp__get_body", "fiddler_mcp__session_body");
   ("fiddler_mcp__body", "fiddler_mcp__session_body");
   ("fiddler_mcp__list_sessions", "fiddler_mcp__live_sessions");
   ("fiddler_mcp__sessions_list", "fiddler_mcp__live_sessions");
   ("fiddler_mcp__get_sessions", "fiddler_mcp__live_sessions");
   ("fiddler_mcp__sessions", "fiddler_mcp__live_sessions");
   ("fiddler_mcp__get_headers", "fiddler_mcp__session_headers");
   ("fiddler_mcp__headers", "fiddler_mcp__session_headers");
   ("fiddler_mcp__stats", "fiddler_mcp__live_stats");
   ("fiddler_mcp__get_stats", "fiddler_mcp__live_stats");
   ("fiddler_mcp__search", "fiddler_mcp__sessions_search");
   ("fiddler_mcp__search_sessions", "fiddler_mcp__sessions_search");
   ("fiddler_mcp__compare", "fiddler_mcp__compare_sessions");
   ("fiddler_mcp__clear", "fiddler_mcp__sessions_clear");
   ("fiddler_mcp__timeline", "fiddler_mcp__sessions_timeline")].

Fixpoint alias_of (table : list (string * string)) (name : string) : option string :=
  match table with
  | [] => None
  | (k, v) :: rest => if String.eqb name k then Some v else alias_of rest name
  end.

(** [if tool_name in table: tool_name = table[tool_name]] *)
Definition apply_aliases (table : list (string * string)) (name : string) : string :=
  match alias_of table name with Some v => v | None => name end.

(** The dot-notation step at the head of [call_tool]. *)
Definition dotted_repair (tool_name : string) : string :=
  if Py.contains "." tool_name && negb (Py.startswith "fiddler_mcp__" tool_name) then
    match Py.split_on "." tool_name with
    | [_; suffix] => "fiddler_mcp__" +++ suffix
    | _ => tool_name
    end
  else tool_name.

(** The name [call_tool] validates and sends: dot repair, then the table of
    names without prefix, then the table of names with it. *)
Definition resolve_name (tool_name : string) : string :=
  apply_aliases TOOL_ALIASES (apply_aliases NON_PREFIXED_ALIASES (dotted_repair tool_name)).

(** [[t.get("name") for t in self.available_tools if t.get("name")]] *)
Fixpoint valid_tools (tools : list json) : res (list json) :=
  match tools with
  | [] => Ok []
  | JDict d :: rest =>
      match valid_tools rest with
      | Ok l => Ok (if truthy (dget_none "name" d) then dget_none "name" d :: l else l)
      | Raise e => Raise e
      end
  | _ :: _ => Raise AttributeError
  end.

(** [tool_name in valid] *)
Definition name_in (tool_name : string) (valid : list json) : bool :=
  existsb (fun j => eq_str j tool_name) valid.

(** [sep.join(l)] on Python values: a [TypeError] unless all are strings. *)
Fixpoint join_values (sep : string) (l : list json) : res string :=
  match l with
  | [] => Ok EmptyString
  | j :: rest =>
      match j with
      | JStr s =>
          match rest with
          | [] => Ok s
          | _ :: _ =>
              match join_values sep rest with
              | Ok t => Ok (s +++ sep +++ t)
              | Raise e => Raise e
              end
          end
      | _ => Raise TypeError
      end
  end.

Definition nl : string := String newline EmptyString.

Definition unknown_tool (tool_name : string) (valid : list json) : res json :=
  match (match valid with
         | [] => Ok "No tools available"
         | _ => join_values (nl +++ "- ") valid
         end) with
  | Ok tool_list =>
      Ok (JDict
            [("error", JStr ("Unknown tool: '" +++ tool_name +++ "'"));
             ("message",
              JStr ("This tool does not exist. Use ONLY these exact tool names:"
                    +++ nl +++ "- " +++ tool_list));
             ("hint",
              JStr "Check the tool name spelling and try again with one from the list above.");
             ("available_tools", JList valid)])
  | Raise e => Raise e
  end.

(** [_parse_tool_response]: the first mapping among the content items decides. *)
Fixpoint first_dict_item (content : list json) : option dict :=
  match content with
  | [] => None
  | JDict item :: _ => Some item
  | _ :: rest => first_dict_item rest
  end.

Definition result_keys : list string := ["success"; "error"; "sessions"; "bridge_status"].

Definition text_payload (text_data : json) : json :=
  match text_data with
  | JStr t =>
      if Py.startswith "{" (Py.strip t) || Py.startswith "[" (Py.strip t) then
        match json_loads t with
        | Some j => j
        | None => JDict [("text", text_data)]
        end
      else JDict [("text", text_data)]
  | _ => JDict [("text", text_data)]
  end.

Definition _parse_tool_response (response : dict) : json :=
  match dget "result" response with
  | None => JDict [("error", dget_or "error" (JStr "Tool call failed") response)]
  | Some (JDict rd) =>
      let from_content :=
        match dget_none "content" rd with
        | JList content =>
            match first_dict_item content with
            | Some item =>
                if eq_str (dget_none "type" item) "text" && dmem "text" item
                then Some (text_payload (dget_none "text" item))
                else Some (JDict item)
            | None => None
            end
        | _ => None
        end in
      match from_content with
      | Some j => j
      | None =>
          if existsb (fun key => dmem key rd) result_keys then JDict rd
          else
            match dget_none "response" rd with
            | JDict response_envelope =>
                match dget_none "data" response_envelope with
                | JNull => JDict response_envelope
                | JDict data => JDict data
                | data => JDict [("data", data)]
                end
            | _ => JDict rd
            end
      end
  | Some result => JDict [("result", result)]
  end.

(** Where [_save_body_to_file] wrote the text, [None] when writing failed;
    the path carries the time of day. *)
Variable dump_path : string -> string -> string -> option string.

Definition _save_body_to_file (auto_save : bool) (session_id : string)
    (body_text : json) (kind : string) : option string :=
  if auto_save then
    match body_text with
    | JStr t => dump_path session_id kind t
    | _ => None
    end
  else None.

(** [', '.join(x[:n])] *)
Definition join_first (n : nat) (x : json) : res string :=
  match x with
  | JList l => join_values ", " (firstn n l)
  | JStr t =>
      join_values ", "
        (map (fun a => JStr (String a EmptyString))
           (list_ascii_of_string (Py.take n t)))
  | _ => Raise TypeError
  end.

Definition rule (a : ascii) (n : nat) : json := JStr (repeat_char a n).

Definition titled (lead : list json) (title : string) (body : json) : list json :=
  if truthy body then lead ++ [rule "=" 60; JStr title; rule "=" 60; body] else [].

Definition _format_smart_extraction (extraction : json) : res string :=
  match extraction with
  | JDict [] => Ok EmptyString
  | JDict ex =>
      match dget_or "metadata" (JDict []) ex with
      | JDict metadata =>
          let original_size := dget_or "original_size" (JInt 0) metadata in
          let patterns_found := dget_or "patterns_found" (JList []) metadata in
          big <~ py_gt original_size 0 ;;
          header <~
            (if big : bool then
               size <~ format_comma original_size ;;
               found <~
                 (if truthy patterns_found then
                    l <~ join_first 10 patterns_found ;;
                    Ok [JStr ("[Suspicious patterns detected: " +++ l +++ "]")]
                  else Ok []) ;;
               Ok ([JStr ("[INTELLIGENT EXTRACTION from " +++ size +++ " byte file]")]
                     ++ found ++ [JStr EmptyString])
             else Ok []) ;;
          let head := titled [] "=== FILE START (first 8KB) ===" (dget_or "head" (JStr EmptyString) ex) in
          let suspicious :=
            titled [JStr EmptyString] "=== DETECTED SUSPICIOUS PATTERNS (from middle section) ==="
              (dget_or "suspicious_patterns" (JStr EmptyString) ex) in
          let tail :=
            titled [JStr EmptyString] "=== FILE END (last 4KB) ===" (dget_or "tail" (JStr EmptyString) ex) in
          summary <~
            (match metadata with
             | [] => Ok []
             | _ :: _ =>
                 let total_extracted := dget_or "total_extracted" (JInt 0) metadata in
                 let patterns_count := dget_or "patterns_count" (JInt 0) metadata in
                 total <~ format_comma total_extracted ;;
                 size <~ format_comma original_size ;;
                 some <~ py_gt patterns_count 0 ;;
                 Ok ([JStr EmptyString; rule "-" 40;
                      JStr ("[Extraction summary: " +++ total +++ " bytes extracted from "
                            +++ size +++ " bytes original]")]
                       ++ (if some : bool
                           then [JStr ("[" +++ py_str patterns_count
                                       +++ " suspicious code patterns identified]")]
                           else []))
             end) ;;
          join_values nl (header ++ head ++ suspicious ++ tail ++ summary)
      | _ => Raise AttributeError
      end
  | _ => Ok EmptyString
  end.

(** *** Automatic body fetch after a search *)

(** [sessions[0]] for a truthy [sessions]; the exception is the one the
    subscript, or the [get] that follows it, raises. *)
Definition first_session (sessions : json) : res dict :=
  match sessions with
  | JList (JDict first :: _) => Ok first
  | JList _ => Raise AttributeError
  | JStr _ => Raise AttributeError
  | JDict _ => Raise KeyError
  | _ => Raise TypeError
  end.

(** [len([s for s in sessions if str(s.get("id", "")) == session_id])] *)
Fixpoint count_ids (session_id : string) (sessions : list json) : res nat :=
  match sessions with
  | [] => Ok 0
  | JDict s :: rest =>
      n <~ count_ids session_id rest ;;
      Ok (if String.eqb (py_str (dget_or "id" (JStr EmptyString) s)) session_id
          then S n else n)
  | _ :: _ => Raise AttributeError
  end.

Definition session_list (sessions : json) : list json :=
  match sessions with JList l => l | _ => [] end.

Definition shortened : string :=
  nl +++ nl +++ "...[preview shortened for conversation output]".

Definition smart_shortened : string :=
  nl +++ nl +++ "...[smart extraction shortened for conversation output]".

(** [len(x) > limit] *)
Definition longer_than (limit : nat) (x : json) : res bool :=
  match x with
  | JStr t => Ok (limit <? String.length t)
  | JList l => Ok (limit <? List.length l)
  | JDict d => Ok (limit <? List.length d)
  | _ => Raise TypeError
  end.

(** [x[:limit] + marker] *)
Definition clipped (limit : nat) (marker : string) (x : json) : res json :=
  match x with
  | JStr t => Ok (JStr (Py.take limit t +++ marker))
  | _ => Raise TypeError
  end.

Definition auto_fetch_metadata (session_id : string) (received_at received_at_iso : json)
    (has_duplicates : bool) (n_dup : nat) : json :=
  JDict
    [("fetched_session_id", JStr session_id);
     ("fetched_timestamp", received_at_iso);
     ("fetched_received_at", received_at);
     ("has_duplicate_ids", JBool has_duplicates);
     ("note",
      JStr ("This is session " +++ session_id +++ " from the search results (first match)"
            +++ (if has_duplicates
                 then " - WARNING: " +++ Py.str_nat n_dup
                      +++ " sessions share this ID with different timestamps"
                 else EmptyString)))].

(** [is_javascript and size_bytes and size_bytes > 50000] *)
Definition use_smart_extract (body_data : dict) : res json :=
  match py_or (dget_or "content_type" (JStr EmptyString) body_data) (JStr EmptyString) with
  | JStr content_type =>
      let is_javascript := Py.contains "javascript" (Py.lower content_type) in
      let size_bytes := dget_none "content_length" body_data in
      if negb is_javascript then Ok (JBool false)
      else if negb (truthy size_bytes) then Ok size_bytes
      else b <~ py_gt size_bytes 50000 ;; Ok (JBool b)
  | _ => Raise AttributeError
  end.

Definition full_fetch_arguments (session_id : string) (smart : json) : dict :=
  [("session_id", JStr session_id);
   ("include_binary", JBool true);
   ("smart_extract", smart)].

Definition truncated_of (body_data : dict) : json :=
  py_or (dget_none "response_truncated" body_data) (dget_none "truncated" body_data).

(** The end of [_auto_fetch_session_body], in the three steps the source
    takes one after the other.  First the response body: the formatted smart
    extraction when the bridge delivered one, else a preview of the text;
    the full text is saved when saving is enabled. *)
Definition response_preview (auto_save : bool) (session_id : string)
    (body_data : dict) (truncated_flag size_bytes : json) : res dict :=
  let smart_extraction := dget_none "smart_extraction" body_data in
  let smart_extraction_available :=
    dget_or "smart_extraction_available" (JBool false) body_data in
  let response_text := py_or (dget_none "response_body" body_data) (JStr EmptyString) in
  if truthy (py_and smart_extraction_available smart_extraction) then
    formatted <~ _format_smart_extraction smart_extraction ;;
    if String.eqb formatted EmptyString then Ok body_data
    else
      let analyzed :=
        if 24000 <? String.length formatted
        then JStr (Py.take 24000 formatted +++ smart_shortened)
        else JStr formatted in
      let body_data := dset "response_body_analyzed" analyzed body_data in
      let body_data := dset "response_body" analyzed body_data in
      let body_data := dset "response_body_preview" analyzed body_data in
      let body_data := dset "analysis_method" (JStr "smart_extraction") body_data in
      _ <~ (match smart_extraction with
            | JDict ex =>
                match dget_or "metadata" (JDict []) ex with
                | JDict metadata =>
                    let patterns_found := dget_or "patterns_found" (JList []) metadata in
                    if truthy patterns_found then
                      _ <~ longer_than 0 patterns_found ;;
                      _ <~ join_first 5 patterns_found ;; Ok tt
                    else Ok tt
                | _ => Raise AttributeError
                end
            | _ => Raise AttributeError
            end) ;;
      match _save_body_to_file auto_save session_id response_text "response" with
      | Some saved_path =>
          let body_data := dset "saved_response_path" (JStr saved_path) body_data in
          size <~ format_comma size_bytes ;;
          let body_data :=
            setdefault "auto_note_details"
              (JStr ("Smart extraction from " +++ size
                     +++ " byte file; full response saved to " +++ saved_path))
              body_data in
          Ok (dset "auto_note"
                (JStr ("Smart extraction applied; full body saved to " +++ saved_path))
                body_data)
      | None =>
          Ok (dset "auto_note" (JStr "Smart extraction applied for enhanced analysis")
                body_data)
      end
  else if truthy response_text then
    long <~ longer_than 8000 response_text ;;
    body_data <~
      (if long : bool then
         preview <~ clipped 8000 shortened response_text ;;
         Ok (dset "response_body" preview (dset "response_body_preview" preview body_data))
       else Ok (dset "response_body_preview" response_text body_data)) ;;
    match _save_body_to_file auto_save session_id response_text "response" with
    | Some saved_path =>
        let body_data := dset "saved_response_path" (JStr saved_path) body_data in
        let details :=
          match size_bytes with
          | JNull => "Full response saved to " +++ saved_path
          | _ => "Body length reported as " +++ py_str size_bytes
                 +++ " bytes; full response saved to " +++ saved_path
          end in
        let body_data := setdefault "auto_note_details" (JStr details) body_data in
        Ok (dset "auto_note"
              (JStr (if truthy truncated_flag
                     then "Body preview truncated; full response saved to " +++ saved_path
                     else "Full body retrieved and saved to " +++ saved_path))
              body_data)
    | None => Ok body_data
    end
  else Ok body_data.

(** Then the request body: a preview, and a saved copy. *)
Definition request_preview (auto_save : bool) (session_id : string)
    (body_data : dict) : res dict :=
  let request_text := py_or (dget_none "request_body" body_data) (JStr EmptyString) in
  if truthy request_text then
    long <~ longer_than 4000 request_text ;;
    body_data <~
      (if long : bool then
         preview <~ clipped 4000 shortened request_text ;;
         Ok (dset "request_body" preview (dset "request_body_preview" preview body_data))
       else Ok (dset "request_body_preview" request_text body_data)) ;;
    match _save_body_to_file auto_save session_id request_text "request" with
    | Some saved_req_path => Ok (dset "saved_request_path" (JStr saved_req_path) body_data)
    | None => Ok body_data
    end
  else Ok body_data.

(** Last the notes, kept when an earlier step has set them: the note names
    the duplicates of the session id. *)
Definition closing_notes (session_id : string) (has_duplicates : bool) (n_dup : nat)
    (received_at_iso : json) (body_data : dict) (truncated_flag size_bytes : json) : dict :=
  let base_note :=
    (if truthy truncated_flag
     then "Body preview truncated; saved full payload to disk"
     else "Full body retrieved")
    +++ (if has_duplicates
         then " [Session " +++ session_id +++ " at " +++ py_str received_at_iso
              +++ " - " +++ Py.str_nat n_dup +++ " total with this ID]"
         else EmptyString) in
  let body_data := setdefault "auto_note" (JStr base_note) body_data in
  match size_bytes with
  | JNull => body_data
  | _ => setdefault "auto_note_details"
           (JStr ("Body length reported as " +++ py_str size_bytes +++ " bytes"))
           body_data
  end.

Definition finish_body (auto_save : bool) (session_id : string)
    (has_duplicates : bool) (n_dup : nat) (received_at_iso : json)
    (body_data : dict) (truncated_flag size_bytes : json) : res dict :=
  body_data <~ response_preview auto_save session_id body_data truncated_flag size_bytes ;;
  body_data <~ request_preview auto_save session_id body_data ;;
  Ok (closing_notes session_id has_duplicates n_dup received_at_iso body_data
        truncated_flag size_bytes).

Definition lookup_failed : string :=
  "Automatic session body lookup failed or returned no content.".

Definition full_fetch_failed : string :=
  "Body preview was truncated and full fetch failed; inspect manually via fiddler_mcp__session_body".

Definition body_request (arguments : dict) : dict :=
  [("name", JStr "fiddler_mcp__session_body"); ("arguments", JDict arguments)].

(** The truncation follow-up of [_auto_fetch_session_body]: the body is asked
    for again with [include_binary], and with [smart_extract] as computed; a
    full body that arrives replaces the preview, otherwise the preview goes
    back with a note. *)
Definition fetch_in_full (auto_save : bool) (session_id : string)
    (has_duplicates : bool) (n_dup : nat) (received_at_iso : json)
    (body_data : dict) (size_bytes : json) : M (option json) :=
  smart <- lift (use_smart_extract body_data) ;;
  raw_response <-
    send_mcp_request "tools/call" (body_request (full_fetch_arguments session_id smart)) ;;
  match _parse_tool_response raw_response with
  | JDict raw_data =>
      if truthy (dget_none "success" raw_data) then
        b <- lift (finish_body auto_save session_id has_duplicates n_dup
                     received_at_iso raw_data (truncated_of raw_data)
                     (dget_or "content_length" size_bytes raw_data)) ;;
        ret (Some (JDict b))
      else
        ret (Some (JDict (setdefault "auto_note" (JStr full_fetch_failed) body_data)))
  | _ =>
      ret (Some (JDict (setdefault "auto_note" (JStr full_fetch_failed) body_data)))
  end.

Definition _auto_fetch_session_body (search_result : dict) : M (option json) :=
  let sessions := py_or (dget_none "sessions" search_result) (JList []) in
  if negb (truthy sessions) then ret None
  else
    first <- lift (first_session sessions) ;;
    let session_id := Py.strip (py_str (dget_or "id" (JStr EmptyString) first)) in
    if String.eqb session_id EmptyString then ret None
    else
      let received_at := dget_none "received_at" first in
      let received_at_iso :=
        py_or (dget_none "received_at_iso" first) (dget_none "time" first) in
      n_dup <- lift (count_ids session_id (session_list sessions)) ;;
      let has_duplicates := 1 <? n_dup in
      response <- send_mcp_request "tools/call" (body_request [("session_id", JStr session_id)]) ;;
      match _parse_tool_response response with
      | JDict body_data =>
          if is_False (dget_none "success" body_data)
          then ret (Some (JDict (setdefault "note" (JStr lookup_failed) body_data)))
          else
            let body_data :=
              dset "_auto_fetch_metadata"
                (auto_fetch_metadata session_id received_at received_at_iso
                   has_duplicates n_dup) body_data in
            let truncated_flag := truncated_of body_data in
            let size_bytes := dget_none "content_length" body_data in
            auto_save <- gets auto_save_full_bodies ;;
            if truthy truncated_flag then
              fetch_in_full auto_save session_id has_duplicates n_dup received_at_iso
                body_data size_bytes
            else
              b <- lift (finish_body auto_save session_id has_duplicates n_dup
                           received_at_iso body_data truncated_flag size_bytes) ;;
              ret (Some (JDict b))
      | other => ret (Some other)
      end.

(** The merge at the end of [call_tool]: the follow-up goes under
    [_follow_up.session_body_preview]; the status line read from it afterwards
    can still raise. *)
Definition merge_follow_up (result : dict) (follow_up : option json) : res json :=
  match follow_up with
  | None => Ok (JDict result)
  | Some fu =>
      if negb (truthy fu) then Ok (JDict result)
      else
        match dget_or "_follow_up" (JDict []) result with
        | JDict slot =>
            let result := dset "_follow_up" (JDict (dset "session_body_preview" fu slot)) result in
            match fu with
            | JDict f =>
                let metadata := dget_or "_auto_fetch_metadata" (JDict []) f in
                let follow_id := py_or (dget_none "session_id" f) (dget_none "id" f) in
                if truthy follow_id then
                  match metadata with
                  | JDict _ => Ok (JDict result)
                  | _ => Raise AttributeError
                  end
                else Ok (JDict result)
            | _ => Raise AttributeError
            end
        | _ => Raise TypeError
        end
  end.

Definition call_tool (tool_name : json) (arguments : json) : M json :=
  match tool_name with
  | JStr tool_name =>
      let tool_name := resolve_name tool_name in
      tools <- gets available_tools ;;
      valid <- lift (valid_tools tools) ;;
      if negb (name_in tool_name valid) then lift (unknown_tool tool_name valid)
      else
        match arguments with
        | JDict _ =>
            response <-
              send_mcp_request "tools/call"
                [("name", JStr tool_name); ("arguments", arguments)] ;;
            let result := _parse_tool_response response in
            if String.eqb tool_name "fiddler_mcp__sessions_search" then
              match result with
              | JDict rd =>
                  if truthy (dget_none "success" rd) then
                    follow_up <- _auto_fetch_session_body rd ;;
                    lift (merge_follow_up rd follow_up)
                  else ret result
              | _ => raise AttributeError
              end
            else ret result
        | _ => raise AttributeError
        end
  | _ => raise TypeError
  end.

(** *** Orchestration loop *)

(** [model.generate_content(prompt, generation_config)] followed by
    [extract_text_safe]; a model with nothing left to say gives no text. *)
Definition generate_content (p : prompt) (temperature : option Z) : M string :=
  fun c =>
    let c := with_asked (asked c ++ [Generation p temperature]) c in
    match agent c with
    | [] => (Ok EmptyString, c)
    | Text t :: rest => (Ok t, with_agent rest c)
    | Fails e :: rest => (Raise e, with_agent rest c)
    end.

Definition remember (t : turn) : M unit :=
  modify (fun c => with_history (conversation_history c ++ [t]) c).

(** [d[k]] *)
Definition subscript (k : string) (d : json) : res json :=
  match d with
  | JDict l => match dget k l with Some v => Ok v | None => Raise KeyError end
  | _ => Raise TypeError
  end.

(** [arguments.items()], evaluated for the log line before the tool runs. *)
Definition items_exist (arguments : json) : res unit :=
  match arguments with
  | JDict _ => Ok tt
  | _ => Raise AttributeError
  end.

(** One tool execution of [chat]: the call is noted, then made. *)
Definition invoke (tool_name arguments : json) : M json :=
  modify (fun c => with_invoked (invoked c ++ [(tool_name, arguments)]) c) ;;;
  call_tool tool_name arguments.

(** [if tool_call:] on what [parse_gemini_response] returned. *)
Definition wanted (tool_call : option json) : option json :=
  match tool_call with
  | Some call => if truthy call then Some call else None
  | None => None
  end.

Definition analysis_blocked : string :=
  "Analysis blocked by safety filters. This may indicate the content contains potentially harmful code. Try: 'Analyze session X for malicious patterns' with a fresh request.".

Definition followup_blocked : string :=
  "Follow-up analysis blocked by safety filters. The content may contain malicious code patterns.".

Definition interrupt_msg : string :=
  nl +++ nl +++ "[INTERRUPTED] User stopped the model's response chain. You can ask a new question or modify your prompt.".

(** What [chat] does with a detected call, at both places where it runs
    one: read the name and the arguments, format the arguments for the log,
    execute the tool and append its result to the history. *)
Definition run_call (call : json) : M (json * json) :=
  tool_name <- lift (subscript "tool" call) ;;
  arguments <- lift (subscript "arguments" call) ;;
  _ <- lift (items_exist arguments) ;;
  tool_result <- invoke tool_name arguments ;;
  remember (ToolTurn tool_name tool_result) ;;;
  ret (tool_name, tool_result).

(** [while followup_count < max_followups], with [budget] rounds left. *)
Fixpoint followups (budget : nat) (current_text : string) : M string :=
  match budget with
  | 0 =>
      remember (AssistantTurn current_text) ;;;
      ret current_text
  | S budget' =>
      next_tool_call <- lift (parse_gemini_response current_text) ;;
      match wanted next_tool_call with
      | None =>
          remember (AssistantTurn current_text) ;;;
          ret current_text
      | Some call =>
          let explanatory_text := _extract_text_before_tool_call current_text in
          (if String.eqb (Py.strip explanatory_text) EmptyString then ret tt
           else remember (AssistantTurn explanatory_text)) ;;;
          ran <- run_call call ;;
          text <- generate_content (FollowUp (fst ran) (snd ran)) None ;;
          if String.eqb text EmptyString then
            remember (AssistantTurn followup_blocked) ;;;
            ret followup_blocked
          else followups budget' text
      end
  end.

(** What [str(e)] shows of an exception; the interpreter's own wording is not
    modelled. *)
Definition exn_str (e : exn) : string :=
  match e with
  | AttributeError => "AttributeError"
  | TypeError => "TypeError"
  | KeyError => "KeyError"
  | ValueError => "ValueError"
  | KeyboardInterrupt => "KeyboardInterrupt"
  | RuntimeError msg => msg
  | SystemExit _ => "SystemExit"
  end.

(** [chat] from [parse_gemini_response(gemini_text)] on: the direct answer,
    or the first tool call, its analysis and the follow-up loop. *)
Definition answer_or_call (user_query gemini_text : string) : M string :=
  tool_call <- lift (parse_gemini_response gemini_text) ;;
  match wanted tool_call with
  | Some call =>
      ran <- run_call call ;;
      analysis <- generate_content (ToolAnalysis (fst ran) (snd ran) user_query) None ;;
      let final_text :=
        if String.eqb analysis EmptyString then analysis_blocked else analysis in
      budget <- gets max_followups ;;
      followups budget final_text
  | None =>
      remember (AssistantTurn gemini_text) ;;;
      ret gemini_text
  end.

(** *** The prompt of a query *)

(** [x in container] for a text [x]. *)
Definition text_in (x : string) (container : json) : res bool :=
  match container with
  | JStr s => Ok (Py.contains x s)
  | JList l =>
      Ok (existsb (fun v => match v with JStr t => String.eqb t x | _ => false end) l)
  | JDict d => Ok (dmem x d)
  | _ => Raise TypeError
  end.

(** The line of one parameter of a tool. *)
Definition parameter_line (schema : dict) (param_name : string) (param_info : json)
    : res string :=
  match param_info with
  | JDict info =>
      let param_type := dget_or "type" (JStr "any") info in
      let param_desc := dget_or "description" (JStr EmptyString) info in
      is_required <~ text_in param_name (dget_or "required" (JList []) schema) ;;
      Ok ("     - " +++ param_name +++ " (" +++ py_str param_type +++ ", "
          +++ (if is_required : bool then "required" else "optional") +++ "): "
          +++ py_str param_desc)
  | _ => Raise AttributeError
  end.

Fixpoint parameter_lines (schema : dict) (props : dict) : res (list string) :=
  match props with
  | [] => Ok []
  | (param_name, param_info) :: rest =>
      line <~ parameter_line schema param_name param_info ;;
      lines <~ parameter_lines schema rest ;;
      Ok (line :: lines)
  end.

(** The lines [create_tool_descriptions] writes for the [i]-th tool. *)
Definition tool_lines (i : nat) (tool : json) : res (list string) :=
  match tool with
  | JDict t =>
      let name := dget_or "name" (JStr EmptyString) t in
      let desc := dget_or "description" (JStr "No description") t in
      match dget_or "inputSchema" (JDict []) t with
      | JDict schema =>
          let props := dget_or "properties" (JDict []) schema in
          is_body <~ text_in "session_body" name ;;
          parameters <~
            (if truthy props then
               match props with
               | JDict p =>
                   lines <~ parameter_lines schema p ;;
                   Ok ("   Parameters:" :: lines)
               | _ => Raise AttributeError
               end
             else Ok []) ;;
          Ok ([Py.str_nat i +++ ". " +++ py_str name;
               "   Description: " +++ py_str desc]
              ++ (if is_body : bool then
                    ["   SECURITY NOTE: Use this tool to analyze script behavior, not just content.";
                     "   Focus on: DOM manipulation, redirects, iframe injection, anti-analysis patterns."]
                  else [])
              ++ parameters ++ [EmptyString])
      | _ => Raise AttributeError
      end
  | _ => Raise AttributeError
  end.

Fixpoint tools_lines (i : nat) (tools : list json) : res (list string) :=
  match tools with
  | [] => Ok []
  | tool :: rest =>
      lines <~ tool_lines i tool ;;
      more <~ tools_lines (S i) rest ;;
      Ok (lines ++ more)
  end.

(** [create_tool_descriptions]: the catalog as text; it raises on a
    descriptor it cannot read. *)
Definition create_tool_descriptions (tools : list json) (limit : nat) : res string :=
  match tools with
  | [] => Ok "No tools available."
  | _ :: _ =>
      lines <~ tools_lines 1 tools ;;
      Ok (Py.join nl
            (["Available Fiddler MCP Tools:" +++ nl]
             ++ lines
             ++ [nl +++ repeat_char "="%char 80;
                 "IMPORTANT: YOU CAN CALL ANY TOOL MULTIPLE TIMES!";
                 repeat_char "="%char 80;
                 EmptyString;
                 "You are NOT limited to one tool call per user request.";
                 "You can call tools up to " +++ Py.str_nat limit
                 +++ " times to gather all necessary information.";
                 EmptyString;
                 "Common multi-call scenarios:";
                 "  - List sessions, then analyze multiple session bodies";
                 "  - Search for pattern, then examine each matching session";
                 "  - Get suspicious sessions, then investigate top 5 in detail";
                 "  - Discover attack chain, then trace each stage";
                 EmptyString;
                 "After EACH tool result, you can either:";
                 "  a) Make ANOTHER tool call (no permission needed)";
                 "  b) Provide your final analysis";
                 EmptyString;
                 "Make calls as needed to provide thorough, complete analysis!";
                 repeat_char "="%char 80 +++ nl]))
  end.

(** [build_gemini_prompt]: the prompt of the initial query, kept by kind;
    writing it reads the catalog, which can fail.  The recent history it
    quotes as well holds texts only, and quoting them cannot fail. *)
Definition build_gemini_prompt (user_query : string) : M prompt :=
  tools <- gets available_tools ;;
  limit <- gets max_followups ;;
  _ <- lift (create_tool_descriptions tools limit) ;;
  ret (InitialQuery user_query).

(** The body of [chat]'s [try]. *)
Definition chat_body (user_query : string) : M string :=
  first_text <- generate_content (InitialQuery user_query) None ;;
  gemini_text <-
    (if String.eqb first_text EmptyString
     then generate_content (StricterRetry user_query) (Some 0%Z)
     else ret first_text) ;;
  answer_or_call user_query gemini_text.

(** [chat]: the user's turn is noted and the prompt built before the [try]
    is entered, so that what building the prompt raises leaves [chat]. *)
Definition chat (user_query : string) : M string :=
  remember (UserTurn user_query) ;;;
  _ <- build_gemini_prompt user_query ;;
  catch (chat_body user_query)
    (fun e =>
       match e with
       | KeyboardInterrupt =>
           remember (SystemTurn "[User interrupted the response]") ;;;
           ret interrupt_msg
       | SystemExit _ => raise e
       | _ =>
           let error_msg := "Error processing query: " +++ exn_str e in
           remember (ErrorTurn error_msg) ;;;
           ret error_msg
       end).

(** *** Start-up, as [main] runs it *)

(** The listing of the discovered tools: it reads each tool's name as text. *)
Fixpoint print_tools (tools : list json) : res unit :=
  match tools with
  | [] => Ok tt
  | JDict d :: rest =>
      match dget_or "name" (JStr "unknown") d with
      | JStr _ => print_tools rest
      | _ => Raise AttributeError
      end
  | _ :: _ => Raise AttributeError
  end.

(** The loop of [interactive_mode] on plain questions: an answer is shown;
    for an exception that leaves [chat] the error is printed instead and the
    loop goes on. *)
Fixpoint ask_all (queries : list string) : M (list string) :=
  match queries with
  | [] => ret []
  | q :: rest =>
      shown <-
        catch (answer <- chat q ;; ret [answer])
          (fun e =>
             match e with
             | SystemExit _ => raise e
             | _ => ret []
             end) ;;
      answers <- ask_all rest ;;
      ret (shown ++ answers)
  end.

(** [main] from the start of the server to the end of the interactive mode,
    the operator typing [queries] (plain questions, no command) and then
    [/quit]: the answers shown, or the exit status. *)
Definition main (queries : list string) : M (list string) :=
  catch
    (start_mcp_server ;;;
     tools <- list_tools ;;
     match tools with
     | [] => raise (SystemExit 1)
     | _ :: _ =>
         _ <- lift (print_tools tools) ;;
         ask_all queries
     end)
    (fun e =>
       match e with
       | SystemExit _ => raise e
       | KeyboardInterrupt => raise (SystemExit 0)
       | _ => raise (SystemExit 1)
       end).

End Client.

(** ** Configuration *)

(** The configuration file as [load_config] finds it: not there, there but
    not readable as JSON, or decoded. *)
Inductive config_file : Type :=
| NoFile
| Unreadable
| Decoded (config : json).

(** [os.getenv(name, default)] *)
Definition getenv_or (getenv : string -> option string) (name default : string) : string :=
  match getenv name with Some v => v | None => default end.

(** [v in {"1", "true", "yes", "on"}] *)
Definition switched_on (v : string) : bool :=
  String.eqb v "1" || String.eqb v "true" || String.eqb v "yes" || String.eqb v "on".

(** [load_config]: the file when it holds an API key, else the environment,
    else nothing; an exception while the file is read is dropped. *)
Definition load_config (file : config_file) (getenv : string -> option string) : dict :=
  let from_environment :=
    match getenv "GEMINI_API_KEY" with
    | Some api_key =>
        if String.eqb api_key EmptyString then []
        else
          [("api_key", JStr api_key);
           ("model", JStr (getenv_or getenv "GEMINI_MODEL" "gemini-2.5-flash"));
           ("auto_save_full_bodies",
            JBool (switched_on
                     (Py.lower (getenv_or getenv "GEMINI_AUTO_SAVE_FULL_BODIES" "false"))))]
    | None => []
    end in
  match file with
  | Decoded (JDict config) =>
      if truthy (dget_none "api_key" config)
      then setdefault "auto_save_full_bodies" (JBool false) config
      else from_environment
  | _ => from_environment
  end.

(** ** The bridge: [FiddlerBridgeClient.clear_sessions] *)

Module Bridge.

(** An HTTP request made through [FiddlerBridgeClient.request]. *)
Record http_request : Type := Http
  { h_method : string; h_path : string; h_json : dict }.

(** What the HTTP bridge does with a request: the decoded body of its answer,
    or one of the two errors [request] raises. *)
Inductive http_outcome : Type :=
| Answered (data : json)
| BridgeConnectionError
| BridgeRequestError (detail : string).

(** The enhanced bridge as the tool server sees it: the sessions it buffers
    and the requests it has received. *)
Record bridge : Type := BridgeState
  { live_sessions : list json;
    suspicious_sessions : list json;
    received : list http_request }.

Section Clear.

(** How the enhanced bridge serves a request: its two buffers afterwards and
    its answer. *)
Variable serve :
  http_request -> list json * list json -> (list json * list json) * http_outcome.

(** [FiddlerBridgeClient.request]: one HTTP request, no retry. *)
Definition request (method path : string) (json_payload : dict) (b : bridge)
    : http_outcome * bridge :=
  let r := Http method path json_payload in
  let '(live, suspicious, out) := serve r (live_sessions b, suspicious_sessions b) in
  (out, BridgeState live suspicious (received b ++ [r])).

(** [datetime.now().isoformat()] *)
Variable now_iso : string.

Definition clear_sessions (confirm clear_suspicious : bool) (b : bridge) : dict * bridge :=
  if negb confirm then
    ([("success", JBool false);
      ("error", JStr "Confirmation required to clear sessions");
      ("help", JStr "Set confirm=true to permanently delete all buffered session data.")],
     b)
  else
    let payload := [("confirm", JBool true); ("clear_suspicious", JBool clear_suspicious)] in
    match request "POST" "/api/clear" payload b with
    | (BridgeConnectionError, b') =>
        ([("success", JBool false);
          ("error", JStr "Cannot connect to real-time bridge");
          ("bridge_status", JStr "Disconnected")], b')
    | (BridgeRequestError exc, b') =>
        ([("success", JBool false);
          ("error", JStr ("Clear request failed: " +++ exc))], b')
    | (Answered (JDict data), b') =>
        if negb (truthy (dget_or "success" (JBool true) data)) then
          ([("success", JBool false);
            ("error", dget_or "error" (JStr "Clear request failed") data)], b')
        else
          ([("success", JBool true);
            ("message", dget_or "message" (JStr "Sessions cleared") data);
            ("cleared_counts",
             JDict [("live_sessions", dget_or "sessions_cleared" (JInt 0) data);
                    ("suspicious_sessions", dget_or "suspicious_cleared" (JInt 0) data)]);
            ("timestamp", dget_or "timestamp" (JStr now_iso) data)], b')
    | (Answered _, b') =>
        ([("success", JBool false); ("error", JStr "Unexpected response")], b')
    end.

(** The tool [fiddler_mcp__sessions_clear]; both parameters default to
    [False]. *)
Definition fiddler_mcp__sessions_clear (confirm clear_suspicious : option bool)
    (b : bridge) : dict * bridge :=
  clear_sessions (match confirm with Some v => v | None => false end)
    (match clear_suspicious with Some v => v | None => false end) b.

End Clear.

End Bridge.

(** * The tool server: [FiddlerBridgeClient] and its tools

    [src/5ire-bridge.py] talks to the HTTP bridge through [requests]; what a
    request meets there is an outcome the environment supplies.  The calls
    made and the pauses taken are logged in the state. *)

Module Server.

(** [requests.request(...)] followed by [raise_for_status()]: the three
    handlers of [request] in their order, or a response that passed, with
    its body and its [content-type] header.  [exc] is [str(exc)]; an HTTP
    error status arrives as [RequestFailed]. *)
Inductive http_result : Type :=
| NoConnection
| TimedOut
| RequestFailed (exc : string)
| Body (content : string) (content_type : string).

(** One HTTP request as [request] receives it: [timeout] is the argument
    given, in seconds, not the effective one. *)
Record http_call : Type := Call
  { c_method : string;
    c_path : string;
    c_params : option dict;
    c_json : option dict;
    c_timeout : option nat }.

(** The HTTP bridge as the tool server meets it: the outcomes of the coming
    requests (none left: the bridge is gone), the requests made and the
    pauses taken with [sleep], oldest first. *)
Record remote : Type := Remote
  { pending : list http_result;
    calls : list http_call;
    slept : list nat }.

(** The exceptions of the module, and those of the interpreter. *)
Inductive failure : Type :=
| BridgeConnectionError (msg : string)
| BridgeRequestError (msg : string)
| Python (e : exn).

Inductive outcome (A : Type) : Type :=
| Returns (a : A)
| Raises (f : failure).
Arguments Returns {A} a.
Arguments Raises {A} f.

Definition B (A : Type) : Type := remote -> outcome A * remote.

Definition DEFAULT_BODY_TIMEOUT : nat := 30.

(** [max(lo, min(x, hi))] *)
Definition clamp (lo hi x : Z) : Z := Z.max lo (Z.min x hi).

Definition upper_ascii (c : ascii) : ascii :=
  let n := nat_of_ascii c in
  if (97 <=? n) && (n <=? 122) then ascii_of_nat (n - 32) else c.

(** [s.upper()] on ASCII text. *)
Fixpoint upper (s : string) : string :=
  match s with
  | EmptyString => EmptyString
  | String c s' => String (upper_ascii c) (upper s')
  end.

(** [hash(x)] succeeds. *)
Definition hashable (j : json) : bool :=
  match j with
  | JList _ | JDict _ => false
  | _ => true
  end.

(** [for x in v]: the items an iteration over [v] yields. *)
Definition iterate (v : json) : res (list json) :=
  match v with
  | JList l => Ok l
  | JStr s => Ok (map (fun a => JStr (String a EmptyString)) (list_ascii_of_string s))
  | JDict d => Ok (map (fun kv => JStr (fst kv)) d)
  | _ => Raise TypeError
  end.

(** [(a or b or c or empty).strip()] for the empty text [empty], then
    [x if x else None]. *)
Definition ekfiddle (a b c : json) : res json :=
  match py_or a (py_or b (py_or c (JStr EmptyString))) with
  | JStr s => Ok (if String.eqb (Py.strip s) EmptyString then JNull else JStr (Py.strip s))
  | _ => Raise AttributeError
  end.

(** The entry [get_live_sessions] builds for one session of the bridge,
    with the host it adds to [unique_hosts]. *)
Definition live_entry (session : json) : res (json * json) :=
  match session with
  | JDict s =>
      let host := py_or (dget_or "host" (JStr EmptyString) s) (JStr EmptyString) in
      if negb (hashable host) then Raise TypeError
      else
        ekfiddle_comment <~
          ekfiddle (dget_none "ekfiddleComments" s) (dget_none "sessionFlags" s)
            (dget_none "ekfiddleFlags" s) ;;
        match py_or (dget_none "scheme" s) (JStr EmptyString) with
        | JStr scheme =>
            Ok (host,
                JDict
                  [("id", dget_none "id" s);
                   ("time", dget_none "time" s);
                   ("received_at", dget_none "received_at" s);
                   ("received_at_iso", dget_none "received_at_iso" s);
                   ("method", dget_or "method" (JStr "GET") s);
                   ("status",
                    JStr (py_str (dget_or "statusCode" (dget_or "status" (JStr "?") s) s)));
                   ("status_code", dget_none "statusCode" s);
                   ("host", host);
                   ("url", dget_or "url" (JStr EmptyString) s);
                   ("content_type",
                    py_or (dget_none "content_type" s) (dget_none "contentType" s));
                   ("size", dget_or "size" (dget_or "contentLength" (JInt 0) s) s);
                   ("content_length", dget_none "contentLength" s);
                   ("is_https",
                    dget_or "is_https" (JBool (String.eqb (Py.lower scheme) "https")) s);
                   ("risk_flag", dget_none "risk_flag" s);
                   ("risk_score", dget_none "risk_score" s);
                   ("risk_level", dget_none "risk_level" s);
                   ("risk_reasons", dget_or "risk_reasons" (JList []) s);
                   ("ekfiddle_comment", ekfiddle_comment)])
        | _ => Raise AttributeError
        end
  | _ => Raise AttributeError
  end.

(** The entry [search_sessions] builds for one match. *)
Definition search_entry (session : json) : res (json * json) :=
  match session with
  | JDict s =>
      let host := dget_or "host" (JStr EmptyString) s in
      if negb (hashable host) then Raise TypeError
      else
        ekfiddle_comment <~
          ekfiddle (dget_none "ekfiddleComments" s) (dget_none "sessionFlags" s)
            (dget_none "ekfiddleFlags" s) ;;
        Ok (host,
            JDict
              [("id", dget_none "id" s);
               ("time", dget_none "time" s);
               ("received_at", dget_none "received_at" s);
               ("received_at_iso", dget_none "received_at_iso" s);
               ("method", dget_or "method" (JStr "GET") s);
               ("status",
                JStr (py_str (dget_or "statusCode" (dget_or "status" (JStr "?") s) s)));
               ("status_code", dget_none "statusCode" s);
               ("host", host);
               ("url", dget_or "url" (JStr EmptyString) s);
               ("content_type",
                py_or (dget_none "content_type" s) (dget_none "content_type_full" s));
               ("size", dget_or "size" (dget_or "contentLength" (JInt 0) s) s);
               ("content_length", dget_none "contentLength" s);
               ("is_https", dget_or "is_https" (JBool false) s);
               ("risk_flag", dget_none "risk_flag" s);
               ("risk_score", dget_none "risk_score" s);
               ("risk_level", dget_none "risk_level" s);
               ("risk_reasons", dget_or "risk_reasons" (JList []) s);
               ("ekfiddle_comment", ekfiddle_comment)])
  | _ => Raise AttributeError
  end.

(** The loop over the sessions: the hosts seen and the entries built, in
    the order of the sessions; the first session that fails stops it. *)
Fixpoint entries (entry : json -> res (json * json)) (sessions : list json)
    : res (list json * list json) :=
  match sessions with
  | [] => Ok ([], [])
  | session :: rest =>
      e <~ entry session ;;
      r <~ entries entry rest ;;
      Ok (fst e :: fst r, snd e :: snd r)
  end.

(** The values of [TimelineGrouping]. *)
Inductive TimelineGrouping : Type := MINUTE | HOST | STATUS_CODE | CONTENT_TYPE.

Definition grouping_value (g : TimelineGrouping) : string :=
  match g with
  | MINUTE => "minute"
  | HOST => "host"
  | STATUS_CODE => "status_code"
  | CONTENT_TYPE => "content_type"
  end.

(** [len(x)] *)
Definition py_len (x : json) : res nat :=
  match x with
  | JStr t => Ok (String.length t)
  | JList l => Ok (List.length l)
  | JDict d => Ok (List.length d)
  | _ => Raise TypeError
  end.

Definition of_nat (n : nat) : json := JInt (Z.of_nat n).

Section Client.

(** [json.loads] and the text of the error it raises for a body. *)
Variable json_loads : string -> option json.
Variable decode_error : string -> string.
(** [datetime.now().isoformat()] *)
Variable now_iso : string.
(** [sorted(h for h in unique_hosts if h)] for the hosts added to the set,
    in the order they were added. *)
Variable sorted_hosts : list json -> res (list json).

Definition next_result (b : remote) : http_result * list http_result :=
  match pending b with
  | [] => (NoConnection, [])
  | r :: rest => (r, rest)
  end.

(** [FiddlerBridgeClient.request]: one HTTP request, the body decoded. *)
Definition request (method path : string) (params json_payload : option dict)
    (timeout : option nat) : B json :=
  fun b =>
    let b' :=
      Remote (snd (next_result b))
        (calls b ++ [Call method path params json_payload timeout]) (slept b) in
    match fst (next_result b) with
    | NoConnection =>
        (Raises (BridgeConnectionError "Cannot connect to Fiddler real-time bridge"), b')
    | TimedOut => (Raises (BridgeRequestError "Bridge request timed out"), b')
    | RequestFailed exc =>
        (Raises (BridgeRequestError ("HTTP request failed: " +++ exc)), b')
    | Body content content_type =>
        if String.eqb content EmptyString then (Returns (JDict []), b')
        else if Py.contains "application/json" content_type then
          match json_loads content with
          | Some data => (Returns data, b')
          | None =>
              (Raises (BridgeRequestError
                         ("Invalid JSON payload: " +++ decode_error content)), b')
          end
        else
          match json_loads content with
          | Some data => (Returns data, b')
          | None => (Returns (JDict [("raw", JStr content)]), b')
          end
    end.

(** [request_with_retry]: [remaining] is [max_retries - attempt], the
    number of retries left; a retry is preceded by a pause of [2 ** attempt]
    seconds. *)
Fixpoint retry (remaining attempt : nat) (method path : string)
    (params json_payload : option dict) (timeout : option nat) : B json :=
  fun b =>
    match request method path params json_payload timeout b with
    | (Returns data, b') => (Returns data, b')
    | (Raises (Python e), b') => (Raises (Python e), b')
    | (Raises exc, b') =>
        match remaining with
        | 0 => (Raises exc, b')
        | S remaining' =>
            retry remaining' (S attempt) method path params json_payload timeout
              (Remote (pending b') (calls b') (slept b' ++ [2 ^ attempt]))
        end
    end.

Definition request_with_retry (max_retries : nat) (method path : string)
    (params json_payload : option dict) (timeout : option nat) (attempt : nat) : B json :=
  retry (max_retries - attempt) attempt method path params json_payload timeout.

Definition ret {A} (a : A) : B A := fun b => (Returns a, b).

Definition lift {A} (r : res A) : B A :=
  fun b => match r with Ok a => (Returns a, b) | Raise e => (Raises (Python e), b) end.

Definition bind {A C} (m : B A) (f : A -> B C) : B C :=
  fun b =>
    match m b with
    | (Returns a, b') => f a b'
    | (Raises e, b') => (Raises e, b')
    end.

Definition add_if (cond : bool) (k : string) (v : json) (d : dict) : dict :=
  if cond then dset k v d else d.

Definition text_given (s : option string) : bool :=
  match s with Some t => negb (String.eqb t EmptyString) | None => false end.

Definition text_of (s : option string) : json :=
  match s with Some t => JStr t | None => JNull end.

Definition live_params (limit since_minutes : Z) (host_filter status_filter : option string)
    (suspicious_only : bool) : dict :=
  add_if suspicious_only "suspicious_only" (JStr "true")
    (add_if (text_given status_filter) "status" (text_of status_filter)
       (add_if (text_given host_filter) "host" (text_of host_filter)
          [("limit", JInt (clamp 1 500 limit));
           ("since_minutes", JInt (clamp 1 360 since_minutes))])).

(** [get_live_sessions] once the bridge has answered with a mapping that
    does not report a failure. *)
Definition live_result (params data : dict) : res dict :=
  raw_sessions <~ iterate (dget_or "sessions" (JList []) data) ;;
  built <~ entries live_entry raw_sessions ;;
  let unique_hosts := fst built in
  let normalized_sessions := snd built in
  statistics <~
    (if truthy (dget_none "statistics" data) then Ok (dget_none "statistics" data)
     else
       hosts <~ sorted_hosts unique_hosts ;;
       Ok (JDict
             [("total_returned", of_nat (List.length normalized_sessions));
              ("total_buffered",
               dget_or "total_live" (of_nat (List.length raw_sessions)) data);
              ("unique_hosts", JList hosts)])) ;;
  match normalized_sessions with
  | [] =>
      Ok [("success", JBool true);
          ("sessions", JList []);
          ("count", JInt 0);
          ("summary", JStr "No live sessions found for the provided filters");
          ("statistics", statistics);
          ("bridge_status", JStr "Connected");
          ("query", dget_or "query" (JDict params) data);
          ("time_bounds", dget_or "time_bounds" (JDict []) data);
          ("query_timestamp", JStr now_iso)]
  | _ :: _ =>
      match statistics with
      | JDict st =>
          hosts <~ sorted_hosts unique_hosts ;;
          Ok [("success", JBool true);
              ("sessions", JList normalized_sessions);
              ("count", of_nat (List.length normalized_sessions));
              ("matched_count",
               dget_or "matched_count" (of_nat (List.length normalized_sessions)) data);
              ("summary",
               JStr "Use a session ID with fiddler_mcp__session_headers or fiddler_mcp__session_body to inspect content.");
              ("statistics", statistics);
              ("bridge_status", JStr "Connected");
              ("query", dget_or "query" (JDict params) data);
              ("time_bounds", dget_or "time_bounds" (JDict []) data);
              ("query_timestamp", JStr now_iso);
              ("unique_hosts", dget_or "unique_hosts" (JList hosts) st)]
      | _ => Raise AttributeError
      end
  end.

Definition get_live_sessions (limit since_minutes : Z)
    (host_filter status_filter : option string) (suspicious_only : bool) : B dict :=
  fun b =>
    let params := live_params limit since_minutes host_filter status_filter suspicious_only in
    match request "GET" "/api/sessions" (Some params) None None b with
    | (Raises (BridgeConnectionError _), b') =>
        (Returns
           [("success", JBool false);
            ("error", JStr "Cannot connect to real-time bridge. Is it running?");
            ("bridge_status", JStr "Disconnected");
            ("help", JStr "Start the bridge with: python3 realtime-bridge.py")], b')
    | (Raises (BridgeRequestError exc), b') =>
        (Returns
           [("success", JBool false);
            ("error", JStr ("Session query failed: " +++ exc));
            ("bridge_status", JStr "Error")], b')
    | (Raises (Python e), b') => (Raises (Python e), b')
    | (Returns (JDict data), b') =>
        if negb (truthy (dget_or "success" (JBool true) data)) then
          (Returns
             [("success", JBool false);
              ("error", dget_or "error" (JStr "Session query failed") data);
              ("bridge_status", dget_or "bridge_status" (JStr "Unknown") data)], b')
        else lift (live_result params data) b'
    | (Returns _, b') =>
        (Returns
           [("success", JBool false);
            ("error", JStr "Unexpected response");
            ("bridge_status", JStr "Unknown")], b')
    end.

Definition number_given (n : option Z) : bool :=
  match n with Some _ => true | None => false end.

Definition search_params (host_pattern url_pattern content_type method : option string)
    (status_min status_max min_size max_size : Z) (since_minutes : option Z) (limit : Z)
    : dict :=
  add_if (number_given since_minutes) "since_minutes"
    (JInt (clamp 1 360 (match since_minutes with Some n => n | None => 0%Z end)))
    (add_if (text_given method) "method"
       (JStr (upper (match method with Some m => m | None => EmptyString end)))
       (add_if (text_given content_type) "content_type" (text_of content_type)
          (add_if (text_given url_pattern) "url" (text_of url_pattern)
             (add_if (text_given host_pattern) "host" (text_of host_pattern)
                [("status_min", JInt status_min);
                 ("status_max", JInt status_max);
                 ("min_size", JInt min_size);
                 ("max_size", JInt max_size);
                 ("limit", JInt (clamp 1 500 limit))])))).

Definition search_result (params data : dict) : res dict :=
  sessions <~ iterate (dget_or "sessions" (JList []) data) ;;
  built <~ entries search_entry sessions ;;
  hosts <~ sorted_hosts (fst built) ;;
  Ok [("success", JBool true);
      ("search_type", JStr "advanced");
      ("query", dget_or "query" (JDict params) data);
      ("total_matched", dget_or "total_matched" (JInt 0) data);
      ("returned", of_nat (List.length (snd built)));
      ("sessions", JList (snd built));
      ("unique_hosts", JList hosts)].

Definition search_sessions (host_pattern url_pattern content_type method : option string)
    (status_min status_max min_size max_size : Z) (since_minutes : option Z) (limit : Z)
    : B dict :=
  fun b =>
    let params :=
      search_params host_pattern url_pattern content_type method status_min status_max
        min_size max_size since_minutes limit in
    match request "GET" "/api/sessions/search" (Some params) None None b with
    | (Raises (BridgeConnectionError _), b') =>
        (Returns
           [("success", JBool false);
            ("error", JStr "Cannot connect to real-time bridge");
            ("bridge_status", JStr "Disconnected")], b')
    | (Raises (BridgeRequestError exc), b') =>
        (Returns
           [("success", JBool false);
            ("error", JStr ("Search failed: " +++ exc))], b')
    | (Raises (Python e), b') => (Raises (Python e), b')
    | (Returns (JDict data), b') =>
        if negb (truthy (dget_or "success" (JBool true) data)) then
          (Returns
             [("success", JBool false);
              ("error", dget_or "error" (JStr "Search failed") data);
              ("query", dget_or "query" (JDict params) data)], b')
        else lift (search_result params data) b'
    | (Returns _, b') =>
        (Returns
           [("success", JBool false);
            ("error", JStr "Unexpected response");
            ("query", JDict params)], b')
    end.

Definition get_session_headers (session_id : string) : B dict :=
  fun b =>
    match request "GET" ("/api/sessions/headers/" +++ session_id) None None None b with
    | (Raises (BridgeConnectionError _), b') =>
        (Returns
           [("success", JBool false);
            ("error", JStr "Cannot connect to real-time bridge");
            ("bridge_status", JStr "Disconnected")], b')
    | (Raises (BridgeRequestError exc), b') =>
        (Returns
           [("success", JBool false);
            ("error", JStr ("Header lookup failed: " +++ exc));
            ("session_id", JStr session_id)], b')
    | (Raises (Python e), b') => (Raises (Python e), b')
    | (Returns (JDict data), b') =>
        if negb (truthy (dget_or "success" (JBool false) data)) then
          (Returns
             [("success", JBool false);
              ("error", dget_or "error" (JStr "Headers not available") data);
              ("session_id", JStr session_id)], b')
        else
          (Returns
             [("success", JBool true);
              ("session_id", JStr session_id);
              ("request_headers", dget_or "request_headers" (JDict []) data);
              ("response_headers", dget_or "response_headers" (JDict []) data);
              ("notes",
               JList [JStr "Use these headers to reason about authentication, caching, and security controls yourself."])],
           b')
    | (Returns _, b') =>
        (Returns
           [("success", JBool false);
            ("error", JStr "Unexpected response");
            ("session_id", JStr session_id)], b')
    end.

Definition body_params (include_binary smart_extract : bool) : dict :=
  add_if smart_extract "smart_extract" (JStr "true")
    (add_if include_binary "raw" (JStr "true") []).

(** The error text of a failed body lookup, with the hint added for an
    encoding error. *)
Definition body_error (session_id : string) (error_msg : json) : json :=
  if Py.contains "codec" (Py.lower (py_str error_msg))
     || Py.contains "decode" (Py.lower (py_str error_msg))
  then
    JStr ("Session " +++ session_id
          +++ ": Character encoding error during body retrieval. "
          +++ "This has been fixed in the latest version. If you see this error, "
          +++ "restart gemini-fiddler-client.py. "
          +++ "Available tools: fiddler_mcp__session_body (with include_binary=true for full content). "
          +++ "Do NOT use 'session_raw' or 'list_sessions' - these tools don't exist. "
          +++ "Technical details: " +++ py_str error_msg)
  else error_msg.

(** The loop of [get_session_body] over the live sessions: the first one
    with the id of the session gives its host, URL, method and status, and
    its EKFiddle comment when the body had none. *)
Fixpoint with_metadata (session_id : string) (sessions : list json) (result : dict)
    : res dict :=
  match sessions with
  | [] => Ok result
  | JDict sess :: rest =>
      if String.eqb (py_str (dget_none "id" sess)) session_id then
        let result := dset "host" (dget_or "host" (JStr EmptyString) sess) result in
        let result := dset "url" (dget_or "url" (JStr EmptyString) sess) result in
        let result := dset "method" (dget_or "method" (JStr EmptyString) sess) result in
        let result := dset "status" (dget_or "status" (JStr EmptyString) sess) result in
        Ok (if negb (truthy (dget_none "ekfiddle_comment" result))
               && truthy (dget_none "ekfiddle_comment" sess)
            then dset "ekfiddle_comment" (dget_none "ekfiddle_comment" sess) result
            else result)
      else with_metadata session_id rest result
  | _ :: _ => Raise AttributeError
  end.

(** The [try] block of [get_session_body]: any exception in it is dropped,
    with what had been added so far (nothing, as the additions come last). *)
Definition add_metadata (session_id : string) (result : dict) : B dict :=
  fun b =>
    match get_live_sessions 500 360 None None false b with
    | (Returns sessions_list, b') =>
        if truthy (dget_none "success" sessions_list) then
          match iterate (dget_or "sessions" (JList []) sessions_list) with
          | Ok sessions =>
              match with_metadata session_id sessions result with
              | Ok r => (Returns r, b')
              | Raise _ => (Returns result, b')
              end
          | Raise _ => (Returns result, b')
          end
        else (Returns result, b')
    | (Raises _, b') => (Returns result, b')
    end.

Definition body_result (session_id : string) (data : dict) : res dict :=
  ekfiddle_comment <~
    ekfiddle (dget_none "ekfiddle_comments" data) (dget_none "session_flags" data)
      (dget_none "ekfiddle_flags" data) ;;
  Ok [("success", JBool true);
      ("analysis_type", JStr "body");
      ("id", dget_or "id" (JStr session_id) data);
      ("session_id", JStr session_id);
      ("content_type", dget_none "content_type" data);
      ("content_length", dget_none "content_length" data);
      ("request_body", dget_or "request_body" (JStr EmptyString) data);
      ("response_body", dget_or "response_body" (JStr EmptyString) data);
      ("truncated", dget_or "truncated" (JBool false) data);
      ("response_truncated",
       dget_or "response_truncated" (dget_or "truncated" (JBool false) data) data);
      ("request_truncated", dget_or "request_truncated" (JBool false) data);
      ("full_size", dget_or "full_size" (JDict []) data);
      ("ekfiddle_comment", ekfiddle_comment)].

Definition with_extraction (data result : dict) : dict :=
  if truthy (dget_none "smart_extraction_available" data) then
    dset "smart_extraction_available" (JBool true)
      (dset "smart_extraction" (dget_or "smart_extraction" (JDict []) data) result)
  else
    let result := dset "smart_extraction_available" (JBool false) result in
    if truthy (dget_none "smart_extraction_error" data)
    then dset "smart_extraction_error" (dget_none "smart_extraction_error" data) result
    else result.

Definition get_session_body (max_retries : nat) (session_id : string)
    (include_binary smart_extract : bool) : B dict :=
  fun b =>
    match request_with_retry max_retries "GET" ("/api/sessions/body/" +++ session_id)
            (Some (body_params include_binary smart_extract)) None
            (Some DEFAULT_BODY_TIMEOUT) 0 b with
    | (Raises (BridgeConnectionError _), b') =>
        (Returns
           [("success", JBool false);
            ("error", JStr "Cannot connect to real-time bridge after retries");
            ("bridge_status", JStr "Disconnected")], b')
    | (Raises (BridgeRequestError exc), b') =>
        (Returns
           [("success", JBool false);
            ("error", JStr ("Body retrieval failed: " +++ exc));
            ("session_id", JStr session_id)], b')
    | (Raises (Python e), b') => (Raises (Python e), b')
    | (Returns (JDict data), b') =>
        if negb (truthy (dget_or "success" (JBool false) data)) then
          (Returns
             [("success", JBool false);
              ("error",
               body_error session_id (dget_or "error" (JStr "Body not available") data));
              ("session_id", JStr session_id)], b')
        else
          bind (lift (body_result session_id data))
            (fun result =>
               bind (add_metadata session_id result)
                 (fun result => ret (with_extraction data result))) b'
    | (Returns _, b') =>
        (Returns
           [("success", JBool false);
            ("error", body_error session_id (JStr "Unexpected response"));
            ("session_id", JStr session_id)], b')
    end.

(** What [get_multiple_session_bodies] keeps of one fetched body. *)
Definition session_info (session_id : string) (result : dict) : dict :=
  if truthy (dget_none "success" result) then
    let info :=
      [("session_id", JStr session_id);
       ("success", JBool true);
       ("response_body", dget_or "response_body" (JStr EmptyString) result);
       ("request_body", dget_or "request_body" (JStr EmptyString) result);
       ("content_type", dget_or "content_type" (JStr EmptyString) result);
       ("content_length", dget_or "content_length" (JInt 0) result);
       ("truncated", dget_or "truncated" (JBool false) result);
       ("host", dget_or "host" (JStr EmptyString) result);
       ("url", dget_or "url" (JStr EmptyString) result);
       ("method", dget_or "method" (JStr EmptyString) result);
       ("status", dget_or "status" (JStr EmptyString) result);
       ("ekfiddle_comment", dget_none "ekfiddle_comment" result)] in
    if truthy (dget_none "smart_extraction_available" result) then
      dset "smart_extraction_available" (JBool true)
        (dset "smart_extraction" (dget_or "smart_extraction" (JDict []) result) info)
    else info
  else
    [("session_id", JStr session_id);
     ("success", JBool false);
     ("error", dget_or "error" (JStr "Failed to fetch session") result);
     ("response_body", JStr EmptyString);
     ("request_body", JStr EmptyString)].

(** The loop of [get_multiple_session_bodies]: the entries, and the number
    of bodies fetched with success. *)
Fixpoint fetch_all (max_retries : nat) (session_ids : list string)
    (include_binary smart_extract : bool) : B (list json * nat) :=
  match session_ids with
  | [] => ret ([], 0)
  | session_id :: rest =>
      bind (get_session_body max_retries session_id include_binary smart_extract)
        (fun result =>
           bind (fetch_all max_retries rest include_binary smart_extract)
             (fun r =>
                ret (JDict (session_info session_id result) :: fst r,
                     if truthy (dget_none "success" result) then S (snd r) else snd r)))
  end.

Definition get_multiple_session_bodies (max_retries : nat) (session_ids : list string)
    (include_binary smart_extract : bool) : B dict :=
  match session_ids with
  | [] =>
      ret [("success", JBool false);
           ("error", JStr "No session IDs provided");
           ("sessions", JList []);
           ("count", JInt 0);
           ("requested", JInt 0)]
  | _ :: _ =>
      bind (fetch_all max_retries session_ids include_binary smart_extract)
        (fun r =>
           ret [("success", JBool true);
                ("sessions", JList (fst r));
                ("count", of_nat (snd r));
                ("requested", of_nat (List.length session_ids));
                ("analysis_type", JStr "comparison");
                ("note",
                 JStr ("Successfully fetched " +++ Py.str_nat (snd r) +++ " of "
                       +++ Py.str_nat (List.length session_ids)
                       +++ " sessions for comparison"))])
  end.

Definition timeline_params (time_range_minutes : Z) (group_by : TimelineGrouping)
    (include_details : bool) (filter_host : option string) : dict :=
  add_if (text_given filter_host) "filter_host" (text_of filter_host)
    [("time_range_minutes", JInt (clamp 1 180 time_range_minutes));
     ("group_by", JStr (grouping_value group_by));
     ("include_details", JStr (if include_details then "true" else "false"))].

Definition get_sessions_timeline (time_range_minutes : Z) (group_by : TimelineGrouping)
    (include_details : bool) (filter_host : option string) : B dict :=
  fun b =>
    let params := timeline_params time_range_minutes group_by include_details filter_host in
    match request "GET" "/api/sessions/timeline" (Some params) None None b with
    | (Raises (BridgeConnectionError _), b') =>
        (Returns
           [("success", JBool false);
            ("error", JStr "Cannot connect to real-time bridge");
            ("bridge_status", JStr "Disconnected")], b')
    | (Raises (BridgeRequestError exc), b') =>
        (Returns
           [("success", JBool false);
            ("error", JStr ("Timeline request failed: " +++ exc))], b')
    | (Raises (Python e), b') => (Raises (Python e), b')
    | (Returns (JDict data), b') =>
        (Returns
           [("success", JBool true);
            ("analysis_type", JStr "timeline");
            ("timeline", dget_or "timeline" (JDict []) data);
            ("timeline_entries", dget_or "timeline_entries" (JInt 0) data);
            ("total_sessions", dget_or "total_sessions" (JInt 0) data);
            ("group_by", dget_or "group_by" (JStr (grouping_value group_by)) data);
            ("time_range_minutes",
             dget_or "time_range_minutes" (JInt (clamp 1 180 time_range_minutes)) data);
            ("filter_host", dget_or "filter_host" (dget_none "filter_host" params) data);
            ("include_details", JBool include_details)], b')
    | (Returns _, b') => (Raises (Python AttributeError), b')
    end.

(** The size the log line of [fiddler_mcp__compare_sessions] adds up: the
    lengths of the response bodies. *)
Fixpoint total_size (sessions : list json) : res nat :=
  match sessions with
  | [] => Ok 0
  | JDict s :: rest =>
      n <~ py_len (py_or (dget_or "response_body" (JStr EmptyString) s) (JStr EmptyString)) ;;
      m <~ total_size rest ;;
      Ok (n + m)
  | _ :: _ => Raise AttributeError
  end.

(** The tool [fiddler_mcp__compare_sessions]; its log line is computed
    before the result is returned. *)
Definition fiddler_mcp__compare_sessions (max_retries : nat) (session_ids : list string)
    (include_binary smart_extract : bool) : B dict :=
  if List.length session_ids <? 2 then
    ret [("success", JBool false);
         ("error", JStr "Must provide at least 2 session IDs in a list");
         ("requested", of_nat (List.length session_ids))]
  else if 10 <? List.length session_ids then
    ret [("success", JBool false);
         ("error", JStr "Maximum 10 sessions per comparison (to prevent timeout)");
         ("requested", of_nat (List.length session_ids))]
  else
    bind (get_multiple_session_bodies max_retries session_ids include_binary smart_extract)
      (fun result =>
         if truthy (dget_none "success" result) then
           bind (lift (sessions <~ iterate (dget_or "sessions" (JList []) result) ;;
                       total_size sessions))
             (fun _ => ret result)
         else ret result).

End Client.

End Server.

(** * Vocabulary of the statements *)

(** ** Catalogs, frames and the script of the model *)

(** A tool descriptor as the tool server declares it: a mapping whose [name],
    when it has one, is a string. *)
Definition tool_ok (t : json) : bool :=
  match t with
  | JDict d =>
      match dget "name" d with
      | None | Some (JStr _) => true
      | Some _ => false
      end
  | _ => false
  end.

(** The name a descriptor offers: its [name] when that is a non-empty string. *)
Definition tool_name_of (t : json) : option string :=
  match t with
  | JDict d =>
      match dget "name" d with
      | Some (JStr s) => if String.eqb s EmptyString then None else Some s
      | _ => None
      end
  | _ => None
  end.

(** The names a catalog offers. *)
Fixpoint catalog_names (tools : list json) : list string :=
  match tools with
  | [] => []
  | t :: rest =>
      match tool_name_of t with
      | Some s => s :: catalog_names rest
      | None => catalog_names rest
      end
  end.

(** The state only grows: what was written to the server stays written. *)
Definition wire_grows {A} (m : M A) : Prop :=
  forall c, exists more, wire (snd (m c)) = wire c ++ more.

(** A computation leaves a part [f] of the state as it found it. *)
Definition keeps {A B} (f : client -> B) (m : M A) : Prop :=
  forall c, f (snd (m c)) = f c.

(** [f] reads neither the transport nor the history. *)
Definition blind {B} (f : client -> B) : Prop :=
  (forall n c, f (with_request_id n c) = f c)
  /\ (forall w c, f (with_wire w c) = f c)
  /\ (forall r c, f (with_server r c) = f c)
  /\ (forall h c, f (with_history h c) = f c).

(** The text the model gives at its [k]-th coming call; none is left after
    the end of the script. *)
Definition received (script : list generated) (k : nat) : generated :=
  nth k script (Text EmptyString).

Definition cool (g : generation) : Prop := g_temperature g = None.

Definition is_followup (g : generation) : Prop :=
  exists t r, g = Generation (FollowUp t r) None.

Definition is_analysis (user_query : string) (g : generation) : Prop :=
  exists t r, g = Generation (ToolAnalysis t r user_query) None.


Definition initial_generation (q : string) : generation :=
  Generation (InitialQuery q) None.

Definition stricter_retry (q : string) : generation :=
  Generation (StricterRetry q) (Some 0%Z).

(** How one query talks to the model. *)
Definition query_shape (q : string) (script : list generated) (answer : res string)
    (retry rest : list generation) : Prop :=
  (retry = [] /\ received script 0 <> Text EmptyString
   \/ retry = [stricter_retry q] /\ received script 0 = Text EmptyString)
  /\ (rest = []
      \/ exists g fgens,
           rest = g :: fgens /\ is_analysis q g /\ Forall is_followup fgens
           /\ (received script (1 + List.length retry) = Text EmptyString ->
                 fgens = [] /\ answer = Ok analysis_blocked)
           /\ (forall k, k < List.length fgens ->
                 received script (2 + List.length retry + k) = Text EmptyString ->
                 S k = List.length fgens /\ answer = Ok followup_blocked)).

(** ** Replies of the tool server *)

(** A reply whose logging cannot fail: its [result], if any, is a mapping. *)
Definition passes_log (r : dict) : bool :=
  match dget "result" r with
  | Some (JDict _) | None => true
  | Some _ => false
  end.

(** The state after a request that the server answered with [r]. *)
Definition answered (method : string) (params : dict) (rest : list reply) (c : client) : client :=
  with_server rest
    (with_wire (wire c ++ [Request (S (request_id c)) method params])
       (with_request_id (S (request_id c)) c)).

(** The text the smart extraction leaves under [response_body_analyzed]. *)
Definition analyzed_text (formatted : string) : json :=
  if 24000 <? String.length formatted
  then JStr (Py.take 24000 formatted +++ smart_shortened)
  else JStr formatted.


Definition search_request (arguments : dict) : dict :=
  [("name", JStr "fiddler_mcp__sessions_search"); ("arguments", JDict arguments)].

(** The id [_auto_fetch_session_body] reads off the first match, and the time
    it notes for it. *)
Definition first_id (first : dict) : string :=
  Py.strip (py_str (dget_or "id" (JStr EmptyString) first)).

Definition first_time (first : dict) : json :=
  py_or (dget_none "received_at_iso" first) (dget_none "time" first).

(** ** Patterns and their words *)

Module Lang.
Import Re.

(** The patterns without groups, back-references, lazy stars and anchors. *)
Inductive simple : regex -> Prop :=
| simple_eps : simple Eps
| simple_chr p : simple (Chr p)
| simple_seq r1 r2 : simple r1 -> simple r2 -> simple (Seq r1 r2)
| simple_alt r1 r2 : simple r1 -> simple r2 -> simple (Alt r1 r2)
| simple_star r : simple r -> simple (Star r).

(** The words of a simple pattern; a round of a star takes at least one
    character. *)
Inductive matches : regex -> string -> Prop :=
| m_eps : matches Eps EmptyString
| m_chr p a : p a = true -> matches (Chr p) (String a EmptyString)
| m_seq r1 r2 w1 w2 : matches r1 w1 -> matches r2 w2 -> matches (Seq r1 r2) (w1 +++ w2)
| m_alt_l r1 r2 w : matches r1 w -> matches (Alt r1 r2) w
| m_alt_r r1 r2 w : matches r2 w -> matches (Alt r1 r2) w
| m_star_nil r : matches (Star r) EmptyString
| m_star_round r w1 w2 :
    matches r w1 -> w1 <> EmptyString -> matches (Star r) w2 ->
    matches (Star r) (w1 +++ w2).

(** A matcher that looks at its continuation only through its results, and
    one that finds nothing when its continuation never does. *)
Definition ext_matcher {R : Type}
    (m : string -> caps -> (string -> caps -> option R) -> option R) : Prop :=
  forall s c (k k' : string -> caps -> option R),
    (forall s' c', k s' c' = k' s' c') -> m s c k = m s c k'.

Definition strict_matcher {R : Type}
    (m : string -> caps -> (string -> caps -> option R) -> option R) : Prop :=
  forall s c, m s c (fun _ _ => None) = None.

End Lang.

(** ** Braces *)

Module Braces.

Definition open_brace : ascii := "{"%char.
Definition close_brace : ascii := "}"%char.

Definition is_brace (a : ascii) : bool :=
  Ascii.eqb a open_brace || Ascii.eqb a close_brace.

(** No brace at all. *)
Definition brace_free (s : string) : bool := Py.all_chars (fun a => negb (is_brace a)) s.

(** No opening brace. *)
Definition unopened (s : string) : bool :=
  Py.all_chars (fun a => negb (Ascii.eqb a open_brace)) s.

(** Balanced braces that nest at most one level deep: [inside] tells whether
    a brace is open. *)
Fixpoint flat (inside : bool) (s : string) : bool :=
  match s with
  | EmptyString => negb inside
  | String a s' =>
      if Ascii.eqb a open_brace then negb inside && flat true s'
      else if Ascii.eqb a close_brace then inside && flat false s'
      else flat inside s'
  end.

(** The two keys the pattern looks for, with their quotes. *)
Definition quoted_tool : string := dq "'tool'".
Definition quoted_tool_code : string := dq "'tool_code'".

(** A brace pair around flat content that holds one of the keys outside any
    inner pair: what the first pattern can match. *)
Definition flat_object (obj : string) : Prop :=
  exists before key after,
    obj = String open_brace (before +++ key +++ after +++ String close_brace EmptyString)
    /\ flat false before = true
    /\ (key = quoted_tool \/ key = quoted_tool_code)
    /\ flat false after = true.

(** Where the brace that is open at the start gets closed: the number of
    characters up to and including the closing brace, with [depth] braces
    open before the text. *)
Fixpoint closes (depth : nat) (s : string) : option nat :=
  match s with
  | EmptyString => None
  | String a s' =>
      if Ascii.eqb a open_brace then option_map S (closes (S depth) s')
      else if Ascii.eqb a close_brace then
        match depth with
        | 0 => None
        | 1 => Some 1
        | S d => option_map S (closes d s')
        end
      else option_map S (closes depth s')
  end.

End Braces.

(** ** Candidates that come before a call *)





(** ** Replies that hold a call *)

(** Only white space. *)
Definition blank (s : string) : bool := Py.all_chars Py.is_space s.

(** No line break. *)
Definition single_line (s : string) : bool :=
  Py.all_chars (fun a => negb (Ascii.eqb a newline)) s.

(** A text that opens and closes with a brace. *)
Definition object_text (body : string) : Prop :=
  exists inner, body = String "{" (inner +++ "}").

(** How a reply presents an object on its own: bare, or between the two
    lines of one code fence, the first of which may name a language, with
    white space anywhere around. *)
Inductive presented (body : string) : string -> Prop :=
| presented_bare (ws1 ws2 : string) :
    blank ws1 = true -> blank ws2 = true ->
    presented body (ws1 +++ body +++ ws2)
| presented_fenced (ws1 lang ws2 ws3 ws4 : string) :
    blank ws1 = true -> single_line lang = true ->
    blank ws2 = true -> blank ws3 = true -> blank ws4 = true ->
    presented body
      (ws1 +++ fence +++ lang +++ String newline
         (ws2 +++ body +++ ws3 +++ String newline (fence +++ ws4))).

(** A decoded call: a mapping with a string under [tool] and a mapping under
    [arguments]. *)
Definition is_call (data : json) (name : string) (arguments : dict) : Prop :=
  exists d, data = JDict d /\ dget "tool" d = Some (JStr name)
            /\ dget "arguments" d = Some (JDict arguments).

(** * Concrete runs *)

Module Run.

(** No body is saved to disk. *)
Definition no_dump (session_id kind text : string) : option string := None.

Definition descriptor (name : string) : json :=
  JDict [("name", JStr name); ("description", JStr "A Fiddler tool");
         ("inputSchema", JDict [("type", JStr "object"); ("properties", JDict [])])].

(** The catalog of [5ire-bridge.py]. *)
Definition catalog : list json :=
  map descriptor
    ["fiddler_mcp__live_sessions"; "fiddler_mcp__sessions_search";
     "fiddler_mcp__session_headers"; "fiddler_mcp__session_body";
     "fiddler_mcp__compare_sessions"; "fiddler_mcp__live_stats";
     "fiddler_mcp__sessions_timeline"; "fiddler_mcp__sessions_clear"].

(** A JSON-RPC success reply. *)
Definition success (id : Z) (result : dict) : reply :=
  Reply [("jsonrpc", JStr "2.0"); ("id", JInt id); ("result", JDict result)].

(** A tool result as the tool server sends it: one text item holding JSON. *)
Definition tool_text (id : Z) (text : string) : reply :=
  success id [("content", JList [JDict [("type", JStr "text"); ("text", JStr text)]]);
              ("isError", JBool false)].

(** A JSON-RPC error reply. *)
Definition failure (id : Z) (code : Z) (msg : string) : reply :=
  Reply [("jsonrpc", JStr "2.0"); ("id", JInt id);
         ("error", JDict [("code", JInt code); ("message", JStr msg)])].

Definition stats_call : string :=
  dq "{'tool': 'fiddler_mcp__live_stats', 'arguments': {}}".

Definition stats_result : string :=
  dq "{'success': true, 'total_sessions': 3, 'bridge_status': 'Connected'}".

(** A model that asks for the statistics every time it is called, and a
    server that always delivers them; the ceiling is the default one. *)
Definition busy : client :=
  with_tools catalog
    (new_client (map (fun id => tool_text (Z.of_nat id) stats_result) (seq 1 20))
       (repeat (Text stats_call) 20)).

Definition is_tools_call (m : message) : bool :=
  match m with
  | Request _ method _ => String.eqb method "tools/call"
  | Notification _ _ => false
  end.

(** A server that refuses the handshake and then serves as usual. *)
Definition refusing : client :=
  new_client
    [failure 1 (-32600) "Invalid Request";
     success 2 [("tools", JList catalog)];
     tool_text 3 stats_result]
    [Text stats_call; Text "Three sessions are buffered."].

(** A server that does not answer the handshake in time. *)
Definition mute_at_first : client :=
  new_client
    [Silent;
     success 2 [("tools", JList catalog)];
     tool_text 3 stats_result]
    [Text stats_call; Text "Three sessions are buffered."].

(** The analysis of the first tool result comes back blocked. *)
Definition blocked_analysis : client :=
  with_tools catalog
    (new_client [tool_text 1 stats_result] [Text stats_call; Text EmptyString]).

(** The first follow-up comes back blocked. *)
Definition blocked_followup : client :=
  with_tools catalog
    (new_client [tool_text 1 stats_result; tool_text 2 stats_result]
       [Text stats_call; Text stats_call; Text EmptyString]).

(** The first answer comes back blocked, the retry does not. *)
Definition blocked_at_first : client :=
  with_tools catalog
    (new_client [tool_text 1 stats_result]
       [Text EmptyString; Text stats_call; Text "Three sessions are buffered."]).

(** A catalog that offers a tool under a name the alias table rewrites. *)
Definition short_named : client :=
  with_tools [descriptor "live_sessions"] (new_client [tool_text 1 stats_result] []).

Definition ready : client :=
  with_tools catalog (new_client [tool_text 1 stats_result] []).

(** A search with two matches under one id, a preview of the first match's
    body that is truncated JavaScript of 120,000 bytes, and the full body
    with its smart extraction. *)
Definition search_arguments : dict := [("host_pattern", JStr "cdn.example.com")].

Definition search_text : string :=
  dq "{'success': true, 'sessions': [{'id': '42', 'host': 'cdn.example.com', 'time': '10:00:01'}, {'id': '42', 'host': 'cdn.example.com', 'time': '10:05:09'}], 'total': 2}".

Definition preview_text : string :=
  dq "{'success': true, 'session_id': '42', 'content_type': 'application/javascript', 'content_length': 120000, 'response_body': 'var a=1;', 'truncated': true}".

Definition whole_text : string :=
  dq "{'success': true, 'session_id': '42', 'content_type': 'application/javascript', 'content_length': 8, 'response_body': 'var a=1;'}".

Definition full_text : string :=
  dq "{'success': true, 'session_id': '42', 'content_type': 'application/javascript', 'content_length': 120000, 'response_body': 'var a=1; eval(x); run();', 'smart_extraction_available': true, 'smart_extraction': {'head': 'var a=1;', 'tail': 'run();', 'suspicious_patterns': 'eval(x)', 'metadata': {'original_size': 120000, 'total_extracted': 21, 'patterns_count': 1, 'patterns_found': ['eval']}}}".

Definition text_result (id : Z) (text : string) : dict :=
  [("jsonrpc", JStr "2.0"); ("id", JInt id);
   ("result",
    JDict [("content", JList [JDict [("type", JStr "text"); ("text", JStr text)]]);
           ("isError", JBool false)])].

(** The truncated preview is followed by the full fetch. *)
Definition truncated_js : client :=
  with_tools catalog
    (new_client
       [Reply (text_result 1 search_text); Reply (text_result 2 preview_text);
        Reply (text_result 3 full_text)] []).



(** The body comes whole at once. *)
Definition whole_js : client :=
  with_tools catalog
    (new_client [Reply (text_result 1 search_text); Reply (text_result 2 whole_text)] []).

(** The body request gets no answer in time. *)
Definition body_timeout : client :=
  with_tools catalog (new_client [Reply (text_result 1 search_text); Silent] []).

Definition as_dict (j : json) : dict :=
  match j with JDict d => d | _ => [] end.

Definition search : dict :=
  Eval vm_compute in as_dict (_parse_tool_response Json.loads (text_result 1 search_text)).

Definition first_match : dict :=
  [("id", JStr "42"); ("host", JStr "cdn.example.com"); ("time", JStr "10:00:01")].

Definition second_match : dict :=
  [("id", JStr "42"); ("host", JStr "cdn.example.com"); ("time", JStr "10:05:09")].

Definition preview : dict :=
  Eval vm_compute in as_dict (_parse_tool_response Json.loads (text_result 2 preview_text)).

Definition full : dict :=
  Eval vm_compute in as_dict (_parse_tool_response Json.loads (text_result 3 full_text)).

Definition extraction : dict :=
  Eval vm_compute in as_dict (dget_none "smart_extraction" full).

Definition extraction_text : string :=
  Eval vm_compute in
    match _format_smart_extraction (JDict extraction) with
    | Ok t => t
    | Raise _ => EmptyString
    end.

Definition finished : dict :=
  Eval vm_compute in
    match finish_body no_dump false "42" true 2 (JStr "10:00:01") full
            (truncated_of full) (dget_or "content_length" (JInt 120000) full) with
    | Ok b => b
    | Raise _ => []
    end.

Definition search_call (c : client) : res json * client :=
  call_tool Json.loads no_dump (JStr "fiddler_mcp__sessions_search") (JDict search_arguments) c.

(** What the call returns under [_follow_up.session_body_preview]. *)
Definition follow_up_of (r : res json) : option dict :=
  match r with
  | Ok (JDict result) =>
      match dget "_follow_up" result with
      | Some (JDict slot) =>
          match dget "session_body_preview" slot with
          | Some (JDict b) => Some b
          | _ => None
          end
      | _ => None
      end
  | _ => None
  end.


(** A call as the model writes it, and what it decodes to. *)
Definition listing_call : string :=
  dq "{'tool': 'fiddler_mcp__live_sessions', 'arguments': {'limit': 5}}".

Definition listing : json :=
  JDict [("tool", JStr "fiddler_mcp__live_sessions");
         ("arguments", JDict [("limit", JInt 5)])].

(** The call between the lines of a fence that names its language. *)
Definition fenced_reply : string :=
  " " +++ fence +++ "json" +++ String newline
    (EmptyString +++ listing_call +++ EmptyString
     +++ String newline (fence +++ String newline EmptyString)).

(** The call in the middle of a sentence. *)
Definition embedded_reply : string :=
  "I will list the sessions: " +++ listing_call +++ " Then I will summarise.".





End Run.

(** * Vocabulary of the further properties *)

(** ** What a computation does to the state, step by step *)

(** Every run of [m] takes the state to one that [R] relates to it. *)
Definition advances (R : client -> client -> Prop) {A} (m : M A) : Prop :=
  forall c, R c (snd (m c)).

(** The requests [sent] carry ids that grow, all above [n] and none above
    [n']. *)
Fixpoint fresh_ids (n : nat) (sent : list message) (n' : nat) : Prop :=
  match sent with
  | [] => n <= n'
  | Request id _ _ :: rest => n < id /\ fresh_ids id rest n'
  | Notification _ _ :: rest => fresh_ids n rest n'
  end.

(** From [c] to [c']: what was written stays, and what was added are tool
    requests with fresh ids. *)
Definition only_tool_requests (c c' : client) : Prop :=
  exists sent,
    wire c' = wire c ++ sent
    /\ forallb Run.is_tools_call sent = true
    /\ fresh_ids (request_id c) sent (request_id c')
    /\ List.length sent <= request_id c' - request_id c.

(** From [c] to [c']: a server that has terminated stays so, nothing is
    written to it and nothing is read from it. *)
Definition dead_stays_dead (c c' : client) : Prop :=
  alive c = false -> alive c' = false /\ wire c' = wire c /\ server c' = server c.

(** From [c] to [c']: the history is only added to. *)
Definition history_grows (c c' : client) : Prop :=
  exists more, conversation_history c' = conversation_history c ++ more.

(** A computation that makes at most [k] requests: the request counter goes
    up by [k] at most. *)
Definition within (k : nat) {A} (m : M A) : Prop :=
  forall c, request_id (snd (m c)) <= request_id c + k.

(** From [c] to [c']: three requests at most for each invocation noted. *)
Definition paid_by_invocations (c c' : client) : Prop :=
  request_id c' + 3 * List.length (invoked c)
  <= request_id c + 3 * List.length (invoked c').

(** The entry of the history that records the answer [text] of a query. *)
Definition records (text : string) (t : turn) : Prop :=
  t = AssistantTurn text
  \/ t = ErrorTurn text
  \/ (t = SystemTurn "[User interrupted the response]" /\ text = interrupt_msg).

(** A computation that, when it ends with a text, has just added that text
    to the history as the assistant's turn. *)
Definition ends_recorded (m : M string) : Prop :=
  forall c text,
    fst (m c) = Ok text ->
    exists earlier,
      conversation_history (snd (m c)) = earlier ++ [AssistantTurn text].

(** No opening square bracket. *)
Definition unbracketed (s : string) : bool :=
  Py.all_chars (fun a => negb (Ascii.eqb a "[")) s.

(** The longest run of decimal digits in [s], [run] digits having just been
    read. *)
Fixpoint longest_digit_run (run : nat) (s : string) : nat :=
  match s with
  | EmptyString => run
  | String a s' =>
      if Py.is_digit a then longest_digit_run (S run) s'
      else Nat.max run (longest_digit_run 0 s')
  end.

(** A decoded value that is neither a mapping nor a list. *)
Definition scalar (j : json) : bool :=
  match j with
  | JDict _ | JList _ => false
  | _ => true
  end.

(** [a] is a stretch of [s]. *)
Definition part_of (a s : string) : Prop :=
  exists before after, s = before +++ a +++ after.



(** Vocabulary for the tool server. *)

(** The fields of a session as [get_live_sessions] returns it. *)
Definition live_keys : list string :=
  ["id"; "time"; "received_at"; "received_at_iso"; "method"; "status"; "status_code";
   "host"; "url"; "content_type"; "size"; "content_length"; "is_https"; "risk_flag";
   "risk_score"; "risk_level"; "risk_reasons"; "ekfiddle_comment"].

(** A session as the tools return it: a mapping with exactly these fields,
    its status a text. *)
Definition normalized (s : json) : Prop :=
  exists d, s = JDict d /\ map fst d = live_keys
            /\ exists t, dget "status" d = Some (JStr t).

(** The id an entry of a comparison is for, and whether it was fetched. *)
Definition entry_id (e : json) : json :=
  match e with JDict d => dget_none "session_id" d | _ => JNull end.

Definition entry_ok (e : json) : bool :=
  match e with JDict d => truthy (dget_none "success" d) | _ => false end.

(** The HTTP requests made between two states of the bridge. *)
Definition requested (b b' : Server.remote) (more : list Server.http_call) : Prop :=
  Server.calls b' = Server.calls b ++ more.

Definition no_connection (r : Server.http_result) : bool :=
  match r with Server.NoConnection => true | _ => false end.


Module Sample.
Import Server.

(** A client whose server process has terminated, with and without replies
    of the model at hand. *)
Definition stopped : client := with_alive false Run.ready.

Definition stopped_busy : client := with_alive false Run.busy.

(** A body with a response of 9000 characters. *)
Definition long_body : dict :=
  [("success", JBool true);
   ("response_body", JStr (repeat_char "a"%char 9000));
   ("request_body", JStr "q=1")].




(** A bridge that is not there, and one with a JSON answer ready. *)
Definition gone : remote := Remote [] [] [].

Definition answering (content : string) : remote :=
  Remote [Body content "application/json"] [] [].

Definition no_detail : string -> string := fun _ => EmptyString.

Definition stamp : string := "2025-01-01T00:00:00".

(** [sorted] on hosts that are already in order. *)
Definition in_order : list json -> res (list json) := fun hosts => Ok hosts.

(** A listing of one session. *)
Definition one_session : string :=
  dq "{'success': true, 'sessions': [{'id': 7, 'host': 'example.com', 'statusCode': 200}]}".

Definition listing_run : outcome dict * remote :=
  get_live_sessions Json.loads no_detail stamp in_order 20 60 None None false
    (answering one_session).

Definition listed : dict :=
  match fst listing_run with Returns r => r | Raises _ => [] end.

(** A body whose EKFiddle comment is a number. *)
Definition numbered_comment : string :=
  dq "{'success': true, 'ekfiddle_comments': 5}".

(** An answer that announces a failure. *)
Definition refused : string :=
  dq "{'success': false, 'error': 'no such session'}".

(** Two bodies asked of a bridge that is not there. *)
Definition fetched_run : outcome dict * remote :=
  get_multiple_session_bodies Json.loads no_detail stamp in_order 3 ["7"; "8"] false false
    gone.

Definition fetched : dict :=
  match fst fetched_run with Returns r => r | Raises _ => [] end.

End Sample.

(** * Properties *)

(** ** Dictionaries and strings *)

Lemma dget_dset_same (k : string) (v : json) (d : dict) :
  dget k (dset k v d) = Some v.
Proof.
  induction d as [|[k' v'] d IH]; simpl.
  - now rewrite String.eqb_refl.
  - destruct (String.eqb k k') eqn:E; simpl.
    + now rewrite String.eqb_refl.
    + now rewrite E.
Qed.

Lemma dget_dset_other (k k' : string) (v : json) (d : dict) :
  k' <> k -> dget k' (dset k v d) = dget k' d.
Proof.
  intros Hne. induction d as [|[k0 v0] d IH]; simpl.
  - destruct (String.eqb k' k) eqn:E; [apply String.eqb_eq in E; contradiction | reflexivity].
  - destruct (String.eqb k k0) eqn:E; simpl.
    + apply String.eqb_eq in E. subst k0.
      destruct (String.eqb k' k) eqn:E'; [apply String.eqb_eq in E'; contradiction | reflexivity].
    + destruct (String.eqb k' k0); [reflexivity | exact IH].
Qed.

Lemma dget_setdefault_other (k k' : string) (v : json) (d : dict) :
  k' <> k -> dget k' (setdefault k v d) = dget k' d.
Proof.
  intros Hne. unfold setdefault. destruct (dmem k d); [reflexivity|].
  now apply dget_dset_other.
Qed.

Lemma dmem_setdefault (k : string) (v : json) (d : dict) :
  dmem k (setdefault k v d) = true.
Proof.
  unfold setdefault. destruct (dmem k d) eqn:E; [exact E|].
  unfold dmem. now rewrite dget_dset_same.
Qed.

Lemma append_assoc (a b c : string) : (a +++ b) +++ c = a +++ (b +++ c).
Proof. induction a; simpl; [reflexivity | now rewrite IHa]. Qed.

Lemma append_empty_r (a : string) : a +++ EmptyString = a.
Proof. induction a; simpl; [reflexivity | now rewrite IHa]. Qed.

Lemma length_append (a b : string) :
  String.length (a +++ b) = String.length a + String.length b.
Proof. induction a; simpl; [reflexivity | now rewrite IHa]. Qed.

(** ** The bridge *)

Module BridgeFacts.
Import Bridge.

Section Clear.
Variable serve :
  http_request -> list json * list json -> (list json * list json) * http_outcome.
Variable now_iso : string.

(** C10.  [fiddler_mcp__sessions_clear] without confirmation ([confirm]
    false or left at its default) answers [success = false] with the
    explanatory [error] and [help], sends the bridge nothing and leaves its
    buffers as they were; with [confirm = true] exactly one request goes out,
    the [POST /api/clear]. *)
Theorem sessions_clear_needs_confirmation (confirm clear_suspicious : option bool) (b : bridge) :
  let out := fiddler_mcp__sessions_clear serve now_iso confirm clear_suspicious b in
  (confirm <> Some true ->
     fst out =
       [("success", JBool false);
        ("error", JStr "Confirmation required to clear sessions");
        ("help", JStr "Set confirm=true to permanently delete all buffered session data.")]
     /\ snd out = b)
  /\ (confirm = Some true ->
        received (snd out) =
          received b ++
          [Http "POST" "/api/clear"
             [("confirm", JBool true);
              ("clear_suspicious",
               JBool (match clear_suspicious with Some v => v | None => false end))]])
  /\ (received (snd out) <> received b -> confirm = Some true).
Proof.
  cbv zeta. unfold fiddler_mcp__sessions_clear, clear_sessions. repeat split.
  - destruct confirm as [[|]|]; [congruence | reflexivity | reflexivity].
  - destruct confirm as [[|]|]; [congruence | reflexivity | reflexivity].
  - intros ->. cbn [negb]. unfold request.
    destruct (serve _ _) as [[live suspicious] out].
    destruct out as [[ | | | | |data]| |]; cbn;
      try destruct (negb _); reflexivity.
  - intros Hne. destruct confirm as [[|]|]; [reflexivity | | ];
      exfalso; apply Hne; reflexivity.
Qed.

End Clear.
End BridgeFacts.

(** ** The client *)

Section ClientFacts.
Variable json_loads : string -> option json.
Variable dump_path : string -> string -> string -> option string.

Lemma valid_tools_names (tools : list json) :
  forallb tool_ok tools = true ->
  valid_tools tools = Ok (map JStr (catalog_names tools)).
Proof.
  induction tools as [|t tools IH]; simpl; [reflexivity|].
  intros H. apply andb_true_iff in H as [Ht Hr]. specialize (IH Hr).
  destruct t as [ | | | | |d]; try discriminate Ht.
  rewrite IH. unfold dget_none, dget_or. simpl in Ht. simpl.
  destruct (dget "name" d) as [[ | | |s| | ]|]; try discriminate Ht; simpl; [|reflexivity].
  destruct (String.eqb s EmptyString); reflexivity.
Qed.

Lemma tool_name_of_spec (t : json) (s : string) :
  tool_name_of t = Some s <->
  s <> EmptyString /\ exists d, t = JDict d /\ dget "name" d = Some (JStr s).
Proof.
  split.
  - destruct t as [ | | | | |d]; try discriminate. simpl.
    destruct (dget "name" d) as [[ | | |s0| | ]|] eqn:Hn; try discriminate.
    destruct (String.eqb s0 EmptyString) eqn:E; [discriminate|].
    intros [= <-]. split.
    + intros ->. rewrite String.eqb_refl in E. discriminate.
    + exists d. auto.
  - intros [Hs [d [-> Hd]]]. simpl. rewrite Hd.
    destruct (String.eqb s EmptyString) eqn:E; [|reflexivity].
    apply String.eqb_eq in E. contradiction.
Qed.

Lemma catalog_names_spec (tools : list json) (s : string) :
  In s (catalog_names tools) <->
  s <> EmptyString /\ exists d, In (JDict d) tools /\ dget "name" d = Some (JStr s).
Proof.
  induction tools as [|t tools IH]; simpl.
  - split; [contradiction | intros [_ [d [[] _]]]].
  - split.
    + intros H.
      assert (Hcases : tool_name_of t = Some s \/ In s (catalog_names tools)).
      { destruct (tool_name_of t) as [s0|]; [destruct H as [->|H]|]; auto. }
      destruct Hcases as [Ht|Hin].
      * apply tool_name_of_spec in Ht as [Hs [d [-> Hd]]].
        split; [exact Hs|]. exists d. auto.
      * apply IH in Hin as [Hs [d [Hin Hd]]]. split; [exact Hs|]. exists d. auto.
    + intros [Hs [d [[->|Hin] Hd]]].
      * assert (Ht : tool_name_of (JDict d) = Some s)
          by (apply tool_name_of_spec; eauto).
        rewrite Ht. now left.
      * assert (Hin' : In s (catalog_names tools)) by (apply IH; eauto).
        destruct (tool_name_of t); [now right | exact Hin'].
Qed.

Lemma name_in_strings (n : string) (l : list string) :
  name_in n (map JStr l) = true <-> In n l.
Proof.
  unfold name_in. rewrite existsb_exists. split.
  - intros [j [Hin He]]. apply in_map_iff in Hin as [s [<- Hs]].
    simpl in He. apply String.eqb_eq in He. now subst.
  - intros H. exists (JStr n). split; [now apply in_map | simpl; apply String.eqb_refl].
Qed.

Lemma join_values_strings (sep : string) (l : list string) :
  join_values sep (map JStr l) = Ok (String.concat sep l).
Proof.
  induction l as [|s l IH]; simpl; [reflexivity|].
  destruct l as [|s' l]; [reflexivity|].
  change (map JStr (s' :: l)) with (JStr s' :: map JStr l) in *.
  cbv beta iota. rewrite IH. reflexivity.
Qed.

Lemma unknown_tool_payload (n : string) (l : list string) :
  exists payload,
    unknown_tool n (map JStr l) = Ok (JDict payload)
    /\ dmem "error" payload = true
    /\ dget "available_tools" payload = Some (JList (map JStr l)).
Proof.
  unfold unknown_tool. destruct l as [|s l].
  - simpl. eexists. repeat split.
  - change (match map JStr (s :: l) with [] => Ok "No tools available"
            | _ :: _ => join_values (nl +++ "- ") (map JStr (s :: l)) end)
      with (join_values (nl +++ "- ") (map JStr (s :: l))).
    rewrite join_values_strings. eexists. repeat split.
Qed.

Lemma apply_aliases_none (table : list (string * string)) (n : string) :
  alias_of table n = None -> apply_aliases table n = n.
Proof. unfold apply_aliases. now intros ->. Qed.

(** C6.  A name that, once the dot repair is applied, is neither in the
    catalog nor in an alias table makes [call_tool] fail before anything is
    sent: the state, and with it the list of messages written to the server,
    is unchanged, and [available_tools] in the failure payload holds exactly
    the names of the catalog. *)
Theorem unknown_name_fails_with_catalog (c : client) (name : string) (arguments : json) :
  forallb tool_ok (available_tools c) = true ->
  alias_of NON_PREFIXED_ALIASES (dotted_repair name) = None ->
  alias_of TOOL_ALIASES (dotted_repair name) = None ->
  ~ In (dotted_repair name) (catalog_names (available_tools c)) ->
  exists payload,
    call_tool json_loads dump_path (JStr name) arguments c = (Ok (JDict payload), c)
    /\ wire (snd (call_tool json_loads dump_path (JStr name) arguments c)) = wire c
    /\ dmem "error" payload = true
    /\ dget "available_tools" payload
       = Some (JList (map JStr (catalog_names (available_tools c))))
    /\ forall s, In s (catalog_names (available_tools c)) <->
                 (s <> EmptyString /\
                  exists d, In (JDict d) (available_tools c) /\ dget "name" d = Some (JStr s)).
Proof.
  intros Hok Hnp Hta Hnot.
  destruct (unknown_tool_payload (dotted_repair name) (catalog_names (available_tools c)))
    as [payload [Hp [He Ha]]].
  assert (Hcall : call_tool json_loads dump_path (JStr name) arguments c = (Ok (JDict payload), c)).
  { unfold call_tool, resolve_name.
    rewrite (apply_aliases_none _ _ Hnp), (apply_aliases_none _ _ Hta).
    unfold bind, gets, lift. rewrite (valid_tools_names _ Hok).
    destruct (name_in (dotted_repair name) (map JStr (catalog_names (available_tools c)))) eqn:E.
    - apply name_in_strings in E. contradiction.
    - cbn [negb]. now rewrite Hp. }
  exists payload. rewrite Hcall.
  split; [reflexivity|]. split; [reflexivity|].
  split; [exact He|]. split; [exact Ha|].
  intros s. apply catalog_names_spec.
Qed.

(** *** What is written to the server stays written *)

Lemma grows_ret {A} (a : A) : wire_grows (ret a).
Proof. intros c. exists []. simpl. now rewrite app_nil_r. Qed.

Lemma grows_raise {A} (e : exn) : wire_grows (@raise A e).
Proof. intros c. exists []. simpl. now rewrite app_nil_r. Qed.

Lemma grows_lift {A} (r : res A) : wire_grows (lift r).
Proof. intros c. exists []. simpl. now rewrite app_nil_r. Qed.

Lemma grows_gets {A} (f : client -> A) : wire_grows (gets f).
Proof. intros c. exists []. simpl. now rewrite app_nil_r. Qed.

Lemma grows_modify (f : client -> client) :
  (forall c, wire (f c) = wire c) -> wire_grows (modify f).
Proof. intros H c. exists []. simpl. now rewrite H, app_nil_r. Qed.

Lemma grows_bind {A B} (m : M A) (f : A -> M B) :
  wire_grows m -> (forall a, wire_grows (f a)) -> wire_grows (bind m f).
Proof.
  intros Hm Hf c. unfold bind. destruct (Hm c) as [more1 H1].
  destruct (m c) as [[a|e] c']; simpl in *.
  - destruct (Hf a c') as [more2 H2]. exists (more1 ++ more2).
    now rewrite H2, H1, app_assoc.
  - now exists more1.
Qed.

Lemma grows_catch {A} (m : M A) (h : exn -> M A) :
  wire_grows m -> (forall e, wire_grows (h e)) -> wire_grows (catch m h).
Proof.
  intros Hm Hh c. unfold catch. destruct (Hm c) as [more1 H1].
  destruct (m c) as [[a|e] c']; simpl in *.
  - now exists more1.
  - destruct (Hh e c') as [more2 H2]. exists (more1 ++ more2).
    now rewrite H2, H1, app_assoc.
Qed.

Lemma grows_send (method : string) (params : dict) :
  wire_grows (send_mcp_request method params).
Proof.
  intros c. unfold send_mcp_request. cbv zeta.
  destruct (alive c) eqn:Ha; simpl; rewrite ?Ha; simpl.
  2:{ exists []. now rewrite app_nil_r. }
  exists [Request (S (request_id c)) method params].
  destruct (server c) as [|[response|detail| |] rest]; simpl; try reflexivity.
  destruct (negb (verbose_logging c) && negb (dmem "error" response)
            && String.eqb method "tools/call"); [|reflexivity].
  destruct (dget "result" response) as [[ | | | | | ]|]; reflexivity.
Qed.

(** A request to a live server is written with the next request id. *)
Lemma send_writes (method : string) (params : dict) (c : client) :
  alive c = true ->
  wire (snd (send_mcp_request method params c))
  = wire c ++ [Request (S (request_id c)) method params].
Proof.
  intros Ha. unfold send_mcp_request. cbv zeta. simpl. rewrite Ha. simpl.
  destruct (server c) as [|[response|detail| |] rest]; simpl; try reflexivity.
  destruct (negb (verbose_logging c) && negb (dmem "error" response)
            && String.eqb method "tools/call"); [|reflexivity].
  destruct (dget "result" response) as [[ | | | | | ]|]; reflexivity.
Qed.

Lemma send_never_raises (method : string) (params : dict) (c : client) :
  exists r, fst (send_mcp_request method params c) = Ok r.
Proof.
  unfold send_mcp_request. cbv zeta.
  destruct (negb (alive _)); [eexists; reflexivity|].
  destruct (server _) as [|[response|detail| |] rest]; simpl; try (eexists; reflexivity).
  destruct (negb (verbose_logging c) && negb (dmem "error" response)
            && String.eqb method "tools/call"); [|eexists; reflexivity].
  destruct (dget "result" response) as [[ | | | | | ]|]; eexists; reflexivity.
Qed.

Ltac grows :=
  repeat first
    [ apply grows_ret | apply grows_raise | apply grows_lift | apply grows_gets
    | apply grows_send
    | apply grows_modify; intros ?; reflexivity
    | apply grows_bind; [|intros ?]
    | match goal with
      | |- wire_grows (if ?b then _ else _) => destruct b
      | |- wire_grows (match ?x with _ => _ end) => destruct x
      end ].

Lemma grows_auto_fetch (search_result : dict) :
  wire_grows (_auto_fetch_session_body json_loads dump_path search_result).
Proof. unfold _auto_fetch_session_body, fetch_in_full. cbv zeta. grows. Qed.

Lemma grows_call_tool (tool_name arguments : json) :
  wire_grows (call_tool json_loads dump_path tool_name arguments).
Proof.
  unfold call_tool. cbv zeta.
  repeat first
    [ apply grows_auto_fetch | apply grows_ret | apply grows_raise | apply grows_lift
    | apply grows_gets | apply grows_send
    | apply grows_bind; [|intros ?]
    | match goal with
      | |- wire_grows (if ?b then _ else _) => destruct b
      | |- wire_grows (match ?x with _ => _ end) => destruct x
      end ].
Qed.

(** C5, as the code has it.  The catalog is consulted last: a name of the
    catalog is kept unchanged when the dot repair does not apply to it (it
    has no dot, or starts with [fiddler_mcp__]) and no alias table has an
    entry for it; the request [call_tool] then writes carries that very
    name. *)
Theorem catalog_name_kept (c : client) (name : string) (arguments : dict) :
  forallb tool_ok (available_tools c) = true ->
  In name (catalog_names (available_tools c)) ->
  Py.contains "." name = false \/ Py.startswith "fiddler_mcp__" name = true ->
  alias_of NON_PREFIXED_ALIASES name = None ->
  alias_of TOOL_ALIASES name = None ->
  alive c = true ->
  resolve_name name = name
  /\ exists more,
       wire (snd (call_tool json_loads dump_path (JStr name) (JDict arguments) c))
       = wire c
         ++ Request (S (request_id c)) "tools/call"
              [("name", JStr name); ("arguments", JDict arguments)]
         :: more.
Proof.
  intros Hok Hin Hdot Hnp Hta Halive.
  assert (Hrep : dotted_repair name = name).
  { unfold dotted_repair. destruct Hdot as [-> | ->]; [reflexivity|].
    now rewrite andb_false_r. }
  assert (Hres : resolve_name name = name).
  { unfold resolve_name. rewrite Hrep.
    now rewrite (apply_aliases_none _ _ Hnp), (apply_aliases_none _ _ Hta). }
  split; [exact Hres|].
  unfold call_tool. rewrite Hres.
  unfold bind at 1. unfold gets. unfold bind at 1. unfold lift.
  rewrite (valid_tools_names _ Hok).
  apply name_in_strings in Hin. rewrite Hin. cbn [negb].
  unfold bind at 1.
  pose proof (send_writes "tools/call"
                [("name", JStr name); ("arguments", JDict arguments)] c Halive) as Hw.
  destruct (send_never_raises "tools/call"
              [("name", JStr name); ("arguments", JDict arguments)] c) as [r Hr].
  destruct (send_mcp_request "tools/call"
              [("name", JStr name); ("arguments", JDict arguments)] c) as [r0 c'].
  simpl in Hw, Hr. subst r0.
  match goal with
  | |- exists more, wire (snd (?k c')) = _ =>
      assert (Hk : wire_grows k)
  end.
  { repeat first
      [ apply grows_auto_fetch | apply grows_ret | apply grows_raise | apply grows_lift
      | apply grows_bind; [|intros ?]
      | match goal with
        | |- wire_grows (if ?b then _ else _) => destruct b
        | |- wire_grows (match ?x with _ => _ end) => destruct x
        end ]. }
  destruct (Hk c') as [more Hmore]. exists more.
  rewrite Hmore, Hw, <- app_assoc. reflexivity.
Qed.

(** *** What a computation leaves alone *)

Lemma keeps_ret {A B} (f : client -> B) (a : A) : keeps f (ret a).
Proof. intros c. reflexivity. Qed.

Lemma keeps_raise {A B} (f : client -> B) (e : exn) : keeps f (@raise A e).
Proof. intros c. reflexivity. Qed.

Lemma keeps_lift {A B} (f : client -> B) (r : res A) : keeps f (lift r).
Proof. intros c. reflexivity. Qed.

Lemma keeps_gets {B C} (f : client -> B) (g : client -> C) : keeps f (gets g).
Proof. intros c. reflexivity. Qed.

Lemma keeps_bind {A B C} (f : client -> C) (m : M A) (k : A -> M B) :
  keeps f m -> (forall a, keeps f (k a)) -> keeps f (bind m k).
Proof.
  intros Hm Hk c. unfold bind. specialize (Hm c).
  destruct (m c) as [[a|e] c']; simpl in *.
  - now rewrite Hk.
  - exact Hm.
Qed.

Lemma keeps_send {B} (f : client -> B) (method : string) (params : dict) :
  blind f -> keeps f (send_mcp_request method params).
Proof.
  intros [Hid [Hw [Hs _]]] c. unfold send_mcp_request. cbv zeta.
  destruct (negb (alive _)); simpl; [apply Hid|].
  destruct (server _) as [|[response|detail| |] rest]; simpl;
    rewrite ?Hs, ?Hw, ?Hid; try reflexivity.
  destruct (negb (verbose_logging c) && negb (dmem "error" response)
            && String.eqb method "tools/call"); simpl.
  - destruct (dget "result" response) as [[ | | | | | ]|]; simpl;
      now rewrite Hs, Hw, Hid.
  - now rewrite Hs, Hw, Hid.
Qed.

Lemma keeps_remember {B} (f : client -> B) (t : turn) :
  blind f -> keeps f (remember t).
Proof. intros [_ [_ [_ Hh]]] c. simpl. apply Hh. Qed.

Ltac keeps_tac :=
  repeat first
    [ apply keeps_ret | apply keeps_raise | apply keeps_lift | apply keeps_gets
    | apply keeps_send; assumption
    | apply keeps_remember; assumption
    | apply keeps_bind; [|intros ?]
    | match goal with
      | |- keeps _ (if ?b then _ else _) => destruct b
      | |- keeps _ (match ?x with _ => _ end) => destruct x
      end ].

Lemma keeps_auto_fetch {B} (f : client -> B) (search_result : dict) :
  blind f -> keeps f (_auto_fetch_session_body json_loads dump_path search_result).
Proof. intros Hf. unfold _auto_fetch_session_body, fetch_in_full. cbv zeta. keeps_tac. Qed.

Lemma keeps_call_tool {B} (f : client -> B) (tool_name arguments : json) :
  blind f -> keeps f (call_tool json_loads dump_path tool_name arguments).
Proof.
  intros Hf. unfold call_tool. cbv zeta.
  repeat first
    [ apply keeps_auto_fetch; assumption
    | apply keeps_ret | apply keeps_raise | apply keeps_lift | apply keeps_gets
    | apply keeps_send; assumption
    | apply keeps_bind; [|intros ?]
    | match goal with
      | |- keeps _ (if ?b then _ else _) => destruct b
      | |- keeps _ (match ?x with _ => _ end) => destruct x
      end ].
Qed.

Lemma blind_agent : blind agent.
Proof. repeat split. Qed.

Lemma blind_asked : blind asked.
Proof. repeat split. Qed.

Lemma blind_invoked : blind invoked.
Proof. repeat split. Qed.

Lemma blind_max_followups : blind max_followups.
Proof. repeat split. Qed.

Lemma keeps_run_call {B} (f : client -> B) (call : json) :
  blind f -> (forall i c, f (with_invoked i c) = f c) ->
  keeps f (run_call json_loads dump_path call).
Proof.
  intros Hf Hi. unfold run_call, invoke.
  repeat first
    [ apply keeps_call_tool; assumption
    | apply keeps_ret | apply keeps_lift
    | apply keeps_remember; assumption
    | apply keeps_bind; [|intros ?]
    | intros c; simpl; apply Hi ].
Qed.

(** [run_call] makes one invocation, or none when reading the call fails. *)
Lemma run_call_invokes_once (call : json) (c : client) :
  List.length (invoked (snd (run_call json_loads dump_path call c)))
  <= S (List.length (invoked c)).
Proof.
  unfold run_call. unfold bind at 1. unfold lift.
  destruct (subscript "tool" call) as [tool_name|e]; simpl; [|lia].
  unfold bind at 1. destruct (subscript "arguments" call) as [arguments|e]; simpl; [|lia].
  unfold bind at 1. destruct (items_exist arguments) as [[]|e]; simpl; [|lia].
  unfold bind at 1. unfold invoke. unfold bind at 1. unfold modify.
  pose proof (keeps_call_tool invoked tool_name arguments blind_invoked
                (with_invoked (invoked c ++ [(tool_name, arguments)]) c)) as Hk.
  destruct (call_tool json_loads dump_path tool_name arguments _) as [[r|e] c'];
    simpl in *; rewrite Hk, length_app; simpl; lia.
Qed.

(** *** The loop of [chat] *)

Lemma generate_content_spec (p : prompt) (t : option Z) (c : client) :
  asked (snd (generate_content p t c)) = asked c ++ [Generation p t]
  /\ agent (snd (generate_content p t c)) = tl (agent c)
  /\ invoked (snd (generate_content p t c)) = invoked c
  /\ max_followups (snd (generate_content p t c)) = max_followups c
  /\ match fst (generate_content p t c) with
     | Ok text => received (agent c) 0 = Text text
     | Raise e => received (agent c) 0 = Fails e
     end.
Proof.
  unfold generate_content, received. simpl.
  destruct (agent c) as [|[text|e] rest] eqn:E; simpl; rewrite ?E;
    repeat split; reflexivity.
Qed.

Lemma received_tl (script : list generated) (k : nat) :
  received (tl script) k = received script (S k).
Proof. unfold received. destruct script; [destruct k|]; reflexivity. Qed.

(** The loop asks only follow-up questions, none with a temperature; it
    makes at most [budget] invocations; and a follow-up answered with no text
    is the last one, the answer being the explanatory message. *)
Ltac no_question :=
  exists []; simpl; rewrite ?app_nil_r;
  split; [congruence|];
  split; [apply Forall_nil|];
  split; [simpl in *;
          repeat match goal with
                 | H : invoked _ = invoked _ |- _ => rewrite H in *; clear H
                 end; lia|];
  let k := fresh "k" in let Hk := fresh "Hk" in
  intros k Hk; simpl in Hk; lia.

Lemma followups_spec_aux (budget : nat) :
  forall (text : string) (c : client) (out : res string * client),
  followups json_loads dump_path budget text c = out ->
  exists gens,
    asked (snd out) = asked c ++ gens
    /\ Forall is_followup gens
    /\ List.length (invoked (snd out)) <= List.length (invoked c) + budget
    /\ (forall k, k < List.length gens -> received (agent c) k = Text EmptyString ->
          S k = List.length gens /\ fst out = Ok followup_blocked).
Proof.
  induction budget as [|budget IH]; intros text c out Hout.
  - subst out. no_question.
  - cbn [followups] in Hout. unfold bind at 1 in Hout. unfold lift in Hout.
    destruct (parse_gemini_response json_loads text) as [next|e];
      [|subst out; no_question].
    destruct (wanted next) as [call|]; [|subst out; no_question].
    cbv zeta in Hout.
    set (pre := if String.eqb (Py.strip (_extract_text_before_tool_call text)) EmptyString
                then ret tt
                else remember (AssistantTurn (_extract_text_before_tool_call text))) in Hout.
    assert (Hpre : forall B (f : client -> B), blind f -> keeps f pre).
    { intros B f Hf. subst pre.
      destruct (String.eqb _ _); [apply keeps_ret | now apply keeps_remember]. }
    unfold bind at 1 in Hout.
    pose proof (Hpre _ asked blind_asked c) as Ha1.
    pose proof (Hpre _ agent blind_agent c) as Hg1.
    pose proof (Hpre _ invoked blind_invoked c) as Hi1.
    destruct (pre c) as [[[]|e] c1]; simpl in Ha1, Hg1, Hi1; [|subst out; no_question].
    unfold bind at 1 in Hout.
    pose proof (keeps_run_call asked call blind_asked (fun _ _ => eq_refl) c1) as Ha2.
    pose proof (keeps_run_call agent call blind_agent (fun _ _ => eq_refl) c1) as Hg2.
    pose proof (run_call_invokes_once call c1) as Hi2.
    destruct (run_call json_loads dump_path call c1) as [[ran|e] c2];
      simpl in Ha2, Hg2, Hi2; [|subst out; no_question].
    unfold bind at 1 in Hout.
    destruct (generate_content_spec (FollowUp (fst ran) (snd ran)) None c2)
      as [Ha3 [Hg3 [Hi3 [_ Hr3]]]].
    assert (Hone : Forall is_followup [Generation (FollowUp (fst ran) (snd ran)) None]).
    { repeat constructor. now exists (fst ran), (snd ran). }
    destruct (generate_content (FollowUp (fst ran) (snd ran)) None c2) as [[t|e] c3];
      simpl in Ha3, Hg3, Hi3, Hr3.
    + destruct (String.eqb t EmptyString) eqn:Et.
      * subst out. exists [Generation (FollowUp (fst ran) (snd ran)) None]. simpl.
        split; [congruence|]. split; [exact Hone|].
        split; [rewrite Hi3; rewrite Hi1 in Hi2; lia|].
        intros k Hk _. split; [lia | reflexivity].
      * destruct (IH t c3 out Hout) as [gens [Ha4 [Hf4 [Hi4 Hk4]]]].
        exists (Generation (FollowUp (fst ran) (snd ran)) None :: gens).
        split; [rewrite Ha4, Ha3, Ha2, Ha1, <- app_assoc; reflexivity|].
        split; [constructor; [now exists (fst ran), (snd ran) | exact Hf4]|].
        split; [rewrite Hi3 in Hi4; rewrite Hi1 in Hi2; lia|].
        intros k Hk Hrec. destruct k as [|k].
        -- rewrite <- Hg1, <- Hg2, Hr3 in Hrec. injection Hrec as ->.
           rewrite String.eqb_refl in Et. discriminate.
        -- rewrite <- Hg1, <- Hg2, <- received_tl, <- Hg3 in Hrec.
           simpl in Hk. destruct (Hk4 k ltac:(lia) Hrec) as [Hlast Hans].
           split; [simpl; lia | exact Hans].
    + subst out. exists [Generation (FollowUp (fst ran) (snd ran)) None]. simpl.
      split; [congruence|]. split; [exact Hone|].
      split; [rewrite Hi3; rewrite Hi1 in Hi2; lia|].
      intros k Hk Hrec. assert (k = 0) by lia. subst k.
      rewrite <- Hg1, <- Hg2, Hr3 in Hrec. discriminate.
Qed.

Lemma followups_spec (budget : nat) (text : string) (c : client) :
  exists gens,
    asked (snd (followups json_loads dump_path budget text c)) = asked c ++ gens
    /\ Forall is_followup gens
    /\ List.length (invoked (snd (followups json_loads dump_path budget text c)))
       <= List.length (invoked c) + budget
    /\ (forall k, k < List.length gens -> received (agent c) k = Text EmptyString ->
          S k = List.length gens
          /\ fst (followups json_loads dump_path budget text c) = Ok followup_blocked).
Proof. exact (followups_spec_aux budget text c _ eq_refl). Qed.

(** A text in which no call is found ends the loop at once. *)
Lemma followups_no_call (budget : nat) (text : string) (c : client) :
  parse_gemini_response json_loads text = Ok None ->
  followups json_loads dump_path budget text c
  = (Ok text, with_history (conversation_history c ++ [AssistantTurn text]) c).
Proof.
  intros Hp. destruct budget; [reflexivity|].
  cbn [followups]. unfold bind at 1. unfold lift. rewrite Hp. reflexivity.
Qed.

(** The explanatory message of a blocked analysis holds no call, whatever
    the decoder, as long as the decoder does not take it for JSON. *)
Lemma parse_analysis_blocked :
  json_loads analysis_blocked = None ->
  parse_gemini_response json_loads analysis_blocked = Ok None.
Proof.
  intros H. unfold parse_gemini_response.
  replace (Py.strip analysis_blocked) with analysis_blocked by (vm_compute; reflexivity).
  replace (String.eqb analysis_blocked EmptyString) with false by (vm_compute; reflexivity).
  replace (Py.startswith fence analysis_blocked) with false by (vm_compute; reflexivity).
  cbv zeta. rewrite H.
  replace (Re.findall Pat.json_object analysis_blocked) with (@nil string)
    by (vm_compute; reflexivity).
  replace (Re.findall Pat.json_array analysis_blocked) with (@nil string)
    by (vm_compute; reflexivity).
  replace (plain_text_call analysis_blocked) with (@None json)
    by (vm_compute; reflexivity).
  reflexivity.
Qed.

(** After the first answer: no question at all, or the analysis of the first
    tool result followed by follow-up questions. *)
Lemma answer_or_call_shape (q text : string) (c : client) (out : res string * client) :
  json_loads analysis_blocked = None ->
  answer_or_call json_loads dump_path q text c = out ->
  exists rest,
    asked (snd out) = asked c ++ rest
    /\ List.length (invoked (snd out)) <= List.length (invoked c) + 1 + max_followups c
    /\ (rest = []
        \/ exists g fgens,
             rest = g :: fgens /\ is_analysis q g /\ Forall is_followup fgens
             /\ (received (agent c) 0 = Text EmptyString ->
                   fgens = [] /\ fst out = Ok analysis_blocked)
             /\ (forall k, k < List.length fgens ->
                   received (agent c) (S k) = Text EmptyString ->
                   S k = List.length fgens /\ fst out = Ok followup_blocked)).
Proof.
  intros Hblk Hout. unfold answer_or_call in Hout.
  unfold bind at 1 in Hout. unfold lift in Hout.
  destruct (parse_gemini_response json_loads text) as [tool_call|e].
  2:{ subst out. exists []. simpl. rewrite app_nil_r.
      split; [reflexivity|]. split; [lia | now left]. }
  destruct (wanted tool_call) as [call|].
  2:{ subst out. exists []. simpl. rewrite app_nil_r.
      split; [reflexivity|]. split; [lia | now left]. }
  unfold bind at 1 in Hout.
  pose proof (keeps_run_call asked call blind_asked (fun _ _ => eq_refl) c) as Ha1.
  pose proof (keeps_run_call agent call blind_agent (fun _ _ => eq_refl) c) as Hg1.
  pose proof (keeps_run_call max_followups call blind_max_followups (fun _ _ => eq_refl) c)
    as Hm1.
  pose proof (run_call_invokes_once call c) as Hi1.
  destruct (run_call json_loads dump_path call c) as [[ran|e] c1];
    simpl in Ha1, Hg1, Hm1, Hi1.
  2:{ subst out. exists []. simpl. rewrite app_nil_r.
      split; [congruence|]. split; [lia | now left]. }
  unfold bind at 1 in Hout.
  destruct (generate_content_spec (ToolAnalysis (fst ran) (snd ran) q) None c1)
    as [Ha2 [Hg2 [Hi2 [Hm2 Hr2]]]].
  assert (Hg : is_analysis q (Generation (ToolAnalysis (fst ran) (snd ran) q) None))
    by (now exists (fst ran), (snd ran)).
  destruct (generate_content (ToolAnalysis (fst ran) (snd ran) q) None c1) as [[analysis|e] c2];
    simpl in Ha2, Hg2, Hi2, Hm2, Hr2.
  2:{ subst out. exists [Generation (ToolAnalysis (fst ran) (snd ran) q) None]. simpl.
      split; [congruence|]. split; [rewrite Hi2; lia|].
      right. exists (Generation (ToolAnalysis (fst ran) (snd ran) q) None), [].
      split; [reflexivity|]. split; [exact Hg|]. split; [constructor|].
      split.
      - intros Hrec. rewrite <- Hg1, Hr2 in Hrec. discriminate.
      - intros k Hk. simpl in Hk. lia. }
  cbv zeta in Hout. unfold bind at 1 in Hout. unfold gets in Hout.
  destruct (String.eqb analysis EmptyString) eqn:Ean.
  - rewrite (followups_no_call _ _ _ (parse_analysis_blocked Hblk)) in Hout.
    subst out. exists [Generation (ToolAnalysis (fst ran) (snd ran) q) None]. simpl.
    split; [congruence|]. split; [rewrite Hi2; lia|].
    right. exists (Generation (ToolAnalysis (fst ran) (snd ran) q) None), [].
    split; [reflexivity|]. split; [exact Hg|]. split; [constructor|].
    split; [intros _; split; reflexivity|].
    intros k Hk. simpl in Hk. lia.
  - destruct (followups_spec_aux (max_followups c2) analysis c2 out Hout)
      as [fgens [Ha3 [Hf3 [Hi3 Hk3]]]].
    exists (Generation (ToolAnalysis (fst ran) (snd ran) q) None :: fgens).
    split; [rewrite Ha3, Ha2, Ha1, <- app_assoc; reflexivity|].
    split; [rewrite Hi2 in Hi3; rewrite Hm2, Hm1 in Hi3; lia|].
    right. exists (Generation (ToolAnalysis (fst ran) (snd ran) q) None), fgens.
    split; [reflexivity|]. split; [exact Hg|]. split; [exact Hf3|].
    split.
    + intros Hrec. rewrite <- Hg1, Hr2 in Hrec. injection Hrec as ->.
      rewrite String.eqb_refl in Ean. discriminate.
    + intros k Hk Hrec. apply Hk3; [exact Hk|].
      rewrite Hg2, received_tl, Hg1. exact Hrec.
Qed.

Lemma chat_body_shape (q : string) (c : client) (out : res string * client) :
  json_loads analysis_blocked = None ->
  chat_body json_loads dump_path q c = out ->
  exists retry rest,
    asked (snd out) = asked c ++ initial_generation q :: retry ++ rest
    /\ List.length (invoked (snd out)) <= List.length (invoked c) + 1 + max_followups c
    /\ query_shape q (agent c) (fst out) retry rest.
Proof.
  intros Hblk Hout. unfold chat_body in Hout. unfold bind at 1 in Hout.
  destruct (generate_content_spec (InitialQuery q) None c) as [Ha1 [Hg1 [Hi1 [Hm1 Hr1]]]].
  destruct (generate_content (InitialQuery q) None c) as [[first|e] c1];
    simpl in Ha1, Hg1, Hi1, Hm1, Hr1.
  2:{ subst out. exists [], []. simpl.
      split; [exact Ha1|]. split; [rewrite Hi1; lia|].
      split; [left; split; [reflexivity | rewrite Hr1; discriminate] | now left]. }
  unfold bind at 1 in Hout.
  destruct (String.eqb first EmptyString) eqn:Ef.
  - apply String.eqb_eq in Ef. subst first.
    destruct (generate_content_spec (StricterRetry q) (Some 0%Z) c1)
      as [Ha2 [Hg2 [Hi2 [Hm2 Hr2]]]].
    destruct (generate_content (StricterRetry q) (Some 0%Z) c1) as [[text|e] c2];
      simpl in Ha2, Hg2, Hi2, Hm2, Hr2.
    2:{ subst out. exists [stricter_retry q], []. simpl.
        split; [rewrite Ha2, Ha1, <- app_assoc; reflexivity|].
        split; [rewrite Hi2, Hi1; lia|].
        split; [right; split; [reflexivity | exact Hr1] | now left]. }
    destruct (answer_or_call_shape q text c2 out Hblk Hout) as [rest [Ha3 [Hi3 Hs3]]].
    exists [stricter_retry q], rest.
    split; [rewrite Ha3, Ha2, Ha1, <- !app_assoc; reflexivity|].
    split; [rewrite Hi2, Hi1, Hm2, Hm1 in Hi3; exact Hi3|].
    split; [right; split; [reflexivity | exact Hr1]|].
    destruct Hs3 as [->|[g [fgens [-> [Hg [Hf [Han Hfu]]]]]]]; [now left|].
    right. exists g, fgens. split; [reflexivity|]. split; [exact Hg|]. split; [exact Hf|].
    rewrite Hg2, Hg1 in Han, Hfu. split.
    + intros Hrec. apply Han. rewrite !received_tl. exact Hrec.
    + intros k Hk Hrec. apply Hfu; [exact Hk|]. rewrite !received_tl. exact Hrec.
  - simpl in Hout.
    destruct (answer_or_call_shape q first c1 out Hblk Hout) as [rest [Ha3 [Hi3 Hs3]]].
    exists [], rest.
    split; [rewrite Ha3, Ha1, <- app_assoc; reflexivity|].
    split; [rewrite Hi1, Hm1 in Hi3; exact Hi3|].
    split.
    { left. split; [reflexivity|]. rewrite Hr1. intros [= ->].
      rewrite String.eqb_refl in Ef. discriminate. }
    destruct Hs3 as [->|[g [fgens [-> [Hg [Hf [Han Hfu]]]]]]]; [now left|].
    right. exists g, fgens. split; [reflexivity|]. split; [exact Hg|]. split; [exact Hf|].
    rewrite Hg1 in Han, Hfu. split.
    + intros Hrec. apply Han. rewrite received_tl. exact Hrec.
    + intros k Hk Hrec. apply Hfu; [exact Hk|]. rewrite received_tl. exact Hrec.
Qed.

(** Building the prompt leaves the state as it is. *)
Lemma build_gemini_prompt_spec (q : string) (c : client) :
  build_gemini_prompt q c
  = (match create_tool_descriptions (available_tools c) (max_followups c) with
     | Ok _ => Ok (InitialQuery q)
     | Raise e => Raise e
     end, c).
Proof.
  unfold build_gemini_prompt, bind, gets, lift, ret.
  now destruct (create_tool_descriptions _ _).
Qed.

(** A prompt that cannot be built ends [chat] with the exception, the
    user's turn noted and nothing asked. *)
Lemma chat_unbuilt (q : string) (c : client) (e : exn) :
  create_tool_descriptions (available_tools c) (max_followups c) = Raise e ->
  chat json_loads dump_path q c
  = (Raise e, with_history (conversation_history c ++ [UserTurn q]) c).
Proof.
  intros H. unfold chat. unfold bind at 1. unfold remember, modify. cbv beta iota.
  unfold bind at 1. rewrite build_gemini_prompt_spec. cbn [fst snd].
  change (available_tools (with_history (conversation_history c ++ [UserTurn q]) c))
    with (available_tools c).
  change (max_followups (with_history (conversation_history c ++ [UserTurn q]) c))
    with (max_followups c).
  now rewrite H.
Qed.

(** With the prompt built, [chat] is its [try] after the user's turn. *)
Lemma chat_built (q : string) (c : client) (descriptions : string) :
  create_tool_descriptions (available_tools c) (max_followups c) = Ok descriptions ->
  chat json_loads dump_path q c
  = catch (chat_body json_loads dump_path q)
      (fun e =>
         match e with
         | KeyboardInterrupt =>
             remember (SystemTurn "[User interrupted the response]") ;;;
             ret interrupt_msg
         | SystemExit _ => raise e
         | _ =>
             let error_msg := "Error processing query: " +++ exn_str e in
             remember (ErrorTurn error_msg) ;;;
             ret error_msg
         end)
      (with_history (conversation_history c ++ [UserTurn q]) c).
Proof.
  intros H. unfold chat. unfold bind at 1. unfold remember at 1. unfold modify at 1.
  cbv beta iota. unfold bind at 1. rewrite build_gemini_prompt_spec. cbn [fst snd].
  change (available_tools (with_history (conversation_history c ++ [UserTurn q]) c))
    with (available_tools c).
  change (max_followups (with_history (conversation_history c ++ [UserTurn q]) c))
    with (max_followups c).
  now rewrite H.
Qed.

(** [chat] adds the user's turn and the two handlers to its body: what was
    asked and invoked is the body's, and so is an answer the body returned. *)
Lemma chat_of_body (q : string) (c : client) (descriptions : string) :
  create_tool_descriptions (available_tools c) (max_followups c) = Ok descriptions ->
  let c0 := with_history (conversation_history c ++ [UserTurn q]) c in
  asked (snd (chat json_loads dump_path q c)) = asked (snd (chat_body json_loads dump_path q c0))
  /\ invoked (snd (chat json_loads dump_path q c))
     = invoked (snd (chat_body json_loads dump_path q c0))
  /\ forall x, fst (chat_body json_loads dump_path q c0) = Ok x ->
               fst (chat json_loads dump_path q c) = Ok x.
Proof.
  intros Hd. cbv zeta. rewrite (chat_built q c descriptions Hd).
  unfold catch, bind, remember, modify. cbv beta iota.
  destruct (chat_body json_loads dump_path q _) as [[a|e] c']; simpl.
  - split; [reflexivity|]. split; [reflexivity|]. intros x H. exact H.
  - destruct e; simpl; (split; [reflexivity|]); (split; [reflexivity|]);
      intros x H; discriminate H.
Qed.

Lemma chat_shape (q : string) (c : client) (descriptions : string) :
  create_tool_descriptions (available_tools c) (max_followups c) = Ok descriptions ->
  json_loads analysis_blocked = None ->
  exists retry rest,
    asked (snd (chat json_loads dump_path q c))
    = asked c ++ initial_generation q :: retry ++ rest
    /\ List.length (invoked (snd (chat json_loads dump_path q c)))
       <= List.length (invoked c) + 1 + max_followups c
    /\ query_shape q (agent c) (fst (chat json_loads dump_path q c)) retry rest.
Proof.
  intros Hd Hblk. destruct (chat_of_body q c descriptions Hd) as [Ha [Hi Hx]].
  destruct (chat_body_shape q (with_history (conversation_history c ++ [UserTurn q]) c)
              _ Hblk eq_refl) as [retry [rest [Ha' [Hi' [Hr Hs]]]]].
  simpl in Ha', Hi', Hr, Hs.
  exists retry, rest. rewrite Ha, Hi. split; [exact Ha'|]. split; [exact Hi'|].
  split; [exact Hr|].
  destruct Hs as [->|[g [fgens [-> [Hg [Hf [Han Hfu]]]]]]]; [now left|].
  right. exists g, fgens. split; [reflexivity|]. split; [exact Hg|]. split; [exact Hf|].
  split.
  - intros Hrec. destruct (Han Hrec) as [-> Hans]. split; [reflexivity | now apply Hx].
  - intros k Hk Hrec. destruct (Hfu k Hk Hrec) as [Hl Hans]. split; [exact Hl | now apply Hx].
Qed.

(** C9, as the code has it.  For a query whose prompt can be built from
    the catalog, only the initial generation is retried: the first call of
    the model is the initial query; the stricter request at temperature 0
    follows exactly when that call gave no text, and it is the only request
    of the query that sets a temperature.  The analysis of the first tool
    result and the follow-up questions are never retried: when one of them
    gives no text it is the last call of the model, and the answer is the
    explanatory message of that turn. *)
Theorem retry_only_for_initial_generation (q : string) (c : client) (descriptions : string) :
  create_tool_descriptions (available_tools c) (max_followups c) = Ok descriptions ->
  json_loads analysis_blocked = None ->
  exists retry rest,
    asked (snd (chat json_loads dump_path q c))
    = asked c ++ initial_generation q :: retry ++ rest
    /\ (retry = [] /\ received (agent c) 0 <> Text EmptyString
        \/ retry = [stricter_retry q] /\ received (agent c) 0 = Text EmptyString)
    /\ Forall cool rest
    /\ (rest = []
        \/ exists g fgens,
             rest = g :: fgens /\ is_analysis q g /\ Forall is_followup fgens
             /\ (received (agent c) (1 + List.length retry) = Text EmptyString ->
                   fgens = []
                   /\ fst (chat json_loads dump_path q c) = Ok analysis_blocked)
             /\ (forall k, k < List.length fgens ->
                   received (agent c) (2 + List.length retry + k) = Text EmptyString ->
                   S k = List.length fgens
                   /\ fst (chat json_loads dump_path q c) = Ok followup_blocked)).
Proof.
  intros Hd Hblk.
  destruct (chat_shape q c descriptions Hd Hblk) as [retry [rest [Ha [_ [Hr Hs]]]]].
  exists retry, rest. split; [exact Ha|]. split; [exact Hr|]. split; [|exact Hs].
  destruct Hs as [->|[g [fgens [-> [[t [r ->]] [Hf _]]]]]]; [constructor|].
  constructor; [reflexivity|].
  eapply Forall_impl; [|exact Hf]. intros g [t' [r' ->]]. reflexivity.
Qed.

(** One query makes at most [max_followups + 1] tool invocations, whatever
    the model and the server answer. *)
Lemma chat_invocation_bound (q : string) (c : client) (descriptions : string) :
  create_tool_descriptions (available_tools c) (max_followups c) = Ok descriptions ->
  json_loads analysis_blocked = None ->
  List.length (invoked (snd (chat json_loads dump_path q c)))
  <= List.length (invoked c) + 1 + max_followups c.
Proof.
  intros Hd Hblk.
  destruct (chat_shape q c descriptions Hd Hblk) as [retry [rest [_ [Hi _]]]]. exact Hi.
Qed.

(** *** The invoker: search, automatic fetch, full fetch *)

Lemma send_reply (method : string) (params : dict) (c : client) (r : dict) (rest : list reply) :
  alive c = true -> server c = Reply r :: rest -> passes_log r = true ->
  send_mcp_request method params c = (Ok r, answered method params rest c).
Proof.
  intros Ha Hs Hp. unfold send_mcp_request, answered. cbv zeta. simpl.
  rewrite Ha, Hs. simpl.
  destruct (negb (verbose_logging c) && negb (dmem "error" r)
            && String.eqb method "tools/call"); [|reflexivity].
  unfold passes_log in Hp.
  destruct (dget "result" r) as [[ | | | | | ]|]; try discriminate Hp; reflexivity.
Qed.

Lemma truncated_of_metadata (v : json) (body : dict) :
  truncated_of (dset "_auto_fetch_metadata" v body) = truncated_of body.
Proof.
  unfold truncated_of, dget_none, dget_or.
  rewrite !dget_dset_other by discriminate. reflexivity.
Qed.

Lemma use_smart_extract_metadata (v : json) (body : dict) :
  use_smart_extract (dset "_auto_fetch_metadata" v body) = use_smart_extract body.
Proof.
  unfold use_smart_extract, dget_none, dget_or.
  rewrite !dget_dset_other by discriminate. reflexivity.
Qed.

(** [smart_extract] is enabled exactly for JavaScript above 50,000 bytes. *)
Lemma use_smart_extract_spec (body : dict) (smart : json) :
  use_smart_extract body = Ok smart ->
  (truthy smart = true <->
   exists content_type size,
     dget "content_type" body = Some (JStr content_type)
     /\ Py.contains "javascript" (Py.lower content_type) = true
     /\ dget "content_length" body = Some (JInt size)
     /\ (50000 < size)%Z).
Proof.
  unfold use_smart_extract, py_or, dget_none, dget_or.
  destruct (dget "content_type" body) as [ct|] eqn:Hct.
  2:{ simpl. intros [= <-]. split; [discriminate|].
      intros [content_type [size [H _]]]. discriminate H. }
  destruct (truthy ct) eqn:Ht.
  2:{ simpl. intros [= <-]. split; [discriminate|].
      intros [content_type [size [[= ->] [Hc _]]]].
      simpl in Ht. apply negb_false_iff, String.eqb_eq in Ht. subst content_type.
      discriminate Hc. }
  destruct ct as [ | | |content_type| | ]; try discriminate.
  destruct (Py.contains "javascript" (Py.lower content_type)) eqn:Hjs; simpl.
  2:{ intros [= <-]. split; [discriminate|].
      intros [ct' [size [[= <-] [Hc _]]]]. congruence. }
  destruct (dget "content_length" body) as [size|] eqn:Hsz.
  2:{ simpl. intros [= <-]. split; [discriminate|].
      intros [ct' [size [_ [_ [H _]]]]]. discriminate H. }
  destruct (truthy size) eqn:Hts; simpl.
  2:{ intros [= <-]. rewrite Hts. split; [discriminate|].
      intros [ct' [z [_ [_ [[= ->] Hz]]]]].
      simpl in Hts. apply negb_false_iff, Z.eqb_eq in Hts. lia. }
  destruct size as [ |b|z| | | ]; simpl; try discriminate.
  - intros [= <-]. split.
    + destruct b; simpl; discriminate.
    + intros [ct' [z [_ [_ [H _]]]]]. discriminate H.
  - intros [= <-]. simpl. split.
    + intros Hz. apply Z.ltb_lt in Hz. exists content_type, z. auto.
    + intros [ct' [z' [_ [_ [[= <-] Hz]]]]]. now apply Z.ltb_lt.
Qed.

Ltac other_keys :=
  repeat first
    [ rewrite dget_dset_other by (intro; subst; simpl in *; intuition congruence)
    | rewrite dget_setdefault_other by (intro; subst; simpl in *; intuition congruence) ].

Lemma closing_notes_other (session_id : string) (has_duplicates : bool) (n_dup : nat)
    (received_at_iso : json) (d : dict) (truncated_flag size_bytes : json) (k : string) :
  ~ In k ["auto_note"; "auto_note_details"] ->
  dget k (closing_notes session_id has_duplicates n_dup received_at_iso d
            truncated_flag size_bytes) = dget k d.
Proof.
  intros Hk. unfold closing_notes. cbv zeta.
  destruct size_bytes; other_keys; reflexivity.
Qed.

Lemma request_preview_other (auto_save : bool) (session_id : string) (d d' : dict) (k : string) :
  request_preview dump_path auto_save session_id d = Ok d' ->
  ~ In k ["request_body"; "request_body_preview"; "saved_request_path"] ->
  dget k d' = dget k d.
Proof.
  intros H Hk. unfold request_preview in H. cbv zeta in H.
  destruct (truthy _); [|now injection H as <-].
  unfold rbind in H.
  destruct (longer_than 4000 _) as [[|]|]; try discriminate H.
  - destruct (clipped 4000 shortened _) as [preview|]; try discriminate H.
    destruct (_save_body_to_file dump_path auto_save session_id _ "request");
      injection H as <-; other_keys; reflexivity.
  - destruct (_save_body_to_file dump_path auto_save session_id _ "request");
      injection H as <-; other_keys; reflexivity.
Qed.

Lemma response_preview_smart (auto_save : bool) (session_id : string) (d d' ex : dict)
    (truncated_flag size_bytes : json) (formatted : string) :
  truthy (dget_or "smart_extraction_available" (JBool false) d) = true ->
  dget "smart_extraction" d = Some (JDict ex) ->
  _format_smart_extraction (JDict ex) = Ok formatted ->
  formatted <> EmptyString ->
  response_preview dump_path auto_save session_id d truncated_flag size_bytes = Ok d' ->
  dget "response_body_analyzed" d' = Some (analyzed_text formatted)
  /\ dget "analysis_method" d' = Some (JStr "smart_extraction")
  /\ forall k,
       ~ In k ["response_body_analyzed"; "response_body"; "response_body_preview";
               "analysis_method"; "saved_response_path"; "auto_note_details"; "auto_note"] ->
       dget k d' = dget k d.
Proof.
  intros Hav Hex Hfmt Hne H. unfold response_preview in H. cbv zeta in H.
  unfold py_and in H. rewrite Hav in H.
  unfold dget_none at 1 2 in H. unfold dget_or at 1 2 in H. rewrite Hex in H.
  assert (Hex_truthy : truthy (JDict ex) = true).
  { destruct ex; [|reflexivity]. simpl in Hfmt. injection Hfmt as <-. contradiction. }
  rewrite Hex_truthy, Hfmt in H. unfold rbind at 1 in H.
  destruct (String.eqb formatted EmptyString) eqn:E.
  { apply String.eqb_eq in E. contradiction. }
  fold (analyzed_text formatted) in H.
  unfold rbind at 1 in H.
  match type of H with
  | match ?chk with _ => _ end = _ => destruct chk as [[]|]; try discriminate H
  end.
  destruct (_save_body_to_file dump_path auto_save session_id _ "response") as [saved_path|].
  - unfold rbind in H. destruct (format_comma size_bytes) as [size|]; try discriminate H.
    injection H as <-. repeat split.
    + other_keys. now rewrite dget_dset_same.
    + other_keys. now rewrite dget_dset_same.
    + intros k Hk. other_keys. reflexivity.
  - injection H as <-. repeat split.
    + other_keys. now rewrite dget_dset_same.
    + other_keys. now rewrite dget_dset_same.
    + intros k Hk. other_keys. reflexivity.
Qed.

(** A finished body keeps what the bridge delivered under every key that
    the three steps do not write, and carries the formatted extraction. *)
Lemma finish_body_smart (auto_save : bool) (session_id : string) (has_duplicates : bool)
    (n_dup : nat) (received_at_iso : json) (d b ex : dict)
    (truncated_flag size_bytes : json) (formatted : string) :
  truthy (dget_or "smart_extraction_available" (JBool false) d) = true ->
  dget "smart_extraction" d = Some (JDict ex) ->
  _format_smart_extraction (JDict ex) = Ok formatted ->
  formatted <> EmptyString ->
  finish_body dump_path auto_save session_id has_duplicates n_dup received_at_iso d
    truncated_flag size_bytes = Ok b ->
  dget "response_body_analyzed" b = Some (analyzed_text formatted)
  /\ dget "analysis_method" b = Some (JStr "smart_extraction")
  /\ dget "smart_extraction" b = Some (JDict ex)
  /\ dget "_auto_fetch_metadata" b = dget "_auto_fetch_metadata" d
  /\ dget "session_id" b = dget "session_id" d
  /\ dget "id" b = dget "id" d.
Proof.
  intros Hav Hex Hfmt Hne H. unfold finish_body in H. unfold rbind at 1 in H.
  destruct (response_preview dump_path auto_save session_id d truncated_flag size_bytes)
    as [d1|] eqn:H1; try discriminate H.
  unfold rbind at 1 in H.
  destruct (request_preview dump_path auto_save session_id d1) as [d2|] eqn:H2; try discriminate H.
  injection H as <-.
  destruct (response_preview_smart _ _ _ _ _ _ _ _ Hav Hex Hfmt Hne H1) as [Ha [Hm Hk]].
  assert (Hstep : forall k,
            ~ In k ["auto_note"; "auto_note_details";
                    "request_body"; "request_body_preview"; "saved_request_path"] ->
            dget k (closing_notes session_id has_duplicates n_dup received_at_iso d2
                      truncated_flag size_bytes) = dget k d1).
  { intros k Hin. rewrite closing_notes_other by (simpl in *; intuition).
    apply (request_preview_other _ _ _ _ _ H2). simpl in *. intuition. }
  repeat split.
  - rewrite Hstep by (simpl; intuition discriminate). exact Ha.
  - rewrite Hstep by (simpl; intuition discriminate). exact Hm.
  - rewrite Hstep by (simpl; intuition discriminate).
    rewrite Hk by (simpl; intuition discriminate). exact Hex.
  - rewrite Hstep by (simpl; intuition discriminate).
    apply Hk. simpl; intuition discriminate.
  - rewrite Hstep by (simpl; intuition discriminate).
    apply Hk. simpl; intuition discriminate.
  - rewrite Hstep by (simpl; intuition discriminate).
    apply Hk. simpl; intuition discriminate.
Qed.

Section FullFetch.

Variables (c : client) (arguments r1 r2 search first body : dict)
          (more : list json) (rest : list reply) (n : nat).

Hypothesis catalog_ok : forallb tool_ok (available_tools c) = true.
Hypothesis search_offered :
  In "fiddler_mcp__sessions_search" (catalog_names (available_tools c)).
Hypothesis server_alive : alive c = true.
Hypothesis two_replies : server c = Reply r1 :: Reply r2 :: rest.
Hypothesis r1_logged : passes_log r1 = true.
Hypothesis r2_logged : passes_log r2 = true.
(** the search succeeded and has a first match with an id *)
Hypothesis search_parsed : _parse_tool_response json_loads r1 = JDict search.
Hypothesis search_success : truthy (dget_none "success" search) = true.
Hypothesis search_matches : dget "sessions" search = Some (JList (JDict first :: more)).
Hypothesis id_present : first_id first <> EmptyString.
Hypothesis matches_counted : count_ids (first_id first) (JDict first :: more) = Ok n.
(** the body arrived, marked truncated *)
Hypothesis body_parsed : _parse_tool_response json_loads r2 = JDict body.
Hypothesis body_not_failed : is_False (dget_none "success" body) = false.
Hypothesis body_truncated : truthy (truncated_of body) = true.

Let c1 : client := answered "tools/call" (search_request arguments) (Reply r2 :: rest) c.
Let c2 : client :=
  answered "tools/call" (body_request [("session_id", JStr (first_id first))]) rest c1.
Let body' : dict :=
  dset "_auto_fetch_metadata"
    (auto_fetch_metadata (first_id first) (dget_none "received_at" first)
       (first_time first) (1 <? n) n) body.

Lemma auto_fetch_reaches_full_fetch :
  _auto_fetch_session_body json_loads dump_path search c1
  = fetch_in_full json_loads dump_path (auto_save_full_bodies c) (first_id first)
      (1 <? n) n (first_time first) body' (dget_none "content_length" body') c2.
Proof.
  assert (Hs : dget_none "sessions" search = JList (JDict first :: more)).
  { unfold dget_none, dget_or. now rewrite search_matches. }
  unfold _auto_fetch_session_body. cbv zeta. rewrite Hs.
  cbn [py_or truthy negb first_session session_list].
  unfold bind at 1. unfold lift at 1. fold (first_id first).
  destruct (String.eqb (first_id first) EmptyString) eqn:E.
  { apply String.eqb_eq in E. contradiction. }
  unfold bind at 1. unfold lift at 1. rewrite matches_counted.
  unfold bind at 1.
  rewrite (send_reply "tools/call" (body_request [("session_id", JStr (first_id first))])
             c1 r2 rest server_alive eq_refl r2_logged).
  fold c2. rewrite body_parsed, body_not_failed.
  unfold bind at 1. unfold gets at 1.
  fold (first_time first). fold body'.
  unfold body' at 1. rewrite truncated_of_metadata, body_truncated.
  reflexivity.
Qed.

Lemma call_tool_reaches_full_fetch :
  call_tool json_loads dump_path (JStr "fiddler_mcp__sessions_search") (JDict arguments) c
  = (follow_up <-
       fetch_in_full json_loads dump_path (auto_save_full_bodies c) (first_id first)
         (1 <? n) n (first_time first) body' (dget_none "content_length" body') ;;
     lift (merge_follow_up search follow_up)) c2.
Proof.
  unfold call_tool. cbv zeta.
  change (resolve_name "fiddler_mcp__sessions_search") with "fiddler_mcp__sessions_search".
  unfold bind at 1. unfold gets at 1. unfold bind at 1. unfold lift at 1.
  rewrite (valid_tools_names _ catalog_ok).
  rewrite (proj2 (name_in_strings _ _) search_offered). cbn [negb].
  unfold bind at 1. fold (search_request arguments).
  rewrite (send_reply "tools/call" (search_request arguments) c r1 (Reply r2 :: rest)
             server_alive two_replies r1_logged).
  fold c1. rewrite search_parsed.
  change (String.eqb "fiddler_mcp__sessions_search" "fiddler_mcp__sessions_search") with true.
  cbv iota. rewrite search_success.
  unfold bind at 1. rewrite auto_fetch_reaches_full_fetch. reflexivity.
Qed.

Lemma bind_keeps_tail {A B C} (f : client -> C) (m : M A) (k : A -> M B) (c0 : client) :
  (forall a, keeps f (k a)) -> f (snd (bind m k c0)) = f (snd (m c0)).
Proof.
  intros Hk. unfold bind. destruct (m c0) as [[a|e] c']; simpl; [apply Hk | reflexivity].
Qed.

Variable smart : json.
Hypothesis smart_computed : use_smart_extract body = Ok smart.

(** The truncation follow-up, where the extraction flag can be computed.
    After a successful search whose first match has an id, a body that comes
    back marked truncated is asked for again, provided
    [is_javascript and size_bytes and size_bytes > 50000] evaluates, to
    [smart]: the third and last request of the call is a
    [fiddler_mcp__session_body] call with [include_binary = true] and
    [smart_extract = smart], and [smart] is true exactly when the content
    type names JavaScript and the reported length is an integer above
    50,000.  When that full fetch delivers a smart extraction, the result of
    the call is the search result (its matches as they were) with the
    fetched body under [_follow_up.session_body_preview], and that body
    carries the extraction and its formatted text. *)
Theorem truncated_body_is_fetched_in_full :
  let out :=
    call_tool json_loads dump_path (JStr "fiddler_mcp__sessions_search") (JDict arguments) c in
  wire (snd out)
  = wire c
    ++ [Request (1 + request_id c) "tools/call"
          [("name", JStr "fiddler_mcp__sessions_search");
           ("arguments", JDict arguments)];
        Request (2 + request_id c) "tools/call"
          [("name", JStr "fiddler_mcp__session_body");
           ("arguments", JDict [("session_id", JStr (first_id first))])];
        Request (3 + request_id c) "tools/call"
          [("name", JStr "fiddler_mcp__session_body");
           ("arguments",
            JDict [("session_id", JStr (first_id first));
                   ("include_binary", JBool true);
                   ("smart_extract", smart)])]]
  /\ (truthy smart = true <->
      exists content_type size,
        dget "content_type" body = Some (JStr content_type)
        /\ Py.contains "javascript" (Py.lower content_type) = true
        /\ dget "content_length" body = Some (JInt size)
        /\ (50000 < size)%Z)
  /\ forall (r3 raw ex b : dict) (rest' : list reply) (formatted : string),
       rest = Reply r3 :: rest' ->
       passes_log r3 = true ->
       _parse_tool_response json_loads r3 = JDict raw ->
       truthy (dget_none "success" raw) = true ->
       truthy (dget_or "smart_extraction_available" (JBool false) raw) = true ->
       dget "smart_extraction" raw = Some (JDict ex) ->
       _format_smart_extraction (JDict ex) = Ok formatted ->
       formatted <> EmptyString ->
       finish_body dump_path (auto_save_full_bodies c) (first_id first) (1 <? n) n
         (first_time first) raw (truncated_of raw)
         (dget_or "content_length" (dget_none "content_length" body) raw) = Ok b ->
       dget "_follow_up" search = None ->
       dget "_auto_fetch_metadata" raw = None ->
       fst out
       = Ok (JDict (dset "_follow_up" (JDict [("session_body_preview", JDict b)]) search))
       /\ dget "sessions"
            (dset "_follow_up" (JDict [("session_body_preview", JDict b)]) search)
          = Some (JList (JDict first :: more))
       /\ dget "smart_extraction" b = Some (JDict ex)
       /\ dget "response_body_analyzed" b = Some (analyzed_text formatted)
       /\ dget "analysis_method" b = Some (JStr "smart_extraction").
Proof.
  cbv zeta. rewrite call_tool_reaches_full_fetch.
  assert (Halive2 : alive c2 = true) by exact server_alive.
  assert (Hsmart : use_smart_extract body' = Ok smart).
  { unfold body'. now rewrite use_smart_extract_metadata. }
  assert (Hsize : dget_none "content_length" body' = dget_none "content_length" body).
  { unfold body', dget_none, dget_or. now rewrite dget_dset_other by discriminate. }
  split; [|split].
  - rewrite bind_keeps_tail by (intros a; apply keeps_lift).
    unfold fetch_in_full. unfold bind at 1. unfold lift at 1. rewrite Hsmart.
    rewrite bind_keeps_tail.
    + rewrite send_writes by exact Halive2.
      unfold c2, c1, answered, full_fetch_arguments. simpl.
      rewrite <- !app_assoc. reflexivity.
    + intros raw_response.
      repeat first
        [ apply keeps_ret | apply keeps_lift
        | apply keeps_bind; [|intros ?]
        | match goal with
          | |- keeps _ (if ?b then _ else _) => destruct b
          | |- keeps _ (match ?x with _ => _ end) => destruct x
          end ].
  - apply use_smart_extract_spec. exact smart_computed.
  - intros r3 raw ex b rest' formatted -> Hlog3 Hparse3 Hsucc3 Hav Hex Hfmt Hne Hfin Hnof Hnom.
    destruct (finish_body_smart _ _ _ _ _ _ _ _ _ _ _ Hav Hex Hfmt Hne Hfin)
      as [Han [Hme [Hse [Hmeta _]]]].
    assert (Hb : truthy (JDict b) = true).
    { destruct b; [discriminate Han | reflexivity]. }
    split; [|split; [|split; [|split]]]; try assumption.
    + unfold fetch_in_full. unfold bind, lift. rewrite Hsmart.
      rewrite (send_reply "tools/call"
                 (body_request (full_fetch_arguments (first_id first) smart))
                 c2 r3 rest' Halive2 eq_refl Hlog3).
      rewrite Hparse3, Hsucc3, Hsize, Hfin. cbn [ret fst].
      unfold merge_follow_up. rewrite Hb. cbn [negb].
      unfold dget_or at 1. rewrite Hnof. cbn [dset].
      unfold dget_or at 1. rewrite Hmeta, Hnom.
      destruct (truthy (py_or _ _)); reflexivity.
    + rewrite dget_dset_other by discriminate. exact search_matches.
Qed.

End FullFetch.

End ClientFacts.

(** ** Runs of the client *)

(** C1.  With the default ceiling of 10, a model that asks for a tool in
    every answer gets 11 tools executed: the first call is made before the
    loop and the loop makes up to [max_followups] more.  There are 12 calls of
    the model, and the answer is the last text, itself a tool call that is not
    executed. *)
Theorem eleven_invocations_under_ceiling_ten :
  max_followups Run.busy = 10
  /\ List.length (invoked (snd (chat Json.loads Run.no_dump "How many sessions?" Run.busy))) = 11
  /\ List.length
       (filter Run.is_tools_call
          (wire (snd (chat Json.loads Run.no_dump "How many sessions?" Run.busy)))) = 11
  /\ List.length (asked (snd (chat Json.loads Run.no_dump "How many sessions?" Run.busy))) = 12
  /\ fst (chat Json.loads Run.no_dump "How many sessions?" Run.busy) = Ok Run.stats_call.
Proof. vm_compute. repeat split. Qed.

(** C2.  A refused or unanswered handshake does not end the session:
    [initialize_mcp] only reports it, [start_mcp_server] returns, and [main]
    goes on to list the tools and to serve a query with a tool call; the
    [initialized] notification is not sent. *)
Theorem failed_handshake_is_not_fatal :
  (fst (main Json.loads Run.no_dump ["How many sessions?"] Run.refusing)
   = Ok ["Three sessions are buffered."]
   /\ wire (snd (main Json.loads Run.no_dump ["How many sessions?"] Run.refusing))
      = [Request 1 "initialize" initialize_params;
         Request 2 "tools/list" [];
         Request 3 "tools/call"
           [("name", JStr "fiddler_mcp__live_stats"); ("arguments", JDict [])]])
  /\ (fst (main Json.loads Run.no_dump ["How many sessions?"] Run.mute_at_first)
      = Ok ["Three sessions are buffered."]
      /\ wire (snd (main Json.loads Run.no_dump ["How many sessions?"] Run.mute_at_first))
         = [Request 1 "initialize" initialize_params;
            Request 2 "tools/list" [];
            Request 3 "tools/call"
              [("name", JStr "fiddler_mcp__live_stats"); ("arguments", JDict [])]]).
Proof. vm_compute. repeat split. Qed.

(** C5 fails as stated: [live_sessions] is a name of this catalog, yet it
    is rewritten to [fiddler_mcp__live_sessions] before the catalog is looked
    at, and the call is refused without being sent. *)
Lemma catalog_name_rewritten_by_alias :
  In "live_sessions" (catalog_names (available_tools Run.short_named))
  /\ resolve_name "live_sessions" = "fiddler_mcp__live_sessions"
  /\ (exists payload,
        fst (call_tool Json.loads Run.no_dump (JStr "live_sessions") (JDict []) Run.short_named)
        = Ok (JDict payload)
        /\ dget "error" payload = Some (JStr "Unknown tool: 'fiddler_mcp__live_sessions'"))
  /\ wire (snd (call_tool Json.loads Run.no_dump (JStr "live_sessions") (JDict [])
                  Run.short_named)) = [].
Proof.
  split; [simpl; auto|]. split; [reflexivity|].
  split; [eexists; split; vm_compute; reflexivity | reflexivity].
Qed.

Lemma catalog_name_kept_witness :
  resolve_name "fiddler_mcp__live_stats" = "fiddler_mcp__live_stats"
  /\ exists more,
       wire (snd (call_tool Json.loads Run.no_dump (JStr "fiddler_mcp__live_stats")
                    (JDict []) Run.ready))
       = wire Run.ready
         ++ Request (S (request_id Run.ready)) "tools/call"
              [("name", JStr "fiddler_mcp__live_stats"); ("arguments", JDict [])]
         :: more.
Proof.
  apply (catalog_name_kept Json.loads Run.no_dump Run.ready "fiddler_mcp__live_stats" []).
  - reflexivity.
  - simpl. auto 10.
  - right. reflexivity.
  - reflexivity.
  - reflexivity.
  - reflexivity.
Defined.

Lemma unknown_name_fails_with_catalog_witness :
  exists payload,
    call_tool Json.loads Run.no_dump (JStr "fiddler.fetch_everything") (JDict []) Run.ready
    = (Ok (JDict payload), Run.ready)
    /\ wire (snd (call_tool Json.loads Run.no_dump (JStr "fiddler.fetch_everything")
                    (JDict []) Run.ready)) = wire Run.ready
    /\ dmem "error" payload = true
    /\ dget "available_tools" payload
       = Some (JList (map JStr (catalog_names (available_tools Run.ready))))
    /\ forall s, In s (catalog_names (available_tools Run.ready)) <->
                 (s <> EmptyString /\
                  exists d, In (JDict d) (available_tools Run.ready)
                            /\ dget "name" d = Some (JStr s)).
Proof.
  apply (unknown_name_fails_with_catalog Json.loads Run.no_dump Run.ready
           "fiddler.fetch_everything" (JDict [])).
  - reflexivity.
  - reflexivity.
  - reflexivity.
  - vm_compute. intros H. repeat (destruct H as [H|H]; [discriminate H|]). exact H.
Defined.

(** C9 fails as stated: a blocked analysis and a blocked follow-up are not
    retried.  No request of these two queries sets a temperature, and the
    answers are the explanatory messages. *)
Lemma blocked_later_turns_are_not_retried :
  (received (agent Run.blocked_analysis) 1 = Text EmptyString
   /\ map g_temperature
        (asked (snd (chat Json.loads Run.no_dump "How many sessions?" Run.blocked_analysis)))
      = [None; None]
   /\ fst (chat Json.loads Run.no_dump "How many sessions?" Run.blocked_analysis)
      = Ok analysis_blocked)
  /\ (received (agent Run.blocked_followup) 2 = Text EmptyString
      /\ map g_temperature
           (asked (snd (chat Json.loads Run.no_dump "How many sessions?" Run.blocked_followup)))
         = [None; None; None]
      /\ fst (chat Json.loads Run.no_dump "How many sessions?" Run.blocked_followup)
         = Ok followup_blocked).
Proof. vm_compute. repeat split. Qed.

Lemma retry_only_for_initial_generation_witness :
  (exists descriptions,
     create_tool_descriptions (available_tools Run.blocked_at_first)
       (max_followups Run.blocked_at_first) = Ok descriptions)
  /\ Json.loads analysis_blocked = None
  /\ exists retry rest,
       asked (snd (chat Json.loads Run.no_dump "How many sessions?" Run.blocked_at_first))
       = asked Run.blocked_at_first
         ++ initial_generation "How many sessions?" :: retry ++ rest
       /\ (retry = [] /\ received (agent Run.blocked_at_first) 0 <> Text EmptyString
           \/ retry = [stricter_retry "How many sessions?"]
              /\ received (agent Run.blocked_at_first) 0 = Text EmptyString)
       /\ Forall cool rest
       /\ (rest = []
           \/ exists g fgens,
                rest = g :: fgens /\ is_analysis "How many sessions?" g
                /\ Forall is_followup fgens
                /\ (received (agent Run.blocked_at_first) (1 + List.length retry)
                    = Text EmptyString ->
                      fgens = []
                      /\ fst (chat Json.loads Run.no_dump "How many sessions?"
                                Run.blocked_at_first) = Ok analysis_blocked)
                /\ (forall k, k < List.length fgens ->
                      received (agent Run.blocked_at_first) (2 + List.length retry + k)
                      = Text EmptyString ->
                      S k = List.length fgens
                      /\ fst (chat Json.loads Run.no_dump "How many sessions?"
                                Run.blocked_at_first) = Ok followup_blocked)).
Proof.
  split; [eexists; vm_compute; reflexivity|].
  split; [vm_compute; reflexivity|].
  eapply (retry_only_for_initial_generation Json.loads Run.no_dump "How many sessions?"
            Run.blocked_at_first).
  - vm_compute. reflexivity.
  - vm_compute. reflexivity.
Defined.

(** C7.  The flag for duplicate ids is lost when the body is fetched a second
    time.  Two matches share the id 42.  When the body comes whole, the
    follow-up carries [_auto_fetch_metadata] with [has_duplicate_ids] set and
    a note that names the duplicates; when the preview is truncated and the
    full body is fetched, the follow-up is built from the second reply alone:
    it has no [_auto_fetch_metadata], and its note says nothing of the
    duplicates. *)
Theorem duplicate_flag_lost_by_full_fetch :
  (exists b metadata,
     Run.follow_up_of (fst (Run.search_call Run.whole_js)) = Some b
     /\ dget "_auto_fetch_metadata" b = Some (JDict metadata)
     /\ dget "has_duplicate_ids" metadata = Some (JBool true)
     /\ dget "auto_note" b
        = Some (JStr "Full body retrieved [Session 42 at 10:00:01 - 2 total with this ID]"))
  /\ (exists b,
        Run.follow_up_of (fst (Run.search_call Run.truncated_js)) = Some b
        /\ dget "_auto_fetch_metadata" b = None
        /\ dget "auto_note" b = Some (JStr "Smart extraction applied for enhanced analysis")
        /\ dget "auto_note_details" b = Some (JStr "Body length reported as 120000 bytes")).
Proof.
  split.
  - eexists. eexists. split; [vm_compute; reflexivity|]. repeat split.
  - eexists. split; [vm_compute; reflexivity|]. repeat split.
Qed.

(** A body request that fails in the transport comes back without a
    [success] member: it is not taken for a failure, and the follow-up is
    noted as retrieved. *)
Lemma transport_failure_noted_as_retrieved :
  exists b,
    Run.follow_up_of (fst (Run.search_call Run.body_timeout)) = Some b
    /\ dget "error" b = Some (JStr "MCP request failed: MCP server response timeout (30s)")
    /\ dget "note" b = None
    /\ dget "auto_note" b
       = Some (JStr "Full body retrieved [Session 42 at 10:00:01 - 2 total with this ID]").
Proof. eexists. split; [vm_compute; reflexivity|]. repeat split. Qed.


Lemma truncated_body_is_fetched_in_full_witness :
  wire (snd (Run.search_call Run.truncated_js))
  = [Request 1 "tools/call"
       [("name", JStr "fiddler_mcp__sessions_search");
        ("arguments", JDict [("host_pattern", JStr "cdn.example.com")])];
     Request 2 "tools/call"
       [("name", JStr "fiddler_mcp__session_body");
        ("arguments", JDict [("session_id", JStr "42")])];
     Request 3 "tools/call"
       [("name", JStr "fiddler_mcp__session_body");
        ("arguments",
         JDict [("session_id", JStr "42"); ("include_binary", JBool true);
                ("smart_extract", JBool true)])]]
  /\ fst (Run.search_call Run.truncated_js)
     = Ok (JDict (dset "_follow_up"
                    (JDict [("session_body_preview", JDict Run.finished)]) Run.search))
  /\ dget "sessions"
       (dset "_follow_up" (JDict [("session_body_preview", JDict Run.finished)]) Run.search)
     = Some (JList [JDict Run.first_match; JDict Run.second_match])
  /\ dget "smart_extraction" Run.finished = Some (JDict Run.extraction)
  /\ dget "response_body_analyzed" Run.finished
     = Some (analyzed_text Run.extraction_text).
Proof.
  destruct (truncated_body_is_fetched_in_full Json.loads Run.no_dump Run.truncated_js
              Run.search_arguments (Run.text_result 1 Run.search_text)
              (Run.text_result 2 Run.preview_text) Run.search Run.first_match Run.preview
              [JDict Run.second_match] [Reply (Run.text_result 3 Run.full_text)] 2
              ltac:(vm_compute; reflexivity)
              ltac:(vm_compute; tauto)
              ltac:(reflexivity)
              ltac:(reflexivity)
              ltac:(reflexivity)
              ltac:(reflexivity)
              ltac:(vm_compute; reflexivity)
              ltac:(reflexivity)
              ltac:(reflexivity)
              ltac:(vm_compute; discriminate)
              ltac:(vm_compute; reflexivity)
              ltac:(vm_compute; reflexivity)
              ltac:(reflexivity)
              ltac:(reflexivity)
              (JBool true)
              ltac:(vm_compute; reflexivity))
    as [Hwire [_ Hmerged]].
  destruct (Hmerged (Run.text_result 3 Run.full_text) Run.full Run.extraction Run.finished
              [] Run.extraction_text
              ltac:(reflexivity)
              ltac:(reflexivity)
              ltac:(vm_compute; reflexivity)
              ltac:(reflexivity)
              ltac:(reflexivity)
              ltac:(reflexivity)
              ltac:(vm_compute; reflexivity)
              ltac:(vm_compute; discriminate)
              ltac:(vm_compute; reflexivity)
              ltac:(reflexivity)
              ltac:(reflexivity))
    as [Hfst [Hsessions [Hextraction [Hanalyzed _]]]].
  split; [exact Hwire|]. split; [exact Hfst|]. split; [exact Hsessions|].
  split; [exact Hextraction | exact Hanalyzed].
Defined.

(** ** Regular expressions: what the matcher finds *)

Module ReFacts.
Import Re Lang.

Section Matcher.
Context {R : Type}.
Implicit Types (k : string -> caps -> option R).

Local Abbreviation ext_matcher := (Lang.ext_matcher (R:=R)).
Local Abbreviation strict_matcher := (Lang.strict_matcher (R:=R)).

Lemma star_rounds_ext m k k' n s c :
  ext_matcher m -> (forall s' c', k s' c' = k' s' c') ->
  star_rounds m k n s c = star_rounds m k' n s c.
Proof.
  intros Hm Hk. revert s c. induction n as [|n IH]; intros s c; simpl; [apply Hk|].
  rewrite (Hm s c _ (fun s' c' =>
                       if String.length s' <? String.length s
                       then star_rounds m k' n s' c' else None)).
  - now rewrite Hk.
  - intros s' c'. destruct (_ <? _); [apply IH | reflexivity].
Qed.

Lemma lazy_rounds_ext m k k' n s c :
  ext_matcher m -> (forall s' c', k s' c' = k' s' c') ->
  lazy_rounds m k n s c = lazy_rounds m k' n s c.
Proof.
  intros Hm Hk. revert s c. induction n as [|n IH]; intros s c; simpl; rewrite Hk;
    [reflexivity|].
  destruct (k' s c); [reflexivity|].
  apply Hm. intros s' c'. destruct (_ <? _); [apply IH | reflexivity].
Qed.

Lemma rmatch_ext (r : regex) : ext_matcher (rmatch r).
Proof.
  induction r as [ |p|r1 IH1 r2 IH2|r1 IH1 r2 IH2|r IH|r IH|n r IH|n| ];
    intros s c k k' Hk; simpl.
  - apply Hk.
  - destruct s as [|a s]; [reflexivity|]. destruct (p a); [apply Hk | reflexivity].
  - apply IH1. intros s' c'. now apply IH2.
  - rewrite (IH1 s c k k' Hk), (IH2 s c k k' Hk). reflexivity.
  - now apply star_rounds_ext.
  - now apply lazy_rounds_ext.
  - apply IH. intros s' c'. apply Hk.
  - destruct (drop_prefix _ _); [apply Hk | reflexivity].
  - destruct (_ || _); [apply Hk | reflexivity].
Qed.

Lemma star_rounds_none m n s c :
  ext_matcher m -> strict_matcher m -> star_rounds m (fun _ _ => None) n s c = None.
Proof.
  intros He Hm. revert s c. induction n as [|n IH]; intros s c; simpl; [reflexivity|].
  rewrite (He s c _ (fun _ _ => None)).
  - now rewrite Hm.
  - intros s' c'. destruct (_ <? _); [apply IH | reflexivity].
Qed.

Lemma lazy_rounds_none m n s c :
  ext_matcher m -> strict_matcher m -> lazy_rounds m (fun _ _ => None) n s c = None.
Proof.
  intros He Hm. revert s c. induction n as [|n IH]; intros s c; simpl; [reflexivity|].
  rewrite (He s c _ (fun _ _ => None)).
  - apply Hm.
  - intros s' c'. destruct (_ <? _); [apply IH | reflexivity].
Qed.

Lemma rmatch_none (r : regex) : strict_matcher (rmatch r).
Proof.
  induction r as [ |p|r1 IH1 r2 IH2|r1 IH1 r2 IH2|r IH|r IH|n r IH|n| ];
    intros s c; simpl.
  - reflexivity.
  - destruct s as [|a s]; [reflexivity|]. destruct (p a); reflexivity.
  - rewrite (rmatch_ext r1 s c _ (fun _ _ => None)); [apply IH1|].
    intros s' c'. apply IH2.
  - now rewrite IH1, IH2.
  - apply star_rounds_none; [apply rmatch_ext | exact IH].
  - apply lazy_rounds_none; [apply rmatch_ext | exact IH].
  - apply IH.
  - destruct (drop_prefix _ _); reflexivity.
  - destruct (_ || _); reflexivity.
Qed.

(** More fuel than the length of the text changes nothing. *)
Lemma star_fuel m k :
  ext_matcher m -> strict_matcher m ->
  forall n n' s c,
    String.length s <= n -> String.length s <= n' ->
    star_rounds m k n s c = star_rounds m k n' s c.
Proof.
  intros He Hm.
  assert (Hzero : forall n s c, String.length s = 0 -> star_rounds m k n s c = k s c).
  { intros n s c Hs. destruct n as [|n]; simpl; [reflexivity|].
    rewrite (He s c _ (fun _ _ => None)).
    - now rewrite Hm.
    - intros s' c'. rewrite Hs. reflexivity. }
  induction n as [|n IH]; intros n' s c Hn Hn'.
  - rewrite !Hzero by lia. reflexivity.
  - destruct n' as [|n']; [rewrite !Hzero by lia; reflexivity|].
    simpl.
    rewrite (He s c _ (fun s' c' =>
                         if String.length s' <? String.length s
                         then star_rounds m k n' s' c' else None)); [reflexivity|].
    intros s' c'. destruct (String.length s' <? String.length s) eqn:E; [|reflexivity].
    apply Nat.ltb_lt in E. apply IH; lia.
Qed.

Lemma nonempty_shorter (w s : string) :
  String.length s < String.length (w +++ s) -> w <> EmptyString.
Proof. intros H ->. simpl in H. lia. Qed.

Lemma star_rounds_sound (r : regex) k :
  (forall s c k x, rmatch r s c k = Some x ->
     exists w s', s = w +++ s' /\ matches r w /\ k s' c = Some x) ->
  forall n s c x,
    star_rounds (rmatch r) k n s c = Some x ->
    exists w s', s = w +++ s' /\ matches (Star r) w /\ k s' c = Some x.
Proof.
  intros Hr. induction n as [|n IH]; intros s c x H; simpl in H.
  - exists EmptyString, s. repeat split; [constructor | exact H].
  - destruct (rmatch r s c _) as [y|] eqn:E.
    + injection H as ->. apply Hr in E as [w1 [s1 [-> [Hw1 Hk]]]].
      destruct (String.length s1 <? String.length (w1 +++ s1)) eqn:El; [|discriminate Hk].
      apply Nat.ltb_lt in El. apply IH in Hk as [w2 [s2 [-> [Hw2 Hk]]]].
      exists (w1 +++ w2), s2. split; [now rewrite append_assoc|].
      split; [|exact Hk].
      constructor; [exact Hw1 | | exact Hw2]. now apply nonempty_shorter in El.
    + exists EmptyString, s. repeat split; [constructor | exact H].
Qed.

(** Whatever the matcher returns comes from a word of the pattern followed
    by a text the continuation accepts. *)
Lemma rmatch_sound (r : regex) :
  simple r ->
  forall s c k x, rmatch r s c k = Some x ->
    exists w s', s = w +++ s' /\ matches r w /\ k s' c = Some x.
Proof.
  induction 1 as [ |p|r1 r2 _ IH1 _ IH2|r1 r2 _ IH1 _ IH2|r _ IH]; intros s c k x H;
    simpl in H.
  - exists EmptyString, s. repeat split; [constructor | exact H].
  - destruct s as [|a s]; [discriminate H|]. destruct (p a) eqn:E; [|discriminate H].
    exists (String a EmptyString), s. repeat split; [now constructor | exact H].
  - apply IH1 in H as [w1 [s1 [-> [Hw1 H]]]]. apply IH2 in H as [w2 [s2 [-> [Hw2 H]]]].
    exists (w1 +++ w2), s2. split; [now rewrite append_assoc|].
    split; [now constructor | exact H].
  - destruct (rmatch r1 s c k) as [y|] eqn:E.
    + injection H as ->. apply IH1 in E as [w [s' [-> [Hw Hk]]]].
      exists w, s'. repeat split; [now apply m_alt_l | exact Hk].
    + apply IH2 in H as [w [s' [-> [Hw Hk]]]].
      exists w, s'. repeat split; [now apply m_alt_r | exact Hk].
  - now apply (star_rounds_sound r k IH) in H.
Qed.

(** A word of the pattern followed by a text the continuation accepts makes
    the matcher return something. *)
Lemma rmatch_complete (r : regex) (w : string) :
  matches r w ->
  forall s' c k x, k s' c = Some x -> exists y, rmatch r (w +++ s') c k = Some y.
Proof.
  induction 1 as [ |p a Hp|r1 r2 w1 w2 _ IH1 _ IH2|r1 r2 w _ IH|r1 r2 w _ IH
                 |r|r w1 w2 _ IH1 Hne _ IH2]; intros s' c k x Hk.
  - exists x. exact Hk.
  - exists x. simpl. now rewrite Hp.
  - rewrite append_assoc. simpl.
    destruct (IH2 s' c k x Hk) as [y Hy].
    apply (IH1 (w2 +++ s') c (fun s0 c0 => rmatch r2 s0 c0 k) y). exact Hy.
  - destruct (IH s' c k x Hk) as [y Hy]. exists y. simpl. now rewrite Hy.
  - destruct (IH s' c k x Hk) as [y Hy]. simpl.
    destruct (rmatch r1 (w +++ s') c k) as [y1|]; [now exists y1 | now exists y].
  - simpl. destruct (String.length s') as [|n]; simpl; [now exists x|].
    destruct (rmatch r s' c _) as [y|]; [now exists y | now exists x].
  - destruct (IH2 s' c k x Hk) as [z Hz]. simpl in Hz.
    rewrite append_assoc. simpl.
    assert (Hlen : String.length (w1 +++ w2 +++ s')
                   = S (Nat.pred (String.length w1) + String.length (w2 +++ s'))).
    { rewrite length_append. destruct w1; [contradiction | simpl; lia]. }
    rewrite Hlen. simpl.
    assert (Hin : exists y,
              rmatch r (w1 +++ w2 +++ s') c
                (fun s0 c0 =>
                   if String.length s0 <? String.length (w1 +++ w2 +++ s')
                   then star_rounds (rmatch r) k
                          (Nat.pred (String.length w1) + String.length (w2 +++ s')) s0 c0
                   else None) = Some y).
    { apply (IH1 (w2 +++ s') c _ z).
      assert (Hlt : (String.length (w2 +++ s') <? String.length (w1 +++ w2 +++ s')) = true).
      { apply Nat.ltb_lt. rewrite Hlen. lia. }
      rewrite Hlt. rewrite <- Hz.
      apply star_fuel; [apply rmatch_ext | apply rmatch_none | lia | lia]. }
    destruct Hin as [y Hy]. rewrite Hy. now exists y.
Qed.

End Matcher.

End ReFacts.

(** ** The object pattern of the call extractor *)

Module ObjectPattern.
Import Re Lang Braces ReFacts.

Lemma option_map_plus (n m : nat) (o : option nat) :
  option_map (Nat.add n) (option_map (Nat.add m) o) = option_map (Nat.add (n + m)) o.
Proof. destruct o; simpl; [f_equal; lia | reflexivity]. Qed.

Lemma option_map_S (n : nat) (o : option nat) :
  option_map S (option_map (Nat.add n) o) = option_map (Nat.add (S n)) o.
Proof. destruct o; reflexivity. Qed.

Lemma option_map_zero (o : option nat) : option_map (Nat.add 0) o = o.
Proof. destruct o; reflexivity. Qed.

Lemma closes_brace_free (w t : string) (d : nat) :
  brace_free w = true ->
  closes d (w +++ t) = option_map (Nat.add (String.length w)) (closes d t).
Proof.
  induction w as [|a w IH]; intros H; simpl.
  - now rewrite option_map_zero.
  - simpl in H. apply andb_true_iff in H as [Ha Hw]. unfold is_brace in Ha.
    apply negb_true_iff, orb_false_iff in Ha as [Ho Hc].
    rewrite Ho, Hc, (IH Hw). apply option_map_S.
Qed.

Lemma matches_star_brace_free (p : ascii -> bool) (w : string) :
  (forall a, p a = true -> is_brace a = false) ->
  matches (Star (Chr p)) w -> brace_free w = true.
Proof.
  intros Hp H. remember (Star (Chr p)) as r eqn:Er.
  induction H as [ | | | | | |r0 w1 w2 H1 _ Hne H2 IH2]; try discriminate Er.
  - reflexivity.
  - injection Er as ->. specialize (IH2 eq_refl).
    inversion H1 as [ |p0 a Ha| | | | | ]; subst.
    unfold brace_free in *. cbn [String.append Py.all_chars].
    now rewrite (Hp a Ha), IH2.
Qed.

Lemma no_brace_char (a : ascii) :
  negb (existsb (Ascii.eqb a) ["{"%char; "}"%char]) = true -> is_brace a = false.
Proof.
  unfold is_brace, open_brace, close_brace. simpl. rewrite orb_false_r.
  now intros H%negb_true_iff.
Qed.

(** A word of the starred group leaves the depth as it found it. *)
Lemma closes_items (w t : string) (d : nat) :
  matches Pat.brace_items w ->
  closes (S d) (w +++ t) = option_map (Nat.add (String.length w)) (closes (S d) t).
Proof.
  unfold Pat.brace_items. intros H.
  remember (Star (Alt Pat.no_brace
                    (Seq (lit "{") (Seq (Star Pat.no_brace) (lit "}"))))) as r eqn:Er.
  induction H as [ | | | | | |r0 w1 w2 H1 _ Hne H2 IH2]; try discriminate Er.
  - simpl. now rewrite option_map_zero.
  - injection Er as ->. specialize (IH2 eq_refl).
    rewrite append_assoc, length_append, <- option_map_plus, <- IH2.
    inversion H1 as [ | | |r1 r2 w Hl|r1 r2 w Hr| | ]; subst.
    + unfold Pat.no_brace, none_of in Hl. inversion Hl as [ |p a Ha| | | | | ]; subst.
      apply no_brace_char in Ha. unfold is_brace in Ha. apply orb_false_iff in Ha as [Ho Hc].
      simpl. rewrite Ho, Hc. now destruct (closes (S d) (w2 +++ t)).
    + inversion Hr as [ | |r1 r2 u1 u2 Hu1 Hu2| | | | ]; subst.
      inversion Hu2 as [ | |r1 r2 v1 v2 Hv1 Hv2| | | | ]; subst.
      unfold lit in Hu1, Hv2.
      inversion Hu1 as [ |p a Ha| | | | | ]; subst.
      inversion Hv2 as [ |p b Hb| | | | | ]; subst.
      apply Ascii.eqb_eq in Ha, Hb. subst a b.
      assert (Hfree : brace_free v1 = true).
      { apply (matches_star_brace_free _ _ (fun a => no_brace_char a) Hv1). }
      simpl. rewrite !append_assoc. simpl.
      rewrite (closes_brace_free v1 _ (S (S d)) Hfree). simpl.
      rewrite length_append. simpl.
      destruct (closes (S d) (w2 +++ t)); simpl; [f_equal; lia | reflexivity].
Qed.

Lemma matches_word (s : string) : matches (word s) s.
Proof.
  induction s as [|a s IH]; simpl; [constructor|].
  change (String a s) with (String a EmptyString +++ s).
  constructor; [|exact IH]. constructor. apply Ascii.eqb_refl.
Qed.

Lemma word_brace_free (s w : string) :
  brace_free s = true -> matches (word s) w -> w = s.
Proof.
  revert w. induction s as [|a s IH]; intros w Hs H; simpl in H.
  - now inversion H.
  - inversion H as [ | |r1 r2 w1 w2 H1 H2| | | | ]; subst.
    unfold lit in H1. inversion H1 as [ |p b Hb| | | | | ]; subst.
    apply Ascii.eqb_eq in Hb. subst b. simpl in Hs. apply andb_true_iff in Hs as [_ Hs].
    simpl. f_equal. now apply IH.
Qed.

(** The key of the pattern matches the two quoted keys and nothing else. *)
Lemma matches_key (w : string) :
  matches Pat.tool_key w <-> w = quoted_tool \/ w = quoted_tool_code.
Proof.
  unfold Pat.tool_key, opt, lit. split.
  - intros H.
    inversion H as [ | |r1 r2 w1 w2 H1 H2| | | | ]; subst.
    inversion H1 as [ |p a Ha| | | | | ]; subst. apply Ascii.eqb_eq in Ha. subst a.
    inversion H2 as [ | |r1 r2 w3 w4 H3 H4| | | | ]; subst.
    apply (word_brace_free "tool" w3 eq_refl) in H3. subst w3.
    inversion H4 as [ | |r1 r2 w5 w6 H5 H6| | | | ]; subst.
    inversion H6 as [ |p b Hb| | | | | ]; subst. apply Ascii.eqb_eq in Hb. subst b.
    inversion H5 as [ | | |r1 r2 w Hl|r1 r2 w Hr| | ]; subst.
    + apply (word_brace_free "_code" w5 eq_refl) in Hl. subst w5. right. reflexivity.
    + inversion Hr; subst. left. reflexivity.
  - intros [-> | ->].
    + change quoted_tool
        with (String dquote EmptyString
              +++ ("tool" +++ (EmptyString +++ String dquote EmptyString))).
      apply m_seq; [apply m_chr, Ascii.eqb_refl|].
      apply m_seq; [apply matches_word|].
      apply m_seq; [apply m_alt_r, m_eps | apply m_chr, Ascii.eqb_refl].
    + change quoted_tool_code
        with (String dquote EmptyString
              +++ ("tool" +++ ("_code" +++ String dquote EmptyString))).
      apply m_seq; [apply m_chr, Ascii.eqb_refl|].
      apply m_seq; [apply matches_word|].
      apply m_seq; [apply m_alt_l, matches_word | apply m_chr, Ascii.eqb_refl].
Qed.

Lemma key_brace_free (w : string) : matches Pat.tool_key w -> brace_free w = true.
Proof. intros [-> | ->]%matches_key; reflexivity. Qed.

(** A word of the object pattern ends where its first brace is closed. *)
Lemma closes_object (m t : string) :
  matches Pat.json_object m -> closes 0 (m +++ t) = Some (String.length m).
Proof.
  unfold Pat.json_object, lit. intros H.
  inversion H as [ | |r1 r2 w1 w2 H1 H2| | | | ]; subst.
  inversion H1 as [ |p a Ha| | | | | ]; subst. apply Ascii.eqb_eq in Ha. subst a.
  inversion H2 as [ | |r1 r2 x w3 Hx H3| | | | ]; subst.
  inversion H3 as [ | |r1 r2 key w4 Hkey H4| | | | ]; subst.
  inversion H4 as [ | |r1 r2 y w5 Hy H5| | | | ]; subst.
  inversion H5 as [ |p b Hb| | | | | ]; subst. apply Ascii.eqb_eq in Hb. subst b.
  simpl. rewrite !append_assoc.
  rewrite (closes_items x _ 0 Hx).
  rewrite (closes_brace_free key _ 1 (key_brace_free key Hkey)).
  rewrite (closes_items y _ 0 Hy). simpl.
  rewrite !length_append. simpl. f_equal; lia.
Qed.

Lemma append_same_length (a b c d : string) :
  a +++ b = c +++ d -> String.length a = String.length c -> a = c /\ b = d.
Proof.
  revert c. induction a as [|x a IH]; intros [|y c] H Hl; simpl in *; try discriminate Hl.
  - now split.
  - injection H as -> H. injection Hl as Hl. destruct (IH c H Hl) as [-> ->]. now split.
Qed.

(** At most one prefix of a text is a word of the object pattern. *)
Lemma object_prefix_unique (m1 m2 t1 t2 : string) :
  matches Pat.json_object m1 -> matches Pat.json_object m2 ->
  m1 +++ t1 = m2 +++ t2 -> m1 = m2 /\ t1 = t2.
Proof.
  intros H1 H2 E. apply (append_same_length _ _ _ _ E).
  pose proof (closes_object m1 t1 H1) as C1.
  pose proof (closes_object m2 t2 H2) as C2.
  rewrite E, C2 in C1. now injection C1.
Qed.

Lemma simple_json_object : simple Pat.json_object.
Proof.
  unfold Pat.json_object, Pat.brace_items, Pat.tool_key, Pat.no_brace, none_of, opt, lit.
  assert (Hw : forall s, simple (word s)).
  { induction s; simpl; repeat constructor; assumption. }
  repeat first [apply Hw | constructor].
Qed.

(** At the head of a word of the object pattern the matcher finds that word. *)
Lemma match_here_object (obj post : string) :
  matches Pat.json_object obj ->
  match_here Pat.json_object (obj +++ post) = Some (post, []).
Proof.
  intros H. unfold match_here.
  destruct (rmatch_complete Pat.json_object obj H post [] (fun s' c => Some (s', c))
              (post, []) eq_refl) as [y Hy].
  rewrite Hy.
  apply (rmatch_sound Pat.json_object simple_json_object) in Hy
    as [w [s' [E [Hw Hk]]]].
  injection Hk as <-. symmetry in E.
  now destruct (object_prefix_unique _ _ _ _ Hw H E) as [_ ->].
Qed.

(** The matcher needs an opening brace to start. *)
Lemma match_here_needs_brace (a : ascii) (s : string) :
  Ascii.eqb a open_brace = false -> match_here Pat.json_object (String a s) = None.
Proof.
  intros Ha. unfold match_here, Pat.json_object, lit. cbn [rmatch].
  rewrite Ascii.eqb_sym. unfold open_brace in Ha. now rewrite Ha.
Qed.

Lemma consumed_prefix (w t : string) : consumed (w +++ t) t = w.
Proof.
  unfold consumed. rewrite length_append.
  replace (String.length w + String.length t - String.length t) with (String.length w) by lia.
  induction w as [|a w IH]; simpl; [now destruct t | now rewrite IH].
Qed.

Lemma search_from_hit (r : regex) (pos : nat) (s s' : string) (c : caps) :
  match_here r s = Some (s', c) ->
  search_from r pos s = Some (Found pos (consumed s s') c s').
Proof. intros H. destruct s; simpl; now rewrite H. Qed.

Lemma search_from_miss (r : regex) (pos : nat) (a : ascii) (s : string) :
  match_here r (String a s) = None ->
  search_from r pos (String a s) = search_from r (S pos) s.
Proof. intros H. simpl. now rewrite H. Qed.

(** The first match of the object pattern in a text that has no opening
    brace before a word of the pattern is that word. *)
Lemma search_object (pre obj post : string) (pos : nat) :
  unopened pre = true -> matches Pat.json_object obj ->
  search_from Pat.json_object pos (pre +++ obj +++ post)
  = Some (Found (pos + String.length pre) obj [] post).
Proof.
  intros Hpre Hobj. revert pos. induction pre as [|a pre IH]; intros pos.
  - simpl. rewrite Nat.add_0_r.
    rewrite (search_from_hit _ _ _ post [] (match_here_object obj post Hobj)).
    now rewrite consumed_prefix.
  - simpl in Hpre. apply andb_true_iff in Hpre as [Ha Hpre]. apply negb_true_iff in Ha.
    cbn [String.append String.length].
    rewrite (search_from_miss _ _ _ _ (match_here_needs_brace a _ Ha)).
    rewrite (IH Hpre). f_equal. f_equal. lia.
Qed.

(** Flat content is a word of the starred group. *)
Lemma brace_free_star (u : string) :
  brace_free u = true -> matches (Star Pat.no_brace) u.
Proof.
  induction u as [|a u IH]; intros H; [constructor|].
  simpl in H. apply andb_true_iff in H as [Ha Hu].
  change (String a u) with (String a EmptyString +++ u).
  constructor; [|discriminate | now apply IH].
  unfold Pat.no_brace, none_of. constructor.
  unfold is_brace, open_brace, close_brace in Ha. simpl. rewrite orb_false_r. exact Ha.
Qed.

Lemma flat_inside (w : string) :
  flat true w = true ->
  exists u v, w = u +++ String close_brace v /\ brace_free u = true /\ flat false v = true.
Proof.
  induction w as [|a w IH]; cbn [flat negb andb]; [discriminate|].
  destruct (Ascii.eqb a open_brace) eqn:Eo; [discriminate|].
  destruct (Ascii.eqb a close_brace) eqn:Ec.
  - intros H. apply Ascii.eqb_eq in Ec. subst a.
    exists EmptyString, w. now repeat split.
  - intros H. destruct (IH H) as [u [v [-> [Hu Hv]]]].
    exists (String a u), v. repeat split; [|exact Hv].
    unfold brace_free in *. cbn [Py.all_chars]. unfold is_brace at 1.
    now rewrite Eo, Ec, Hu.
Qed.

Lemma flat_matches_fuel (n : nat) : forall w,
  String.length w <= n -> flat false w = true -> matches Pat.brace_items w.
Proof.
  unfold Pat.brace_items.
  induction n as [|n IH]; intros w Hn H.
  - destruct w; [apply m_star_nil | simpl in Hn; lia].
  - destruct w as [|a w]; [apply m_star_nil|]. cbn [flat negb andb] in H. simpl in Hn.
    destruct (Ascii.eqb a open_brace) eqn:Eo.
    + apply Ascii.eqb_eq in Eo. subst a.
      destruct (flat_inside w H) as [u [v [-> [Hu Hv]]]].
      replace (String open_brace (u +++ String close_brace v))
        with (String open_brace (u +++ String close_brace EmptyString) +++ v)
        by (cbn [String.append]; now rewrite append_assoc).
      apply m_star_round; [|discriminate|].
      * apply m_alt_r.
        change (String open_brace (u +++ String close_brace EmptyString))
          with (String open_brace EmptyString +++ (u +++ String close_brace EmptyString)).
        apply m_seq; [apply m_chr; reflexivity|].
        apply m_seq; [now apply brace_free_star | apply m_chr; reflexivity].
      * apply IH; [|exact Hv]. rewrite length_append in Hn. simpl in Hn. lia.
    + destruct (Ascii.eqb a close_brace) eqn:Ec; [discriminate H|].
      change (String a w) with (String a EmptyString +++ w).
      apply m_star_round; [|discriminate | apply IH; [lia | exact H]].
      apply m_alt_l. unfold Pat.no_brace, none_of. apply m_chr.
      unfold open_brace, close_brace in Eo, Ec. simpl. now rewrite Eo, Ec.
Qed.

Lemma flat_matches (w : string) : flat false w = true -> matches Pat.brace_items w.
Proof. apply (flat_matches_fuel (String.length w)). lia. Qed.

Lemma flat_object_matches (obj : string) :
  flat_object obj -> matches Pat.json_object obj.
Proof.
  intros [before [key [after [-> [Hb [Hk Ha]]]]]].
  unfold Pat.json_object.
  change (String open_brace (before +++ key +++ after +++ String close_brace EmptyString))
    with (String open_brace EmptyString
          +++ (before +++ key +++ after +++ String close_brace EmptyString)).
  constructor; [constructor; reflexivity|].
  constructor; [now apply flat_matches|].
  constructor; [now apply matches_key|].
  constructor; [now apply flat_matches | constructor; reflexivity].
Qed.

End ObjectPattern.

(** ** Strings *)

Module StringFacts.

Lemma lstrip_blank (ws : string) : blank ws = true -> Py.lstrip ws = EmptyString.
Proof.
  induction ws as [|a ws IH]; [reflexivity|].
  unfold blank. cbn [Py.all_chars Py.lstrip]. intros [Ha Hw]%andb_true_iff.
  rewrite Ha. now apply IH.
Qed.

Lemma rstrip_blank (ws : string) : blank ws = true -> Py.rstrip ws = EmptyString.
Proof.
  induction ws as [|a ws IH]; [reflexivity|].
  unfold blank. cbn [Py.all_chars Py.rstrip]. intros [Ha Hw]%andb_true_iff.
  rewrite (IH Hw). now rewrite Ha.
Qed.

Lemma lstrip_before (p : string) (a : ascii) (s : string) :
  Py.is_space a = false -> Py.lstrip (p +++ String a s) = Py.lstrip p +++ String a s.
Proof.
  intros Ha. induction p as [|b p IH]; cbn [String.append Py.lstrip].
  - now rewrite Ha.
  - destruct (Py.is_space b); [exact IH | reflexivity].
Qed.

Lemma rstrip_after (s : string) (a : ascii) (q : string) :
  Py.is_space a = false -> Py.rstrip (s +++ String a q) = s +++ String a (Py.rstrip q).
Proof.
  intros Ha. induction s as [|b s IH]; cbn [String.append Py.rstrip].
  - destruct (Py.rstrip q); [now rewrite Ha | reflexivity].
  - rewrite IH. now destruct s.
Qed.

Lemma strip_around (p : string) (a : ascii) (m : string) (b : ascii) (q : string) :
  Py.is_space a = false -> Py.is_space b = false ->
  Py.strip (p +++ String a (m +++ String b q))
  = Py.lstrip p +++ String a (m +++ String b (Py.rstrip q)).
Proof.
  intros Ha Hb. unfold Py.strip. rewrite (lstrip_before _ _ _ Ha).
  change (Py.lstrip p +++ String a (m +++ String b q))
    with (Py.lstrip p +++ (String a m +++ String b q)).
  rewrite <- append_assoc. rewrite (rstrip_after _ _ _ Hb).
  now rewrite append_assoc.
Qed.

Lemma strip_padded (ws1 : string) (a : ascii) (m : string) (b : ascii) (ws2 : string) :
  Py.is_space a = false -> Py.is_space b = false ->
  blank ws1 = true -> blank ws2 = true ->
  Py.strip (ws1 +++ String a (m +++ String b ws2)) = String a (m +++ String b EmptyString).
Proof.
  intros Ha Hb H1 H2. rewrite (strip_around _ _ _ _ _ Ha Hb).
  now rewrite (lstrip_blank _ H1), (rstrip_blank _ H2).
Qed.

Lemma all_chars_lstrip (f : ascii -> bool) (s : string) :
  Py.all_chars f s = true -> Py.all_chars f (Py.lstrip s) = true.
Proof.
  induction s as [|a s IH]; [reflexivity|]. cbn [Py.lstrip].
  destruct (Py.is_space a); [|easy].
  cbn [Py.all_chars]. intros [_ H]%andb_true_iff. now apply IH.
Qed.

Lemma split_on_cons (sep : ascii) (s : string) : Py.split_on sep s <> [].
Proof.
  destruct s as [|c s]; cbn [Py.split_on]; [discriminate|].
  destruct (Ascii.eqb c sep); [discriminate|].
  now destruct (Py.split_on sep s).
Qed.

Lemma split_on_app (sep : ascii) (a b : string) :
  Py.split_on sep (a +++ String sep b) = Py.split_on sep a ++ Py.split_on sep b.
Proof.
  induction a as [|c a IH]; cbn [String.append Py.split_on].
  - now rewrite Ascii.eqb_refl.
  - rewrite IH. destruct (Ascii.eqb c sep); [reflexivity|].
    pose proof (split_on_cons sep a) as Hne.
    now destruct (Py.split_on sep a).
Qed.

Lemma split_on_free (sep : ascii) (s : string) :
  Py.all_chars (fun a => negb (Ascii.eqb a sep)) s = true -> Py.split_on sep s = [s].
Proof.
  induction s as [|c s IH]; [reflexivity|].
  cbn [Py.all_chars Py.split_on]. intros [Hc Hs]%andb_true_iff.
  apply negb_true_iff in Hc. now rewrite Hc, (IH Hs).
Qed.

Lemma join_split_on (sep : ascii) (s : string) :
  Py.join (String sep EmptyString) (Py.split_on sep s) = s.
Proof.
  unfold Py.join. induction s as [|c s IH]; [reflexivity|].
  cbn [Py.split_on]. pose proof (split_on_cons sep s) as Hne.
  destruct (Ascii.eqb c sep) eqn:E.
  - apply Ascii.eqb_eq in E. subst c.
    destruct (Py.split_on sep s) as [|h t]; [contradiction|].
    cbn [String.concat] in *. now rewrite IH.
  - destruct (Py.split_on sep s) as [|h t]; [contradiction|].
    destruct t; cbn [String.concat String.append] in *; now rewrite IH.
Qed.

End StringFacts.

(** ** The call extractor *)

Section ExtractorFacts.
Import StringFacts.
Variable json_loads : string -> option json.

Lemma dmem_dget (k : string) (d : dict) (v : json) : dget k d = Some v -> dmem k d = true.
Proof. unfold dmem. now intros ->. Qed.

Lemma process_call (data : json) (name : string) (arguments : dict) :
  is_call data name arguments -> _process_tool_call_data data = Ok (Some data).
Proof.
  intros [d [-> [Ht Ha]]]. unfold _process_tool_call_data.
  now rewrite (dmem_dget _ _ _ Ht), (dmem_dget _ _ _ Ha).
Qed.

Lemma strip_bare (inner ws1 ws2 : string) :
  blank ws1 = true -> blank ws2 = true ->
  Py.strip (ws1 +++ String "{" (inner +++ "}") +++ ws2) = String "{" (inner +++ "}").
Proof.
  intros H1 H2.
  replace (ws1 +++ String "{" (inner +++ "}") +++ ws2)
    with (ws1 +++ String "{" (inner +++ String "}" ws2))
    by (cbn [String.append]; now rewrite append_assoc).
  now apply strip_padded.
Qed.

Lemma unfence_fenced (lang inner : string) :
  single_line lang = true ->
  unfence (fence +++ lang +++ String newline (inner +++ String newline fence))
  = Py.strip inner.
Proof.
  intros Hl. unfold unfence. rewrite <- append_assoc.
  rewrite !split_on_app.
  rewrite (split_on_free newline (fence +++ lang)).
  - change (Py.split_on newline fence) with [fence].
    unfold Py.slice_1_m1. cbn [app tl]. rewrite removelast_last.
    now rewrite join_split_on.
  - unfold single_line in Hl. exact Hl.
Qed.

Lemma startswith_fence (s : string) : Py.startswith fence (fence +++ s) = true.
Proof.
  unfold Py.startswith, fence. cbn [String.append String.prefix].
  repeat (destruct (ascii_dec _ _) as [_|N]; [|now elim N]).
  now destruct s.
Qed.

Lemma startswith_brace (s : string) : Py.startswith fence (String "{" s) = false.
Proof.
  unfold Py.startswith, fence. cbn [String.prefix].
  now destruct (ascii_dec _ _).
Qed.

(** The first attempt of the extractor: the decoded whole text, fence lines
    dropped. *)
Lemma parse_whole_text (text core : string) (data : json) :
  Py.strip text <> EmptyString ->
  (if Py.startswith fence (Py.strip text) then unfence (Py.strip text) else Py.strip text)
  = core ->
  json_loads core = Some data ->
  parse_gemini_response json_loads text = _process_tool_call_data data.
Proof.
  intros Hne Hcore Hloads. unfold parse_gemini_response. cbv zeta.
  destruct (String.eqb (Py.strip text) EmptyString) eqn:E.
  - now apply String.eqb_eq in E.
  - now rewrite Hcore, Hloads.
Qed.

(** C3.  A reply that is exactly one well-formed object of the shape
    [tool]: string, [arguments]: mapping, with white space around it or
    between the two lines of a single code fence (with white space around the
    fence and around the object), is extracted as exactly that call: the
    mapping the text decodes to, with the same tool name and the same
    argument mapping. *)
Theorem whole_text_call_is_returned (body text : string) (data : json)
    (name : string) (arguments : dict) :
  object_text body ->
  json_loads body = Some data ->
  is_call data name arguments ->
  presented body text ->
  parse_gemini_response json_loads text = Ok (Some data).
Proof.
  intros [inner ->] Hloads Hcall Hshape.
  rewrite <- (process_call data name arguments Hcall).
  destruct Hshape as [ws1 ws2 H1 H2 | ws1 lang ws2 ws3 ws4 H1 Hl H2 H3 H4].
  - apply parse_whole_text with (core := String "{" (inner +++ "}")); [| |exact Hloads];
      rewrite (strip_bare inner ws1 ws2 H1 H2); [discriminate|].
    now rewrite startswith_brace.
  - set (inside := ws2 +++ String "{" (inner +++ "}") +++ ws3).
    assert (E : Py.strip (ws1 +++ fence +++ lang +++ String newline
                            (inside +++ String newline (fence +++ ws4)))
                = fence +++ lang +++ String newline (inside +++ String newline fence)).
    { replace (ws1 +++ fence +++ lang +++ String newline
                 (inside +++ String newline (fence +++ ws4)))
        with (ws1 +++ String "`"
                (("``" +++ lang +++ String newline (inside +++ String newline "``"))
                 +++ String "`" ws4))
        by (unfold fence; repeat (rewrite ?append_assoc; cbn [String.append]); reflexivity).
      rewrite (strip_padded ws1 "`" _ "`" ws4 eq_refl eq_refl H1 H4).
      unfold fence. repeat (rewrite ?append_assoc; cbn [String.append]). reflexivity. }
    replace (ws2 +++ String "{" (inner +++ "}") +++ ws3 +++ String newline (fence +++ ws4))
      with (inside +++ String newline (fence +++ ws4))
      by (unfold inside; now rewrite !append_assoc).
    apply parse_whole_text with (core := String "{" (inner +++ "}")); [| |exact Hloads];
      rewrite E; [discriminate|].
    rewrite startswith_fence, (unfence_fenced lang inside Hl).
    exact (strip_bare inner ws2 ws3 H2 H3).
Qed.



Lemma flat_object_text (obj : string) : Braces.flat_object obj -> object_text obj.
Proof.
  intros [before [key [after [-> _]]]].
  exists (before +++ key +++ after). unfold Braces.open_brace, Braces.close_brace.
  now rewrite !append_assoc.
Qed.

End ExtractorFacts.


Lemma whole_text_call_is_returned_witness :
  parse_gemini_response Json.loads Run.fenced_reply = Ok (Some Run.listing).
Proof.
  apply (whole_text_call_is_returned Json.loads Run.listing_call Run.fenced_reply Run.listing
           "fiddler_mcp__live_sessions" [("limit", JInt 5)]).
  - exists (dq "'tool': 'fiddler_mcp__live_sessions', 'arguments': {'limit': 5}").
    reflexivity.
  - vm_compute. reflexivity.
  - eexists. split; [reflexivity | split; reflexivity].
  - apply (presented_fenced Run.listing_call " " "json" EmptyString EmptyString
             (String newline EmptyString)); reflexivity.
Defined.

(** * Further properties *)

(** ** Steps of the client *)

(** A reflexive and transitive relation between states that holds for
    every step of a computation holds for the computation. *)
Section Steps.
Variable json_loads : string -> option json.
Variable dump_path : string -> string -> string -> option string.
Variable R : client -> client -> Prop.
Hypothesis R_refl : forall c, R c c.
Hypothesis R_trans : forall c1 c2 c3, R c1 c2 -> R c2 c3 -> R c1 c3.

Lemma adv_ret {A} (a : A) : advances R (ret a).
Proof. intros c. apply R_refl. Qed.

Lemma adv_raise {A} (e : exn) : advances R (@raise A e).
Proof. intros c. apply R_refl. Qed.

Lemma adv_lift {A} (r : res A) : advances R (lift r).
Proof. intros c. apply R_refl. Qed.

Lemma adv_gets {A} (f : client -> A) : advances R (gets f).
Proof. intros c. apply R_refl. Qed.

Lemma adv_bind {A B} (m : M A) (f : A -> M B) :
  advances R m -> (forall a, advances R (f a)) -> advances R (bind m f).
Proof.
  intros Hm Hf c. unfold bind. specialize (Hm c).
  destruct (m c) as [[a|e] c']; simpl in *; [|exact Hm].
  exact (R_trans _ _ _ Hm (Hf a c')).
Qed.

Lemma adv_catch {A} (m : M A) (h : exn -> M A) :
  advances R m -> (forall e, advances R (h e)) -> advances R (catch m h).
Proof.
  intros Hm Hh c. unfold catch. specialize (Hm c).
  destruct (m c) as [[a|e] c']; simpl in *; [exact Hm|].
  exact (R_trans _ _ _ Hm (Hh e c')).
Qed.

(** The steps of [call_tool] are its requests, all of the method
    [tools/call]. *)
Section Calls.
Hypothesis R_send :
  forall params c, R c (snd (send_mcp_request "tools/call" params c)).

Lemma adv_send (params : dict) : advances R (send_mcp_request "tools/call" params).
Proof. intros c. apply R_send. Qed.

Ltac adv :=
  repeat first
    [ apply adv_ret | apply adv_raise | apply adv_lift | apply adv_gets
    | apply adv_send
    | apply adv_bind; [|intros ?]
    | match goal with
      | |- advances _ (if ?b then _ else _) => destruct b
      | |- advances _ (match ?x with _ => _ end) => destruct x
      end ].

Lemma adv_auto_fetch (search_result : dict) :
  advances R (_auto_fetch_session_body json_loads dump_path search_result).
Proof. unfold _auto_fetch_session_body, fetch_in_full. cbv zeta. adv. Qed.

Lemma adv_call_tool (tool_name arguments : json) :
  advances R (call_tool json_loads dump_path tool_name arguments).
Proof.
  unfold call_tool. cbv zeta.
  repeat first
    [ apply adv_auto_fetch | apply adv_ret | apply adv_raise | apply adv_lift
    | apply adv_gets | apply adv_send
    | apply adv_bind; [|intros ?]
    | match goal with
      | |- advances _ (if ?b then _ else _) => destruct b
      | |- advances _ (match ?x with _ => _ end) => destruct x
      end ].
Qed.

End Calls.

(** The steps of [chat] are its invocations, the entries it adds to the
    history and its calls of the model. *)
Section Loop.
Hypothesis R_invoke :
  forall tool_name arguments c, R c (snd (invoke json_loads dump_path tool_name arguments c)).
Hypothesis R_remember : forall t c, R c (snd (remember t c)).
Hypothesis R_generate : forall p t c, R c (snd (generate_content p t c)).

Lemma adv_invoke (tool_name arguments : json) :
  advances R (invoke json_loads dump_path tool_name arguments).
Proof. intros c. apply R_invoke. Qed.

Lemma adv_remember (t : turn) : advances R (remember t).
Proof. intros c. apply R_remember. Qed.

Lemma adv_generate (p : prompt) (t : option Z) : advances R (generate_content p t).
Proof. intros c. apply R_generate. Qed.

Ltac adv :=
  repeat first
    [ apply adv_ret | apply adv_raise | apply adv_lift | apply adv_gets
    | apply adv_invoke | apply adv_remember | apply adv_generate
    | apply adv_bind; [|intros ?]
    | match goal with
      | |- advances _ (if ?b then _ else _) => destruct b
      | |- advances _ (match ?x with _ => _ end) => destruct x
      end ].

Lemma adv_run_call (call : json) : advances R (run_call json_loads dump_path call).
Proof. unfold run_call. adv. Qed.

Lemma adv_followups (budget : nat) :
  forall text, advances R (followups json_loads dump_path budget text).
Proof.
  induction budget as [|budget IH]; intros text; cbn [followups].
  - adv.
  - apply adv_bind; [apply adv_lift|]. intros call.
    destruct (wanted call) as [wanted_call|]; [|adv].
    apply adv_bind; [destruct (String.eqb _ _); adv|]. intros _.
    apply adv_bind; [apply adv_run_call|]. intros ran.
    apply adv_bind; [apply adv_generate|]. intros reply.
    destruct (String.eqb reply EmptyString); [adv | apply IH].
Qed.

Lemma adv_answer_or_call (q text : string) :
  advances R (answer_or_call json_loads dump_path q text).
Proof.
  unfold answer_or_call.
  apply adv_bind; [apply adv_lift|]. intros call.
  destruct (wanted call) as [wanted_call|]; [|adv].
  apply adv_bind; [apply adv_run_call|]. intros ran.
  apply adv_bind; [apply adv_generate|]. intros analysis.
  apply adv_bind; [apply adv_gets|]. intros budget. apply adv_followups.
Qed.

Lemma adv_chat_body (q : string) : advances R (chat_body json_loads dump_path q).
Proof.
  unfold chat_body.
  apply adv_bind; [apply adv_generate|]. intros first.
  apply adv_bind; [destruct (String.eqb first EmptyString); adv|]. intros text.
  apply adv_answer_or_call.
Qed.

Lemma adv_build_prompt (q : string) : advances R (build_gemini_prompt q).
Proof.
  unfold build_gemini_prompt.
  apply adv_bind; [apply adv_gets|]. intros tools.
  apply adv_bind; [apply adv_gets|]. intros limit.
  apply adv_bind; [apply adv_lift|]. intros _. now apply adv_ret.
Qed.

Lemma adv_chat (q : string) : advances R (chat json_loads dump_path q).
Proof.
  unfold chat.
  apply adv_bind; [apply adv_remember|]. intros _.
  apply adv_bind; [apply adv_build_prompt|]. intros _.
  apply adv_catch; [apply adv_chat_body|]. intros e. destruct e; adv.
Qed.

End Loop.

(** With the requests, the notes of the invocations, the history entries and
    the calls of the model as steps. *)
Lemma adv_invoke_steps (tool_name arguments : json) (c : client) :
  (forall params c, R c (snd (send_mcp_request "tools/call" params c))) ->
  (forall i c, R c (with_invoked i c)) ->
  R c (snd (invoke json_loads dump_path tool_name arguments c)).
Proof.
  intros Hsend Hinv. unfold invoke, bind, modify. cbv beta iota.
  apply (R_trans _ (with_invoked (invoked c ++ [(tool_name, arguments)]) c));
    [apply Hinv|].
  apply adv_call_tool. exact Hsend.
Qed.

Lemma adv_chat_steps (q : string) :
  (forall params c, R c (snd (send_mcp_request "tools/call" params c))) ->
  (forall i c, R c (with_invoked i c)) ->
  (forall t c, R c (snd (remember t c))) ->
  (forall p t c, R c (snd (generate_content p t c))) ->
  advances R (chat json_loads dump_path q).
Proof.
  intros Hsend Hinv Hrem Hgen. apply adv_chat; [|exact Hrem|exact Hgen].
  intros tool_name arguments c. now apply adv_invoke_steps.
Qed.

End Steps.

(** ** Requests of the tool invoker and of a query *)

Section Requests.
Variable json_loads : string -> option json.
Variable dump_path : string -> string -> string -> option string.

Lemma fresh_ids_le (sent : list message) : forall n n',
  fresh_ids n sent n' -> n <= n'.
Proof.
  induction sent as [|[id method params|method params] rest IH]; intros n n' H; simpl in H.
  - exact H.
  - destruct H as [Hlt H]. apply IH in H. lia.
  - now apply IH.
Qed.

Lemma fresh_ids_lower (sent : list message) : forall a b n',
  a <= b -> fresh_ids b sent n' -> fresh_ids a sent n'.
Proof.
  induction sent as [|[id method params|method params] rest IH]; intros a b n' Hab H;
    simpl in *.
  - lia.
  - destruct H as [Hlt H]. split; [lia | exact H].
  - now apply (IH a b).
Qed.

Lemma fresh_ids_app (s1 s2 : list message) : forall a b c,
  fresh_ids a s1 b -> fresh_ids b s2 c -> fresh_ids a (s1 ++ s2) c.
Proof.
  induction s1 as [|[id method params|method params] rest IH]; intros a b c H1 H2;
    simpl in *.
  - now apply (fresh_ids_lower s2 a b).
  - destruct H1 as [Hlt H1]. split; [exact Hlt | now apply (IH id b)].
  - now apply (IH a b).
Qed.

Lemma only_same (c c' : client) :
  wire c' = wire c -> request_id c' = request_id c -> only_tool_requests c c'.
Proof.
  intros Hw Hn. exists []. rewrite Hw, Hn, app_nil_r. simpl.
  repeat split; lia.
Qed.

Lemma only_refl (c : client) : only_tool_requests c c.
Proof. now apply only_same. Qed.

Lemma only_trans (c1 c2 c3 : client) :
  only_tool_requests c1 c2 -> only_tool_requests c2 c3 -> only_tool_requests c1 c3.
Proof.
  intros [s1 [Hw1 [Ht1 [Hf1 Hl1]]]] [s2 [Hw2 [Ht2 [Hf2 Hl2]]]].
  exists (s1 ++ s2). rewrite Hw2, Hw1, app_assoc.
  pose proof (fresh_ids_le _ _ _ Hf1). pose proof (fresh_ids_le _ _ _ Hf2).
  split; [reflexivity|]. split; [now rewrite forallb_app, Ht1, Ht2|].
  split; [now apply (fresh_ids_app s1 s2 _ (request_id c2))|].
  rewrite length_app. lia.
Qed.

(** What one request does to the state: the counter goes up by one, and a
    live server is written the request with the new id. *)
Lemma send_counts (method : string) (params : dict) (c : client) :
  request_id (snd (send_mcp_request method params c)) = S (request_id c)
  /\ wire (snd (send_mcp_request method params c))
     = wire c ++ (if alive c then [Request (S (request_id c)) method params] else [])
  /\ alive (snd (send_mcp_request method params c)) = alive c.
Proof.
  unfold send_mcp_request. cbv zeta.
  destruct (alive c) eqn:Ha; simpl; rewrite ?Ha; simpl.
  2:{ now rewrite app_nil_r. }
  destruct (server c) as [|[response|detail| |] rest]; simpl; rewrite ?Ha;
    try (repeat split; reflexivity).
  destruct (negb (verbose_logging c) && negb (dmem "error" response)
            && String.eqb method "tools/call"); [|simpl; rewrite Ha; repeat split].
  destruct (dget "result" response) as [[ | | | | | ]|]; simpl; rewrite Ha; repeat split.
Qed.

Lemma only_send (params : dict) (c : client) :
  only_tool_requests c (snd (send_mcp_request "tools/call" params c)).
Proof.
  destruct (send_counts "tools/call" params c) as [Hn [Hw _]].
  exists (if alive c then [Request (S (request_id c)) "tools/call" params] else []).
  rewrite Hn. split; [exact Hw|].
  destruct (alive c); cbn [forallb Run.is_tools_call fresh_ids List.length];
    repeat split; try lia; reflexivity.
Qed.

Lemma within_pure {A} (k : nat) (m : M A) :
  (forall c, request_id (snd (m c)) = request_id c) -> within k m.
Proof. intros H c. rewrite H. lia. Qed.

Lemma within_bind {A B} (j k : nat) (m : M A) (f : A -> M B) :
  within j m -> (forall a, within k (f a)) -> within (j + k) (bind m f).
Proof.
  intros Hm Hf c. unfold bind. specialize (Hm c).
  destruct (m c) as [[a|e] c']; simpl in *; [|lia].
  specialize (Hf a c'). lia.
Qed.

Lemma within_send (method : string) (params : dict) :
  within 1 (send_mcp_request method params).
Proof. intros c. destruct (send_counts method params c) as [-> _]. lia. Qed.

Ltac quiet :=
  repeat first
    [ apply (within_pure 0); intros ?; reflexivity
    | apply (within_bind 0 0); [|intros ?]
    | match goal with
      | |- within _ (if ?b then _ else _) => destruct b
      | |- within _ (match ?x with _ => _ end) => destruct x
      end ].

Lemma within_fetch_in_full (auto_save : bool) (session_id : string) (has_duplicates : bool)
    (n_dup : nat) (received_at_iso : json) (body_data : dict) (size_bytes : json) :
  within 1 (fetch_in_full json_loads dump_path auto_save session_id has_duplicates n_dup
              received_at_iso body_data size_bytes).
Proof.
  unfold fetch_in_full.
  apply (within_bind 0 1); [apply within_pure; intros ?; reflexivity|]. intros smart.
  apply (within_bind 1 0); [apply within_send|]. intros raw. quiet.
Qed.

Lemma within_auto_fetch (search_result : dict) :
  within 2 (_auto_fetch_session_body json_loads dump_path search_result).
Proof.
  unfold _auto_fetch_session_body. cbv zeta.
  destruct (negb _); [apply within_pure; intros ?; reflexivity|].
  apply (within_bind 0 2); [apply within_pure; intros ?; reflexivity|]. intros first.
  destruct (String.eqb _ _); [apply within_pure; intros ?; reflexivity|].
  apply (within_bind 0 2); [apply within_pure; intros ?; reflexivity|]. intros n_dup.
  apply (within_bind 1 1); [apply within_send|]. intros response.
  destruct (_parse_tool_response json_loads response);
    try (apply within_pure; intros ?; reflexivity).
  destruct (is_False _); [apply within_pure; intros ?; reflexivity|].
  apply (within_bind 0 1); [apply within_pure; intros ?; reflexivity|]. intros auto_save.
  destruct (truthy _); [apply within_fetch_in_full|].
  apply (within_bind 0 1); [|intros b]; apply within_pure; intros ?; reflexivity.
Qed.

Lemma within_call_tool (tool_name arguments : json) :
  within 3 (call_tool json_loads dump_path tool_name arguments).
Proof.
  unfold call_tool. cbv zeta.
  destruct tool_name; try (apply within_pure; intros ?; reflexivity).
  apply (within_bind 0 3); [apply within_pure; intros ?; reflexivity|]. intros tools.
  apply (within_bind 0 3); [apply within_pure; intros ?; reflexivity|]. intros valid.
  destruct (negb _); [apply within_pure; intros ?; reflexivity|].
  destruct arguments; try (apply within_pure; intros ?; reflexivity).
  apply (within_bind 1 2); [apply within_send|]. intros response.
  destruct (String.eqb _ _); [|apply within_pure; intros ?; reflexivity].
  destruct (_parse_tool_response json_loads response);
    try (apply within_pure; intros ?; reflexivity).
  destruct (truthy _); [|apply within_pure; intros ?; reflexivity].
  apply (within_bind 2 0); [apply within_auto_fetch|]. intros follow_up.
  apply within_pure; intros ?; reflexivity.
Qed.

(** One [call_tool] writes three requests at most (the call, the automatic
    body fetch after a search, the full fetch after a truncated body), all of
    the method [tools/call], with ids that grow from the counter on. *)
Theorem call_tool_writes_at_most_three (tool_name arguments : json) (c : client) :
  exists sent,
    wire (snd (call_tool json_loads dump_path tool_name arguments c)) = wire c ++ sent
    /\ forallb Run.is_tools_call sent = true
    /\ fresh_ids (request_id c) sent
         (request_id (snd (call_tool json_loads dump_path tool_name arguments c)))
    /\ List.length sent <= 3.
Proof.
  destruct (adv_call_tool json_loads dump_path only_tool_requests only_refl only_trans
              only_send tool_name arguments c) as [sent [Hw [Ht [Hf Hl]]]].
  pose proof (within_call_tool tool_name arguments c) as Hk.
  exists sent. repeat split; try assumption. lia.
Qed.

End Requests.

(** ** A whole query *)

Section Query.
Variable json_loads : string -> option json.
Variable dump_path : string -> string -> string -> option string.

Lemma paid_refl (c : client) : paid_by_invocations c c.
Proof. unfold paid_by_invocations. lia. Qed.

Lemma paid_trans (c1 c2 c3 : client) :
  paid_by_invocations c1 c2 -> paid_by_invocations c2 c3 -> paid_by_invocations c1 c3.
Proof. unfold paid_by_invocations. lia. Qed.

Lemma paid_invoke (tool_name arguments : json) (c : client) :
  paid_by_invocations c (snd (invoke json_loads dump_path tool_name arguments c)).
Proof.
  unfold invoke, bind, modify. cbv beta iota.
  set (c1 := with_invoked (invoked c ++ [(tool_name, arguments)]) c).
  pose proof (within_call_tool json_loads dump_path tool_name arguments c1) as Hk.
  pose proof (keeps_call_tool json_loads dump_path invoked tool_name arguments
                blind_invoked c1) as Hi.
  unfold paid_by_invocations. rewrite Hi. unfold c1 in *. simpl in *.
  rewrite length_app. simpl. lia.
Qed.

Lemma generate_keeps (p : prompt) (t : option Z) (c : client) :
  wire (snd (generate_content p t c)) = wire c
  /\ request_id (snd (generate_content p t c)) = request_id c
  /\ invoked (snd (generate_content p t c)) = invoked c
  /\ conversation_history (snd (generate_content p t c)) = conversation_history c
  /\ alive (snd (generate_content p t c)) = alive c
  /\ server (snd (generate_content p t c)) = server c.
Proof.
  unfold generate_content. cbv zeta.
  destruct (agent _) as [|[text|e] rest]; simpl; repeat split.
Qed.

Lemma paid_generate (p : prompt) (t : option Z) (c : client) :
  paid_by_invocations c (snd (generate_content p t c)).
Proof.
  destruct (generate_keeps p t c) as [_ [Hn [Hi _]]].
  unfold paid_by_invocations. rewrite Hn, Hi. lia.
Qed.

Lemma only_generate (p : prompt) (t : option Z) (c : client) :
  only_tool_requests c (snd (generate_content p t c)).
Proof. destruct (generate_keeps p t c) as [Hw [Hn _]]. now apply only_same. Qed.

(** One query makes at most [max_followups + 1] invocations. *)
Lemma invoked_answer_or_call (q text : string) (c : client) :
  List.length (invoked (snd (answer_or_call json_loads dump_path q text c)))
  <= List.length (invoked c) + 1 + max_followups c.
Proof.
  unfold answer_or_call. unfold bind at 1. unfold lift.
  destruct (parse_gemini_response json_loads text) as [call|e]; simpl; [|lia].
  destruct (wanted call) as [wanted_call|]; [|simpl; lia].
  unfold bind at 1.
  pose proof (run_call_invokes_once json_loads dump_path wanted_call c) as H1.
  pose proof (keeps_run_call json_loads dump_path max_followups wanted_call
                blind_max_followups (fun i c => eq_refl) c) as M1.
  destruct (run_call json_loads dump_path wanted_call c) as [[ran|e] c1];
    simpl in *; [|lia].
  unfold bind at 1.
  destruct (generate_content_spec (ToolAnalysis (fst ran) (snd ran) q) None c1)
    as [_ [_ [H2 [M2 _]]]].
  destruct (generate_content (ToolAnalysis (fst ran) (snd ran) q) None c1)
    as [[analysis|e] c2]; simpl in *;
    apply (f_equal (@List.length _)) in H2; [|lia].
  unfold bind at 1. unfold gets. cbv beta iota.
  destruct (followups_spec json_loads dump_path (max_followups c2)
              (if String.eqb analysis EmptyString then analysis_blocked else analysis) c2)
    as [gens [_ [_ [H3 _]]]].
  lia.
Qed.

Lemma invoked_chat_body (q : string) (c : client) :
  List.length (invoked (snd (chat_body json_loads dump_path q c)))
  <= List.length (invoked c) + 1 + max_followups c.
Proof.
  unfold chat_body. unfold bind at 1.
  destruct (generate_content_spec (InitialQuery q) None c) as [_ [_ [H1 [M1 _]]]].
  destruct (generate_content (InitialQuery q) None c) as [[first|e] c1];
    simpl in *; apply (f_equal (@List.length _)) in H1; [|lia].
  unfold bind at 1.
  destruct (String.eqb first EmptyString).
  - destruct (generate_content_spec (StricterRetry q) (Some 0%Z) c1)
      as [_ [_ [H2 [M2 _]]]].
    destruct (generate_content (StricterRetry q) (Some 0%Z) c1) as [[text|e] c2];
      simpl in *; apply (f_equal (@List.length _)) in H2; [|lia].
    pose proof (invoked_answer_or_call q text c2). lia.
  - unfold ret. cbv beta iota.
    pose proof (invoked_answer_or_call q first c1). lia.
Qed.

Lemma invocations_per_query_aux (q : string) (c : client) :
  List.length (invoked (snd (chat json_loads dump_path q c)))
  <= List.length (invoked c) + 1 + max_followups c.
Proof.
  destruct (create_tool_descriptions (available_tools c) (max_followups c))
    as [descriptions|e] eqn:E.
  - destruct (chat_of_body json_loads dump_path q c descriptions E) as [_ [-> _]].
    exact (invoked_chat_body q _).
  - rewrite (chat_unbuilt json_loads dump_path q c e E). cbn [snd]. simpl. lia.
Qed.

(** A query makes at most [max_followups + 1] tool invocations, whatever
    the model and the server answer: one before the loop and one for each of
    its rounds. *)
Theorem invocations_per_query (q : string) (c : client) :
  List.length (invoked (snd (chat json_loads dump_path q c)))
  <= List.length (invoked c) + 1 + max_followups c.
Proof. exact (invocations_per_query_aux q c). Qed.

(** A query writes nothing but [tools/call] requests, with ids that grow
    from the counter on, and at most three for each of the [max_followups + 1]
    invocations it can make. *)
Theorem query_writes_bounded (q : string) (c : client) :
  exists sent,
    wire (snd (chat json_loads dump_path q c)) = wire c ++ sent
    /\ forallb Run.is_tools_call sent = true
    /\ fresh_ids (request_id c) sent (request_id (snd (chat json_loads dump_path q c)))
    /\ List.length sent <= 3 * (1 + max_followups c).
Proof.
  destruct (adv_chat_steps json_loads dump_path only_tool_requests only_refl only_trans q
              only_send
              (fun i c => only_same c _ eq_refl eq_refl)
              (fun t c => only_same c _ eq_refl eq_refl)
              only_generate c) as [sent [Hw [Ht [Hf Hl]]]].
  pose proof (adv_chat json_loads dump_path paid_by_invocations paid_refl paid_trans
                paid_invoke (fun t c => paid_refl _) paid_generate q c) as Hp.
  pose proof (invocations_per_query_aux q c) as Hi.
  exists sent. repeat split; try assumption.
  unfold paid_by_invocations in Hp. lia.
Qed.

End Query.

(** ** A terminated server, the history *)

Section Session.
Variable json_loads : string -> option json.
Variable dump_path : string -> string -> string -> option string.

Lemma dead_refl (c : client) : dead_stays_dead c c.
Proof. intros H. now repeat split. Qed.

Lemma dead_trans (c1 c2 c3 : client) :
  dead_stays_dead c1 c2 -> dead_stays_dead c2 c3 -> dead_stays_dead c1 c3.
Proof.
  intros H12 H23 H. destruct (H12 H) as [Ha [Hw Hs]].
  destruct (H23 Ha) as [Ha' [Hw' Hs']]. repeat split; congruence.
Qed.

Lemma dead_send (method : string) (params : dict) (c : client) :
  dead_stays_dead c (snd (send_mcp_request method params c)).
Proof.
  intros H. unfold send_mcp_request. cbv zeta. simpl. rewrite H. simpl.
  now repeat split.
Qed.

Lemma dead_generate (p : prompt) (t : option Z) (c : client) :
  dead_stays_dead c (snd (generate_content p t c)).
Proof.
  intros H. destruct (generate_keeps p t c) as [Hw [_ [_ [_ [Ha Hs]]]]].
  repeat split; congruence.
Qed.

(** What the server of a terminated process is asked for comes back as the
    error [MCP server process has terminated]. *)
Lemma dead_send_result (method : string) (params : dict) (c : client) :
  alive c = false ->
  send_mcp_request method params c
  = (Ok (error_reply "MCP server process has terminated"),
     with_request_id (S (request_id c)) c).
Proof. intros H. unfold send_mcp_request. cbv zeta. simpl. now rewrite H. Qed.

(** Once the server process has terminated, [call_tool] of a tool of the
    catalog returns the error [MCP server process has terminated] as a tool
    result; only the request counter moves. *)
Theorem call_tool_on_terminated_server (name : string) (arguments : dict) (c : client) :
  alive c = false ->
  forallb tool_ok (available_tools c) = true ->
  In (resolve_name name) (catalog_names (available_tools c)) ->
  call_tool json_loads dump_path (JStr name) (JDict arguments) c
  = (Ok (JDict [("error", JStr "MCP server process has terminated")]),
     with_request_id (S (request_id c)) c).
Proof.
  intros Hdead Hok Hin. unfold call_tool. cbv zeta.
  unfold bind at 1. unfold gets. cbv beta iota.
  unfold bind at 1. unfold lift. rewrite (valid_tools_names _ Hok). cbv beta iota.
  apply name_in_strings in Hin. rewrite Hin. cbn [negb]. unfold bind at 1. rewrite (dead_send_result _ _ c Hdead).
  cbn [_parse_tool_response error_reply dget String.eqb Ascii.eqb Bool.eqb dget_or].
  destruct (String.eqb (resolve_name name) "fiddler_mcp__sessions_search"); reflexivity.
Qed.

(** Once the server process has terminated, a whole query writes nothing to
    it and reads nothing from it. *)
Theorem query_on_terminated_server (q : string) (c : client) :
  alive c = false ->
  alive (snd (chat json_loads dump_path q c)) = false
  /\ wire (snd (chat json_loads dump_path q c)) = wire c
  /\ server (snd (chat json_loads dump_path q c)) = server c.
Proof.
  exact (adv_chat_steps json_loads dump_path dead_stays_dead dead_refl dead_trans q
           (dead_send "tools/call")
           (fun i c => dead_refl _) (fun t c => dead_refl _) dead_generate c).
Qed.

Lemma history_refl (c : client) : history_grows c c.
Proof. exists []. now rewrite app_nil_r. Qed.

Lemma history_trans (c1 c2 c3 : client) :
  history_grows c1 c2 -> history_grows c2 c3 -> history_grows c1 c3.
Proof. intros [m1 H1] [m2 H2]. exists (m1 ++ m2). now rewrite H2, H1, app_assoc. Qed.

Lemma history_send (method : string) (params : dict) (c : client) :
  history_grows c (snd (send_mcp_request method params c)).
Proof.
  exists []. rewrite app_nil_r. unfold send_mcp_request. cbv zeta.
  destruct (negb (alive _)); [reflexivity|].
  destruct (server _) as [|[response|detail| |] rest]; simpl; try reflexivity.
  destruct (negb (verbose_logging c) && negb (dmem "error" response)
            && String.eqb method "tools/call"); [|reflexivity].
  destruct (dget "result" response) as [[ | | | | | ]|]; reflexivity.
Qed.

Lemma history_generate (p : prompt) (t : option Z) (c : client) :
  history_grows c (snd (generate_content p t c)).
Proof.
  exists []. rewrite app_nil_r. now destruct (generate_keeps p t c) as [_ [_ [_ [H _]]]].
Qed.

Lemma history_remember (t : turn) (c : client) : history_grows c (snd (remember t c)).
Proof. now exists [t]. Qed.

(** A query only adds to the history, and what it adds first is the user's
    turn: the entries of earlier queries are never rewritten or dropped. *)
Theorem query_extends_history (q : string) (c : client) :
  exists more,
    conversation_history (snd (chat json_loads dump_path q c))
    = conversation_history c ++ UserTurn q :: more.
Proof.
  unfold chat. unfold bind at 1. unfold remember at 1. unfold modify. cbv beta iota.
  set (c0 := with_history (conversation_history c ++ [UserTurn q]) c).
  match goal with
  | |- exists more, conversation_history (snd (?m c0)) = _ =>
      assert (H : advances history_grows m)
  end.
  { apply (adv_bind history_grows history_trans);
      [apply (adv_build_prompt history_grows history_refl history_trans)|]. intros _.
    apply (adv_catch history_grows history_trans).
    - apply (adv_chat_body json_loads dump_path history_grows history_refl history_trans).
      + intros tool_name arguments c1.
        apply (adv_invoke_steps json_loads dump_path history_grows history_refl
                 history_trans).
        * intros params c2. apply history_send.
        * intros i c2. exists []. now rewrite app_nil_r.
      + exact history_remember.
      + exact history_generate.
    - intros e. destruct e;
        repeat first
          [ apply (adv_raise history_grows history_refl)
          | apply (adv_ret history_grows history_refl)
          | apply (adv_bind history_grows history_trans); [|intros ?]
          | intros c1; apply history_remember ]. }
  destruct (H c0) as [more Hm]. exists more. rewrite Hm. unfold c0. simpl.
  now rewrite <- app_assoc.
Qed.

End Session.

(** ** The answer of a query is on record *)

Section Record.
Variable json_loads : string -> option json.
Variable dump_path : string -> string -> string -> option string.

Lemma recorded_bind {A} (m : M A) (f : A -> M string) :
  (forall a, ends_recorded (f a)) -> ends_recorded (bind m f).
Proof.
  intros Hf c text. unfold bind.
  destruct (m c) as [[a|e] c']; simpl; [apply Hf | discriminate].
Qed.

Lemma recorded_final (text : string) :
  ends_recorded (remember (AssistantTurn text) ;;; ret text).
Proof.
  intros c t. unfold bind, remember, modify, ret. simpl. intros [= <-].
  now exists (conversation_history c).
Qed.

Lemma recorded_followups (budget : nat) :
  forall text, ends_recorded (followups json_loads dump_path budget text).
Proof.
  induction budget as [|budget IH]; intros text; cbn [followups].
  - apply recorded_final.
  - apply recorded_bind. intros call.
    destruct (wanted call) as [wanted_call|]; [|apply recorded_final].
    apply recorded_bind. intros _. apply recorded_bind. intros ran.
    apply recorded_bind. intros reply.
    destruct (String.eqb reply EmptyString); [apply recorded_final | apply IH].
Qed.

Lemma recorded_chat_body (q : string) : ends_recorded (chat_body json_loads dump_path q).
Proof.
  unfold chat_body, answer_or_call.
  apply recorded_bind. intros first. apply recorded_bind. intros text.
  apply recorded_bind. intros call.
  destruct (wanted call) as [wanted_call|]; [|apply recorded_final].
  apply recorded_bind. intros ran. apply recorded_bind. intros analysis.
  apply recorded_bind. intros budget. apply recorded_followups.
Qed.

(** The handlers of [chat] around any body of the [try]: a text that comes
    back is on record when the body records what it returns, and nothing but
    [SystemExit] gets through, whatever the body raises. *)
Lemma caught_is_recorded (m : M string) (c0 : client) :
  ends_recorded m ->
  let handled :=
    catch m
      (fun e =>
         match e with
         | KeyboardInterrupt =>
             remember (SystemTurn "[User interrupted the response]") ;;;
             ret interrupt_msg
         | SystemExit _ => raise e
         | _ =>
             let error_msg := "Error processing query: " +++ exn_str e in
             remember (ErrorTurn error_msg) ;;;
             ret error_msg
         end) in
  match fst (handled c0) with
  | Ok text =>
      exists earlier t,
        conversation_history (snd (handled c0)) = earlier ++ [t] /\ records text t
  | Raise e => exists code, e = SystemExit code
  end.
Proof.
  intros Hb. cbv zeta. unfold catch.
  specialize (Hb c0). destruct (m c0) as [[text|e] c1]; simpl in *.
  - destruct (Hb text eq_refl) as [earlier He].
    exists earlier, (AssistantTurn text). split; [exact He | now left].
  - destruct e; simpl;
      try (eexists _, _; split; [reflexivity | right; left; reflexivity]).
    + eexists _, _. split; [reflexivity | right; right; split; reflexivity].
    + now exists code.
Qed.

(** Whatever text a query returns is the last entry of the history when it
    returns: the assistant's turn for an answer, an error entry for the
    message of an exception, a system entry for an interruption.  The
    exceptions a query lets through are [SystemExit] and what building the
    prompt from the catalog raises, before the [try] is entered.  Inside the
    [try] the handlers decide, whatever is raised there. *)
Theorem query_answer_is_recorded (q : string) (c : client) :
  match fst (chat json_loads dump_path q c) with
  | Ok text =>
      exists earlier t,
        conversation_history (snd (chat json_loads dump_path q c)) = earlier ++ [t]
        /\ records text t
  | Raise e =>
      (exists code, e = SystemExit code)
      \/ create_tool_descriptions (available_tools c) (max_followups c) = Raise e
  end.
Proof.
  destruct (create_tool_descriptions (available_tools c) (max_followups c))
    as [descriptions|e0] eqn:E.
  2:{ rewrite (chat_unbuilt json_loads dump_path q c e0 E). cbn [fst]. now right. }
  rewrite (chat_built json_loads dump_path q c descriptions E).
  pose proof (caught_is_recorded (chat_body json_loads dump_path q)
                (with_history (conversation_history c ++ [UserTurn q]) c)
                (recorded_chat_body q)) as H.
  cbv zeta in H.
  match type of H with
  | match fst ?x with _ => _ end =>
      match goal with
      | |- match fst ?y with _ => _ end => change y with x
      end; destruct (fst x) as [text|e]
  end.
  - exact H.
  - now left.
Qed.

End Record.

(** ** The call extractor on every reply *)

Section Extracted.
Import StringFacts.
Variable json_loads : string -> option json.

Lemma call_shape_processed (data r : json) :
  _process_tool_call_data data = Ok (Some r) ->
  exists d, r = JDict d /\ dmem "tool" d = true /\ dmem "arguments" d = true.
Proof.
  assert (Hd : forall d,
             (if dmem "tool" d && dmem "arguments" d then Ok (Some (JDict d))
              else if dmem "tool_code" d then
                match dget_or "tool_code" (JStr EmptyString) d with
                | JStr code => Ok (tool_code_call code)
                | _ => Raise TypeError
                end
              else Ok None) = Ok (Some r) ->
             exists d, r = JDict d /\ dmem "tool" d = true /\ dmem "arguments" d = true).
  { intros d. destruct (dmem "tool" d && dmem "arguments" d) eqn:E.
    - intros [= <-]. apply andb_true_iff in E as [Et Ea]. now exists d.
    - destruct (dmem "tool_code" d); [|discriminate].
      destruct (dget_or "tool_code" (JStr EmptyString) d); try discriminate.
      unfold tool_code_call.
      destruct (Re.search Pat.plain_text s) as [m|];
        [intros [= <-]; eexists; repeat split|].
      destruct (Re.search Pat.dotted_code s) as [m|];
        [intros [= <-]; eexists; repeat split | discriminate]. }
  unfold _process_tool_call_data.
  destruct data as [ |b|z|s|l|d]; try discriminate; [|apply Hd].
  destruct l as [|x l]; [discriminate|].
  destruct x as [ |b|z|s|l'|d]; try discriminate. apply Hd.
Qed.

Lemma call_shape_first (matches : list string) (r : json) :
  first_call json_loads matches = Ok (Some r) ->
  exists d, r = JDict d /\ dmem "tool" d = true /\ dmem "arguments" d = true.
Proof.
  induction matches as [|m rest IH]; cbn [first_call]; [discriminate|].
  destruct (json_loads m) as [data|]; [|exact IH].
  destruct (_process_tool_call_data data) as [[r'|]|e] eqn:E; try discriminate;
    [|exact IH].
  destruct (truthy r'); [|exact IH].
  intros [= <-]. exact (call_shape_processed data r' E).
Qed.

(** Whatever [parse_gemini_response] returns as a call is a mapping that has
    both the key [tool] and the key [arguments]: the two subscripts [chat]
    applies to it cannot fail. *)
Theorem extracted_call_has_both_keys (text : string) (call : json) :
  parse_gemini_response json_loads text = Ok (Some call) ->
  exists d, call = JDict d /\ dmem "tool" d = true /\ dmem "arguments" d = true.
Proof.
  unfold parse_gemini_response. cbv zeta.
  destruct (String.eqb (Py.strip text) EmptyString); [discriminate|].
  set (core := if Py.startswith fence (Py.strip text) then unfence (Py.strip text)
               else Py.strip text).
  destruct (json_loads core) as [data|]; [apply call_shape_processed|].
  destruct (first_call json_loads _) as [[r|]|e] eqn:E; try discriminate.
  - intros [= <-]. exact (call_shape_first _ r E).
  - unfold plain_text_call. destruct (Re.search Pat.plain_text core) as [m|];
      [|discriminate].
    intros [= <-]. eexists. repeat split.
Qed.

End Extracted.

(** ** Stretches of a text *)

Module PartFacts.
Import StringFacts.

Lemma part_refl (s : string) : part_of s s.
Proof. exists EmptyString, EmptyString. simpl. now rewrite append_empty_r. Qed.

Lemma part_trans (a b c : string) : part_of a b -> part_of b c -> part_of a c.
Proof.
  intros [l1 [r1 ->]] [l2 [r2 ->]]. exists (l2 +++ l1), (r1 +++ r2).
  now rewrite !append_assoc.
Qed.

Lemma part_empty (s : string) : part_of EmptyString s.
Proof. now exists EmptyString, s. Qed.

Lemma part_lstrip (s : string) : part_of (Py.lstrip s) s.
Proof.
  induction s as [|a s IH]; [apply part_refl|]. cbn [Py.lstrip].
  destruct (Py.is_space a); [|apply part_refl].
  destruct IH as [l [r E]]. exists (String a l), r. cbn [String.append]. now rewrite <- E.
Qed.

Lemma part_rstrip (s : string) : part_of (Py.rstrip s) s.
Proof.
  induction s as [|a s IH]; [apply part_refl|]. cbn [Py.rstrip].
  assert (H : part_of (String a (Py.rstrip s)) (String a s)).
  { assert (Hp : exists r, s = Py.rstrip s +++ r).
    { clear IH. induction s as [|b s IHs]; [now exists EmptyString|]. cbn [Py.rstrip].
      destruct IHs as [r E]. destruct (Py.rstrip s) eqn:Er.
      - destruct (Py.is_space b); [now exists (String b s)|].
        exists s. reflexivity.
      - exists r. cbn [String.append] in *. now rewrite <- E. }
    destruct Hp as [r E]. exists EmptyString, r. cbn [String.append]. now rewrite <- E. }
  destruct (Py.rstrip s) eqn:Er; [|exact H].
  destruct (Py.is_space a); [apply part_empty | exact H].
Qed.

Lemma part_strip (s : string) : part_of (Py.strip s) s.
Proof. exact (part_trans _ _ _ (part_rstrip _) (part_lstrip s)). Qed.

Lemma concat_cons (sep x : string) (l : list string) :
  l <> [] -> String.concat sep (x :: l) = x +++ sep +++ String.concat sep l.
Proof. destruct l; [contradiction | reflexivity]. Qed.

Lemma concat_last (sep x : string) (l : list string) :
  l <> [] -> String.concat sep (l ++ [x]) = String.concat sep l +++ sep +++ x.
Proof.
  induction l as [|y l IH]; [contradiction|]. intros _.
  destruct l as [|z l]; [reflexivity|].
  change ((y :: z :: l) ++ [x]) with (y :: ((z :: l) ++ [x])).
  rewrite concat_cons by (destruct l; discriminate).
  rewrite IH by discriminate.
  rewrite (concat_cons sep y (z :: l)) by discriminate.
  now rewrite !append_assoc.
Qed.

(** The lines between the first and the last are a stretch of the text. *)
Lemma part_inner_lines (s : string) :
  part_of (Py.join (String newline EmptyString)
             (Py.slice_1_m1 (Py.split_on newline s))) s.
Proof.
  rewrite <- (join_split_on newline s) at 2.
  pose proof (split_on_cons newline s) as Hne.
  destruct (Py.split_on newline s) as [|l0 rest]; [contradiction|].
  unfold Py.slice_1_m1, Py.join. cbn [tl].
  destruct rest as [|l1 rest]; [apply part_empty|].
  rewrite concat_cons by discriminate.
  destruct (exists_last (l := l1 :: rest)) as [mid [z E]]; [discriminate|].
  rewrite E, removelast_last.
  destruct mid as [|m0 mid]; [apply part_empty|].
  rewrite concat_last by discriminate.
  exists (l0 +++ String newline EmptyString), (String newline EmptyString +++ z).
  now rewrite !append_assoc.
Qed.

Lemma part_unfence (s : string) : part_of (unfence s) s.
Proof. exact (part_trans _ _ _ (part_strip _) (part_inner_lines s)). Qed.

Lemma all_chars_app (f : ascii -> bool) (a b : string) :
  Py.all_chars f (a +++ b) = Py.all_chars f a && Py.all_chars f b.
Proof. induction a as [|x a IH]; simpl; [reflexivity | now rewrite IH, andb_assoc]. Qed.

Lemma all_chars_part (f : ascii -> bool) (a s : string) :
  part_of a s -> Py.all_chars f s = true -> Py.all_chars f a = true.
Proof.
  intros [l [r ->]]. rewrite !all_chars_app.
  intros H. apply andb_true_iff in H as [_ H]. now apply andb_true_iff in H as [H _].
Qed.

Lemma prefix_app (p a b : string) :
  String.prefix p a = true -> String.prefix p (a +++ b) = true.
Proof.
  revert a. induction p as [|x p IH]; intros a H; [now destruct (a +++ b)|].
  destruct a as [|y a]; [discriminate H|]. cbn [String.append String.prefix] in *.
  destruct (ascii_dec x y); [now apply IH | discriminate H].
Qed.

Lemma contains_app_l (p a b : string) :
  Py.contains p a = true -> Py.contains p (a +++ b) = true.
Proof.
  induction a as [|x a IH]; cbn [Py.contains String.append].
  - rewrite orb_false_r. intros H. destruct p; [|discriminate H].
    destruct b; reflexivity.
  - intros H. apply orb_true_iff in H as [H|H].
    + apply (prefix_app p (String x a) b) in H. cbn [String.append] in H.
      now rewrite H.
    + rewrite (IH H). apply orb_true_r.
Qed.

Lemma contains_app_r (p a b : string) :
  Py.contains p b = true -> Py.contains p (a +++ b) = true.
Proof.
  intros H. induction a as [|x a IH]; [exact H|].
  cbn [String.append Py.contains]. rewrite IH. apply orb_true_r.
Qed.

Lemma contains_part (p a s : string) :
  part_of a s -> Py.contains p s = false -> Py.contains p a = false.
Proof.
  intros [l [r ->]] H. destruct (Py.contains p a) eqn:E; [|reflexivity].
  rewrite (contains_app_r p l _ (contains_app_l p a r E)) in H. discriminate H.
Qed.

End PartFacts.

(** ** Where the patterns of the extractor cannot match *)

Module ScanFacts.
Import Re Lang Braces ReFacts ObjectPattern StringFacts PartFacts.

Lemma search_from_unopened (s : string) : forall pos,
  unopened s = true -> search_from Pat.json_object pos s = None.
Proof.
  induction s as [|a s IH]; intros pos H; [reflexivity|].
  cbn [unopened Py.all_chars] in H. unfold unopened in IH.
  apply andb_true_iff in H as [Ha Hs]. apply negb_true_iff in Ha.
  rewrite (search_from_miss _ _ _ _ (match_here_needs_brace a s Ha)). now apply IH.
Qed.

Lemma match_here_needs_bracket (a : ascii) (s : string) :
  Ascii.eqb a "[" = false -> match_here Pat.json_array (String a s) = None.
Proof.
  intros Ha. unfold match_here, Pat.json_array, lit. cbn [rmatch].
  rewrite Ascii.eqb_sym. now rewrite Ha.
Qed.

Lemma search_from_unbracketed (s : string) : forall pos,
  unbracketed s = true -> search_from Pat.json_array pos s = None.
Proof.
  induction s as [|a s IH]; intros pos H; [reflexivity|].
  cbn [unbracketed Py.all_chars] in H. unfold unbracketed in IH.
  apply andb_true_iff in H as [Ha Hs]. apply negb_true_iff in Ha.
  rewrite (search_from_miss _ _ _ _ (match_here_needs_bracket a s Ha)). now apply IH.
Qed.

(** A pattern that opens with a word matches only where the word stands. *)
Lemma rmatch_word_prefix {R : Type} (p s : string) (c : caps)
    (k : string -> caps -> option R) :
  String.prefix p s = false -> rmatch (word p) s c k = None.
Proof.
  revert s. induction p as [|x p IH]; intros s H; [now destruct s|].
  cbn [word rmatch lit]. destruct s as [|y s]; [reflexivity|].
  cbn [String.prefix] in H. destruct (ascii_dec x y) as [->|N].
  - rewrite Ascii.eqb_refl. now apply IH.
  - apply Ascii.eqb_neq in N. now rewrite N.
Qed.

Lemma match_here_plain_text (s : string) :
  String.prefix "fiddler_mcp__" s = false -> match_here Pat.plain_text s = None.
Proof.
  intros H. unfold match_here, Pat.plain_text. cbn [rmatch].
  now apply rmatch_word_prefix.
Qed.

Lemma match_here_plain_text_head (s : string) :
  String.prefix "fiddler_mcp__" s = false -> match_here Pat.plain_text_head s = None.
Proof.
  intros H. unfold match_here, Pat.plain_text_head. cbn [rmatch].
  now apply rmatch_word_prefix.
Qed.

Lemma search_from_no_prefix (r : regex) (p : string) :
  (forall s, String.prefix p s = false -> match_here r s = None) ->
  forall s pos, Py.contains p s = false -> search_from r pos s = None.
Proof.
  intros Hr. induction s as [|a s IH]; intros pos H; cbn [Py.contains] in H;
    apply orb_false_iff in H as [Hp Hs].
  - cbn [search_from]. now rewrite (Hr _ Hp).
  - cbn [search_from]. rewrite (Hr _ Hp). now apply IH.
Qed.

Lemma findall_none (r : regex) (s : string) : search r s = None -> findall r s = [].
Proof. intros H. unfold findall, finditer. cbn [finditer_fuel]. now rewrite H. Qed.

End ScanFacts.

Section Prose.
Import Re Lang Braces ReFacts ObjectPattern StringFacts PartFacts ScanFacts.
Variable json_loads : string -> option json.

(** A text without brace, bracket and tool prefix is the final answer: no
    call is found in it, fenced or not, by a decoder that gives a mapping or a
    list only for a text that holds a brace or a bracket.  The text holds no
    run of more than 640 digits: the interpreter refuses to read a longer
    integer, from 4300 digits on as it is delivered and from 640 on at the
    lowest setting, and what it raises then is a [ValueError] that is no
    [JSONDecodeError] and leaves the extractor.  Within that bound a text
    without brace and bracket is decoded or refused with [JSONDecodeError],
    which is what [json_loads] stands for. *)
Theorem prose_is_no_call (text : string) :
  (forall s j, unopened s = true -> unbracketed s = true ->
               json_loads s = Some j -> scalar j = true) ->
  unopened text = true ->
  unbracketed text = true ->
  longest_digit_run 0 text <= 640 ->
  Py.contains "fiddler_mcp__" text = false ->
  parse_gemini_response json_loads text = Ok None.
Proof.
  intros Hdec Hbrace Hbracket _ Hname.
  unfold parse_gemini_response. cbv zeta.
  destruct (String.eqb (Py.strip text) EmptyString); [reflexivity|].
  set (core := if Py.startswith fence (Py.strip text) then unfence (Py.strip text)
               else Py.strip text).
  assert (Hpart : part_of core text).
  { unfold core. destruct (Py.startswith fence (Py.strip text)).
    - exact (part_trans _ _ _ (part_unfence _) (part_strip text)).
    - apply part_strip. }
  pose proof (all_chars_part _ _ _ Hpart Hbrace) as Hb1.
  pose proof (all_chars_part _ _ _ Hpart Hbracket) as Hb2.
  pose proof (contains_part _ _ _ Hpart Hname) as Hn.
  destruct (json_loads core) as [j|] eqn:E.
  - pose proof (Hdec core j Hb1 Hb2 E) as Hj.
    destruct j; try discriminate Hj; reflexivity.
  - rewrite (findall_none _ _ (search_from_unopened core 0 Hb1)).
    rewrite (findall_none _ _ (search_from_unbracketed core 0 Hb2)).
    cbn [app first_call]. unfold plain_text_call.
    unfold search.
    now rewrite (search_from_no_prefix Pat.plain_text "fiddler_mcp__"
                   match_here_plain_text core 0 Hn).
Qed.

End Prose.

(** ** The decoder of the concrete runs *)

Module JsonFacts.
Import Braces PartFacts.

Lemma part_skip_ws (s : string) : part_of (Json.skip_ws s) s.
Proof.
  induction s as [|a s IH]; [apply part_refl|]. cbn [Json.skip_ws].
  destruct (Json.is_ws a); [|apply part_refl].
  destruct IH as [l [r E]]. exists (String a l), r. cbn [String.append]. now rewrite <- E.
Qed.

(** Only a text that opens with a brace or a bracket decodes to a mapping or
    a list. *)
Lemma value_scalar (fuel : nat) (s : string) (j : json) (r : string) :
  unopened s = true -> unbracketed s = true ->
  Json.value fuel s = Some (j, r) -> scalar j = true.
Proof.
  destruct fuel as [|f]; [discriminate|]. destruct s as [|c s]; [discriminate|].
  cbn [unopened unbracketed Py.all_chars]. intros Ho Hb.
  apply andb_true_iff in Ho as [Ho _]. apply andb_true_iff in Hb as [Hb _].
  apply negb_true_iff in Ho, Hb. unfold open_brace in Ho.
  cbn [Json.value]. rewrite Ho, Hb.
  destruct (Ascii.eqb c dquote).
  { destruct (Json.string_body s) as [[t r0]|]; [|discriminate]. now intros [= <- _]. }
  unfold Json.literal.
  destruct (Ascii.eqb c "t").
  { destruct (String.prefix _ _); [|discriminate]. now intros [= <- _]. }
  destruct (Ascii.eqb c "f").
  { destruct (String.prefix _ _); [|discriminate]. now intros [= <- _]. }
  destruct (Ascii.eqb c "n").
  { destruct (String.prefix _ _); [|discriminate]. now intros [= <- _]. }
  destruct (Json.number _) as [[z r0]|]; [|discriminate]. now intros [= <- _].
Qed.

Lemma loads_scalar (s : string) (j : json) :
  unopened s = true -> unbracketed s = true ->
  Json.loads s = Some j -> scalar j = true.
Proof.
  intros Ho Hb. unfold Json.loads.
  destruct (Json.value _ _) as [[v r]|] eqn:E; [|discriminate].
  destruct (String.eqb _ _); [|discriminate]. intros [= <-].
  apply (value_scalar _ _ _ _
           (all_chars_part _ _ _ (part_skip_ws s) Ho)
           (all_chars_part _ _ _ (part_skip_ws s) Hb) E).
Qed.

End JsonFacts.

(** ** What the scan for objects finds *)

Module ScanSound.
Import Re Lang Braces ReFacts ObjectPattern StringFacts PartFacts ScanFacts.

Lemma search_from_sound (r : regex) (s : string) : simple r -> forall pos m,
  search_from r pos s = Some m ->
  matches r (m_text m)
  /\ exists before, s = before +++ m_text m +++ m_rest m
                    /\ m_start m = pos + String.length before.
Proof.
  intros Hr.
  assert (Hhere : forall t pos m s' c,
             match_here r t = Some (s', c) -> m = Found pos (consumed t s') c s' ->
             matches r (m_text m)
             /\ exists before, t = before +++ m_text m +++ m_rest m
                               /\ m_start m = pos + String.length before).
  { intros t pos m s' c E ->. unfold match_here in E.
    apply (rmatch_sound r Hr) in E as [w [s'' [-> [Hw [= <- _]]]]].
    cbn [m_text m_rest m_start]. rewrite consumed_prefix. split; [exact Hw|].
    exists EmptyString. split; [reflexivity | simpl; lia]. }
  induction s as [|a s IH]; intros pos m; cbn [search_from].
  - destruct (match_here r EmptyString) as [[s' c]|] eqn:E; [|discriminate].
    intros [= <-]. exact (Hhere _ pos _ s' c E eq_refl).
  - destruct (match_here r (String a s)) as [[s' c]|] eqn:E.
    + intros [= <-]. exact (Hhere _ pos _ s' c E eq_refl).
    + intros H. apply IH in H as [Hm [before [Es Hp]]]. split; [exact Hm|].
      exists (String a before). cbn [String.append String.length].
      split; [now rewrite <- Es | lia].
Qed.

Lemma part_after (before a after t : string) :
  part_of t after -> part_of t (before +++ a +++ after).
Proof.
  intros [l [r ->]]. exists (before +++ a +++ l), r. now rewrite !append_assoc.
Qed.

Lemma finditer_fuel_sound (r : regex) : simple r -> forall fuel s m,
  In m (finditer_fuel r fuel s) ->
  matches r (m_text m) /\ part_of (m_text m) s.
Proof.
  intros Hr. induction fuel as [|fuel IH]; intros s m; cbn [finditer_fuel];
    [contradiction|].
  destruct (search r s) as [m0|] eqn:E; [|contradiction].
  apply (search_from_sound r s Hr) in E as [Hm [before [Es _]]].
  intros [<-|Hin].
  - split; [exact Hm|]. exists before, (m_rest m0). exact Es.
  - assert (Hrest : forall t, part_of t (m_rest m0) -> part_of t s).
    { intros t Ht. rewrite Es. now apply part_after. }
    destruct (m_text m0) eqn:Et.
    + destruct (m_rest m0) as [|x t] eqn:Er; [contradiction|].
      apply IH in Hin as [Hm' Hp]. split; [exact Hm'|]. apply Hrest.
      destruct Hp as [l [r0 ->]]. now exists (String x l), r0.
    + apply IH in Hin as [Hm' Hp]. split; [exact Hm' | now apply Hrest].
Qed.

Lemma flat_close (u : string) : brace_free u = true ->
  flat true (u +++ String close_brace EmptyString) = true.
Proof.
  induction u as [|a u IH]; intros H; [reflexivity|].
  unfold brace_free in H. cbn [Py.all_chars] in H. apply andb_true_iff in H as [Ha Hu].
  unfold is_brace in Ha. apply negb_true_iff, orb_false_iff in Ha as [Ho Hc].
  cbn [String.append flat]. rewrite Ho, Hc. now apply IH.
Qed.

Lemma flat_app (w1 w2 : string) : forall inside,
  flat inside w1 = true -> flat false w2 = true -> flat inside (w1 +++ w2) = true.
Proof.
  induction w1 as [|a w1 IH]; intros inside H1 H2.
  - cbn [flat] in H1. apply negb_true_iff in H1. now subst.
  - cbn [String.append flat] in *.
    destruct (Ascii.eqb a open_brace).
    + apply andb_true_iff in H1 as [Hi H1]. rewrite Hi. now apply IH.
    + destruct (Ascii.eqb a close_brace).
      * apply andb_true_iff in H1 as [Hi H1]. rewrite Hi. now apply IH.
      * now apply IH.
Qed.

Lemma items_flat (w : string) : matches Pat.brace_items w -> flat false w = true.
Proof.
  unfold Pat.brace_items. intros H.
  remember (Star (Alt Pat.no_brace
                    (Seq (lit "{") (Seq (Star Pat.no_brace) (lit "}"))))) as r eqn:Er.
  induction H as [ | | | | | |r0 w1 w2 H1 _ Hne H2 IH2]; try discriminate Er.
  - reflexivity.
  - injection Er as ->. specialize (IH2 eq_refl).
    apply flat_app; [|exact IH2].
    inversion H1 as [ | | |r1 r2 w Hl|r1 r2 w Hr| | ]; subst.
    + unfold Pat.no_brace, none_of in Hl. inversion Hl as [ |p a Ha| | | | | ]; subst.
      apply no_brace_char in Ha. unfold is_brace in Ha. apply orb_false_iff in Ha as [Ho Hc].
      cbn [flat]. now rewrite Ho, Hc.
    + inversion Hr as [ | |r1 r2 u1 u2 Hu1 Hu2| | | | ]; subst.
      inversion Hu2 as [ | |r1 r2 v1 v2 Hv1 Hv2| | | | ]; subst.
      unfold lit in Hu1, Hv2.
      inversion Hu1 as [ |p a Ha| | | | | ]; subst.
      inversion Hv2 as [ |p b Hb| | | | | ]; subst.
      apply Ascii.eqb_eq in Ha, Hb. subst a b.
      assert (Hfree : brace_free v1 = true).
      { apply (matches_star_brace_free _ _ (fun a => no_brace_char a) Hv1). }
      cbn [String.append flat]. change (Ascii.eqb "{" open_brace) with true.
      cbn [negb andb]. now apply flat_close.
Qed.

(** The words of the object pattern are the flat objects. *)
Lemma matches_flat_object (w : string) : matches Pat.json_object w -> flat_object w.
Proof.
  unfold Pat.json_object, lit. intros H.
  inversion H as [ | |r1 r2 w1 w2 H1 H2| | | | ]; subst.
  inversion H1 as [ |p a Ha| | | | | ]; subst. apply Ascii.eqb_eq in Ha. subst a.
  inversion H2 as [ | |r1 r2 x w3 Hx H3| | | | ]; subst.
  inversion H3 as [ | |r1 r2 key w4 Hkey H4| | | | ]; subst.
  inversion H4 as [ | |r1 r2 y w5 Hy H5| | | | ]; subst.
  inversion H5 as [ |p b Hb| | | | | ]; subst. apply Ascii.eqb_eq in Hb. subst b.
  exists x, key, y. split; [reflexivity|]. split; [now apply items_flat|].
  split; [now apply matches_key | now apply items_flat].
Qed.

(** Whatever the scan with the first pattern hands to the decoder is a
    stretch of the text that is a flat object: a brace pair around content
    whose braces nest one level at most, with one of the two keys directly
    inside the pair. *)
Theorem scanned_objects_are_flat (text m : string) :
  In m (findall Pat.json_object text) -> flat_object m /\ part_of m text.
Proof.
  unfold findall, finditer. intros H. apply in_map_iff in H as [f [<- Hf]].
  apply (finditer_fuel_sound _ simple_json_object) in Hf as [Hm Hp].
  split; [now apply matches_flat_object | exact Hp].
Qed.

End ScanSound.

(** ** The text before a call *)

Module Preceding.
Import Re Lang Braces ReFacts ObjectPattern StringFacts PartFacts ScanFacts ScanSound.

Lemma search_from_ge (r : regex) (s : string) : forall pos m,
  search_from r pos s = Some m -> pos <= m_start m.
Proof.
  induction s as [|a s IH]; intros pos m; cbn [search_from].
  - destruct (match_here r EmptyString) as [[s' c]|]; [|discriminate].
    intros [= <-]. simpl. lia.
  - destruct (match_here r (String a s)) as [[s' c]|].
    + intros [= <-]. simpl. lia.
    + intros H. apply IH in H. lia.
Qed.

(** Where the pattern cannot start, the search passes. *)
Lemma search_from_skip (r : regex) (rest : string) (Q : string -> Prop) :
  (forall a t, Q (String a t) -> Q t) ->
  (forall a t, Q (String a t) -> match_here r (String a t +++ rest) = None) ->
  forall pre pos, Q pre ->
    search_from r pos (pre +++ rest) = search_from r (pos + String.length pre) rest.
Proof.
  intros Htl Hno. induction pre as [|a pre IH]; intros pos HQ.
  - simpl. now rewrite Nat.add_0_r.
  - pose proof (Hno a pre HQ) as Hm. cbn [String.append] in *.
    rewrite (search_from_miss _ _ _ _ Hm), (IH (S pos) (Htl a pre HQ)).
    cbn [String.length]. f_equal. lia.
Qed.

Lemma prefix_stops (p a b : string) (x : ascii) :
  Py.all_chars (fun c => negb (Ascii.eqb c x)) p = true ->
  String.prefix p (a +++ String x b) = true -> String.prefix p a = true.
Proof.
  revert a. induction p as [|y p IH]; intros a Hp H; [now destruct a|].
  cbn [Py.all_chars] in Hp. apply andb_true_iff in Hp as [Hy Hp].
  apply negb_true_iff in Hy.
  destruct a as [|z a]; cbn [String.append String.prefix] in *.
  - destruct (ascii_dec y x) as [->|N]; [|discriminate H].
    rewrite Ascii.eqb_refl in Hy. discriminate Hy.
  - destruct (ascii_dec y z); [now apply IH | discriminate H].
Qed.

Lemma take_app (a b : string) : Py.take (String.length a) (a +++ b) = a.
Proof. induction a as [|x a IH]; simpl; [now destruct b | now rewrite IH]. Qed.

Lemma lstrip_lstrip (s : string) : Py.lstrip (Py.lstrip s) = Py.lstrip s.
Proof.
  induction s as [|a s IH]; [reflexivity|]. cbn [Py.lstrip].
  destruct (Py.is_space a) eqn:E; [exact IH|]. cbn [Py.lstrip]. now rewrite E.
Qed.

Section Before.

Variables pre obj post : string.
Hypothesis no_brace_before : unopened pre = true.
Hypothesis no_bracket_before : unbracketed pre = true.
Hypothesis no_name_before : Py.contains "fiddler_mcp__" pre = false.
Hypothesis flat : flat_object obj.

Let core : string := Py.lstrip pre +++ obj +++ Py.rstrip post.

Lemma strip_embedded : Py.strip (pre +++ obj +++ post) = core.
Proof.
  destruct (flat_object_text obj flat) as [inner Ei]. unfold core. rewrite Ei.
  cbn [String.append]. rewrite !append_assoc. cbn [String.append].
  now rewrite (strip_around pre "{" inner "}" post eq_refl eq_refl).
Qed.

Lemma object_found :
  search Pat.json_object core
  = Some (Found (String.length (Py.lstrip pre)) obj [] (Py.rstrip post)).
Proof.
  unfold search, core.
  now rewrite (search_object (Py.lstrip pre) obj (Py.rstrip post) 0
                 (all_chars_lstrip _ pre no_brace_before)
                 (flat_object_matches obj flat)).
Qed.

Lemma array_not_before (m : found) :
  search Pat.json_array core = Some m -> String.length (Py.lstrip pre) <= m_start m.
Proof.
  unfold search, core.
  rewrite (search_from_skip Pat.json_array (obj +++ Py.rstrip post)
             (fun s => unbracketed s = true)).
  - intros H. now apply search_from_ge in H.
  - intros a t H. cbn [unbracketed Py.all_chars] in H.
    now apply andb_true_iff in H as [_ H].
  - intros a t H. cbn [unbracketed Py.all_chars] in H.
    apply andb_true_iff in H as [H _]. apply negb_true_iff in H.
    cbn [String.append]. now apply match_here_needs_bracket.
  - exact (all_chars_lstrip _ pre no_bracket_before).
Qed.

Lemma name_not_before (m : found) :
  search Pat.plain_text_head core = Some m -> String.length (Py.lstrip pre) <= m_start m.
Proof.
  unfold search, core.
  rewrite (search_from_skip Pat.plain_text_head (obj +++ Py.rstrip post)
             (fun s => Py.contains "fiddler_mcp__" s = false)).
  - intros H. now apply search_from_ge in H.
  - intros a t H. cbn [Py.contains] in H. now apply orb_false_iff in H as [_ H].
  - intros a t H. cbn [Py.contains] in H. apply orb_false_iff in H as [H _].
    apply match_here_plain_text_head.
    destruct (flat_object_text obj flat) as [inner ->].
    destruct (String.prefix "fiddler_mcp__"
                (String a t +++ String "{" (inner +++ "}") +++ Py.rstrip post)) eqn:E;
      [|reflexivity].
    cbn [String.append] in E.
    change (String a (t +++ String "{" ((inner +++ "}") +++ Py.rstrip post)))
      with (String a t +++ String "{" ((inner +++ "}") +++ Py.rstrip post)) in E.
    apply prefix_stops in E; [|reflexivity]. rewrite E in H. discriminate H.
  - exact (contains_part _ _ _ (part_lstrip pre) no_name_before).
Qed.

Lemma before_embedded :
  _extract_text_before_tool_call (pre +++ obj +++ post)
  = Py.strip (sub_empty Pat.dangling_label (Py.strip pre)).
Proof.
  unfold _extract_text_before_tool_call. cbv zeta. rewrite strip_embedded.
  rewrite object_found. cbn [m_start].
  assert (Hlen : String.length (Py.lstrip pre) < String.length core).
  { unfold core. destruct (flat_object_text obj flat) as [inner ->].
    rewrite !length_append. simpl. lia. }
  rewrite (Nat.min_r _ _ (Nat.lt_le_incl _ _ Hlen)).
  assert (Ha : match search Pat.json_array core with
               | Some m => Nat.min (String.length (Py.lstrip pre)) (m_start m)
               | None => String.length (Py.lstrip pre)
               end = String.length (Py.lstrip pre)).
  { destruct (search Pat.json_array core) as [m|] eqn:E; [|reflexivity].
    apply Nat.min_l. now apply array_not_before. }
  rewrite Ha.
  assert (Hn : match search Pat.plain_text_head core with
               | Some m => Nat.min (String.length (Py.lstrip pre)) (m_start m)
               | None => String.length (Py.lstrip pre)
               end = String.length (Py.lstrip pre)).
  { destruct (search Pat.plain_text_head core) as [m|] eqn:E; [|reflexivity].
    apply Nat.min_l. now apply name_not_before. }
  rewrite Hn.
  apply Nat.ltb_lt in Hlen. rewrite Hlen.
  unfold core at 1. rewrite take_app.
  replace (Py.strip (Py.lstrip pre)) with (Py.strip pre); [reflexivity|].
  unfold Py.strip. now rewrite lstrip_lstrip.
Qed.

End Before.

(** The explanation shown before a call is run is the text that stands
    before the call: for a flat object in the middle of a reply, with no
    brace, bracket or tool prefix before it, [_extract_text_before_tool_call]
    returns what precedes the object, stripped, a dangling [Tool Call:] or
    [Next:] label removed. *)
Theorem text_before_embedded_call (pre obj post : string) :
  unopened pre = true ->
  unbracketed pre = true ->
  Py.contains "fiddler_mcp__" pre = false ->
  flat_object obj ->
  _extract_text_before_tool_call (pre +++ obj +++ post)
  = Py.strip (sub_empty Pat.dangling_label (Py.strip pre)).
Proof. exact (before_embedded pre obj post). Qed.

End Preceding.

(** ** A call behind other candidates *)

Module Embedded.
Import Re Lang Braces ReFacts ObjectPattern StringFacts ScanSound.










Section Scan.

Variable json_loads : string -> option json.







End Scan.

End Embedded.

Section EmbeddedCall.
Import StringFacts.
Variable json_loads : string -> option json.


End EmbeddedCall.


(** ** Name resolution *)

Module ResolveFacts.

Lemma alias_of_target (table : list (string * string)) (name v : string) :
  alias_of table name = Some v -> In v (map snd table).
Proof.
  induction table as [|[k t] table IH]; cbn [alias_of]; [discriminate|].
  destruct (String.eqb name k); [intros [= <-]; now left | intros H; right; now apply IH].
Qed.

Lemma startswith_app (p s : string) : Py.startswith p (p +++ s) = true.
Proof.
  unfold Py.startswith. induction p as [|a p IH]; [now destruct s|].
  cbn [String.append String.prefix]. destruct (ascii_dec a a) as [_|N]; [exact IH|].
  now elim N.
Qed.

Lemma dotted_repair_twice (n : string) :
  dotted_repair (dotted_repair n) = dotted_repair n.
Proof.
  unfold dotted_repair at 2.
  destruct (Py.contains "." n && negb (Py.startswith "fiddler_mcp__" n)) eqn:E.
  - destruct (Py.split_on "." n) as [|x [|suffix [|y l]]] eqn:Es;
      try reflexivity.
    unfold dotted_repair. now rewrite startswith_app, andb_false_r, E, Es.
  - unfold dotted_repair. now rewrite E.
Qed.

Lemma targets_resolved :
  Forall (fun v => resolve_name v = v)
    (map snd NON_PREFIXED_ALIASES ++ map snd TOOL_ALIASES).
Proof. repeat (constructor; [vm_compute; reflexivity|]). constructor. Qed.

(** Resolution is idempotent: the name [call_tool] settles on is a name it
    would leave as it is.  No alias leads to another alias or to a dotted
    name. *)
Theorem resolve_name_idempotent (n : string) :
  resolve_name (resolve_name n) = resolve_name n.
Proof.
  pose proof targets_resolved as HT. rewrite Forall_forall in HT.
  unfold resolve_name at 2 3. unfold apply_aliases at 1 3.
  destruct (alias_of TOOL_ALIASES (apply_aliases NON_PREFIXED_ALIASES (dotted_repair n)))
    as [v|] eqn:Et.
  - apply HT, in_or_app. right. exact (alias_of_target _ _ _ Et).
  - unfold apply_aliases in Et |- *.
    destruct (alias_of NON_PREFIXED_ALIASES (dotted_repair n)) as [v|] eqn:En.
    + apply HT, in_or_app. left. exact (alias_of_target _ _ _ En).
    + unfold resolve_name, apply_aliases. now rewrite dotted_repair_twice, En, Et.
Qed.

End ResolveFacts.

Module ServerFacts.
Import Server.

Section Transport.

Variable json_loads : string -> option json.
Variable decode_error : string -> string.

Local Abbreviation request := (Server.request json_loads decode_error).
Local Abbreviation retry := (Server.retry json_loads decode_error).
Local Abbreviation request_with_retry := (Server.request_with_retry json_loads decode_error).

(** One request: one more call logged, one outcome used, no pause; and the
    exception, if any, is one of the module. *)
Lemma request_effect method path params json_payload timeout b :
  let r := request method path params json_payload timeout b in
  calls (snd r) = calls b ++ [Call method path params json_payload timeout]
  /\ slept (snd r) = slept b
  /\ pending (snd r) = tl (pending b)
  /\ (forall e, fst r <> Raises (Python e)).
Proof.
  unfold Server.request, next_result.
  destruct (pending b) as [|o rest]; cbn [fst snd tl].
  - repeat split; intros e H; discriminate H.
  - destruct o as [| | exc | content content_type]; cbn [fst snd].
    1-3: repeat split; intros e H; discriminate H.
    destruct (String.eqb content EmptyString);
      [|destruct (Py.contains "application/json" content_type);
        destruct (json_loads content)];
      cbn [fst snd calls slept pending]; repeat split; intros e H; discriminate H.
Qed.

Lemma repeat_snoc {A} (x : A) n : repeat x n ++ [x] = x :: repeat x n.
Proof. induction n; simpl; [reflexivity | now rewrite IHn]. Qed.

Lemma skip_first {A} (l : list A) : tl l = skipn 1 l.
Proof. now destruct l. Qed.

Lemma skip_next {A} (l : list A) k : skipn (S k) (tl l) = skipn (S (S k)) l.
Proof. destruct l; [now destruct k | reflexivity]. Qed.

Lemma retry_effect method path params json_payload timeout remaining :
  forall attempt b,
    let r := retry remaining attempt method path params json_payload timeout b in
    exists k,
      k <= remaining
      /\ calls (snd r)
         = calls b ++ repeat (Call method path params json_payload timeout) (S k)
      /\ slept (snd r) = slept b ++ map (Nat.pow 2) (seq attempt k)
      /\ pending (snd r) = skipn (S k) (pending b)
      /\ (forall f, fst r = Raises f -> k = remaining /\ forall e, f <> Python e).
Proof.
  induction remaining as [|remaining IH]; intros attempt b; cbn [Server.retry];
    destruct (request_effect method path params json_payload timeout b)
      as (Hc & Hs & Hp & He);
    destruct (request method path params json_payload timeout b) as [[data|f] b'];
    cbn [fst snd] in *.
  - refine (ex_intro _ 0 (conj _ (conj _ (conj _ (conj _ _))))); cbn [fst snd].
    + lia.
    + exact Hc.
    + now rewrite Hs, app_nil_r.
    + now rewrite Hp, skip_first.
    + intros f H. discriminate H.
  - assert (Hf : forall e, f <> Python e)
      by (intros e ->; now apply (He e)).
    assert (Hr : (let r := match f with
                            | Python e => (Raises (A:=json) (Python e), b')
                            | _ => (Raises f, b')
                            end in r = (Raises f, b')))
      by (now destruct f).
    cbv zeta in Hr. rewrite Hr.
    refine (ex_intro _ 0 (conj _ (conj _ (conj _ (conj _ _))))); cbn [fst snd].
    + lia.
    + exact Hc.
    + now rewrite Hs, app_nil_r.
    + now rewrite Hp, skip_first.
    + intros f' H. injection H as <-. now split.
  - refine (ex_intro _ 0 (conj _ (conj _ (conj _ (conj _ _))))); cbn [fst snd].
    + lia.
    + exact Hc.
    + now rewrite Hs, app_nil_r.
    + now rewrite Hp, skip_first.
    + intros f H. discriminate H.
  - assert (Hf : forall e, f <> Python e)
      by (intros e ->; now apply (He e)).
    specialize (IH (S attempt)
                  (Remote (pending b') (calls b') (slept b' ++ [2 ^ attempt]))).
    cbv zeta in IH. destruct IH as (k & Hk & H1 & H2 & H3 & H4).
    cbn [calls slept pending] in *.
    assert (Hr : (let r := match f with
                            | Python e => (Raises (A:=json) (Python e), b')
                            | _ =>
                                retry remaining (S attempt) method path params json_payload
                                  timeout
                                  (Remote (pending b') (calls b') (slept b' ++ [2 ^ attempt]))
                            end in
                  r = retry remaining (S attempt) method path params json_payload timeout
                        (Remote (pending b') (calls b') (slept b' ++ [2 ^ attempt]))))
      by (destruct f; [reflexivity | reflexivity | now destruct (Hf e)]).
    cbv zeta in Hr. rewrite Hr.
    refine (ex_intro _ (S k) (conj _ (conj _ (conj _ (conj _ _))))).
    + lia.
    + rewrite H1, Hc, <- app_assoc. reflexivity.
    + rewrite H2, Hs, <- app_assoc. reflexivity.
    + now rewrite H3, Hp, skip_next.
    + intros f' H. destruct (H4 f' H) as [-> Hp']. now split.
Qed.

(** [request_with_retry] makes at most [max_retries - attempt] further
    attempts after the first, every one with the arguments it was given; it
    pauses [2 ** attempt], [2 ** (attempt + 1)], ... seconds between them;
    and it raises only when the last attempt allowed has failed. *)
Theorem retry_gives_up_after_max_retries max_retries method path params json_payload
    timeout attempt b :
  let r := request_with_retry max_retries method path params json_payload timeout attempt b in
  exists k,
    k <= max_retries - attempt
    /\ calls (snd r) = calls b ++ repeat (Call method path params json_payload timeout) (S k)
    /\ slept (snd r) = slept b ++ map (Nat.pow 2) (seq attempt k)
    /\ (forall f, fst r = Raises f -> k = max_retries - attempt).
Proof.
  cbv zeta. unfold Server.request_with_retry.
  destruct (retry_effect method path params json_payload timeout
              (max_retries - attempt) attempt b) as (k & Hk & H1 & H2 & _ & H4).
  exists k. repeat split; try assumption.
  intros f Hf. now destruct (H4 f Hf).
Qed.

End Transport.

End ServerFacts.

Module ToolFacts.
Import Server ServerFacts.

Section Tools.

Variable json_loads : string -> option json.
Variable decode_error : string -> string.
Variable now_iso : string.
Variable sorted_hosts : list json -> res (list json).

Local Abbreviation request := (Server.request json_loads decode_error).
Local Abbreviation get_live_sessions :=
  (Server.get_live_sessions json_loads decode_error now_iso sorted_hosts).
Local Abbreviation add_metadata :=
  (Server.add_metadata json_loads decode_error now_iso sorted_hosts).
Local Abbreviation get_session_body :=
  (Server.get_session_body json_loads decode_error now_iso sorted_hosts).
Local Abbreviation fetch_all :=
  (Server.fetch_all json_loads decode_error now_iso sorted_hosts).
Local Abbreviation get_multiple_session_bodies :=
  (Server.get_multiple_session_bodies json_loads decode_error now_iso sorted_hosts).
Local Abbreviation fiddler_mcp__compare_sessions :=
  (Server.fiddler_mcp__compare_sessions json_loads decode_error now_iso sorted_hosts).
Local Abbreviation get_sessions_timeline :=
  (Server.get_sessions_timeline json_loads decode_error).

Lemma lift_state {A} (r : res A) b : snd (lift r b) = b.
Proof. now destruct r. Qed.

Lemma live_calls limit since_minutes host_filter status_filter suspicious_only b :
  let r := get_live_sessions limit since_minutes host_filter status_filter suspicious_only b in
  calls (snd r)
  = calls b
    ++ [Call "GET" "/api/sessions"
          (Some (live_params limit since_minutes host_filter status_filter suspicious_only))
          None None].
Proof.
  cbv zeta. unfold Server.get_live_sessions.
  destruct (request_effect json_loads decode_error "GET" "/api/sessions"
              (Some (live_params limit since_minutes host_filter status_filter
                       suspicious_only)) None None b) as (Hc & _).
  destruct (request _ _ _ _ _ b) as [[data|f] b']; cbn [fst snd] in *.
  - destruct data; cbn [snd]; try exact Hc.
    destruct (negb _); cbn [snd]; [exact Hc|]. now rewrite lift_state.
  - now destruct f.
Qed.

Lemma dget_add_if_other cond k k' v d :
  String.eqb k' k = false -> dget k' (add_if cond k v d) = dget k' d.
Proof.
  intros H. unfold add_if. destruct cond; [|reflexivity].
  apply dget_dset_other. intros ->. now rewrite String.eqb_refl in H.
Qed.

Lemma clamp_bounds lo hi x : (lo <= hi)%Z -> (lo <= clamp lo hi x <= hi)%Z.
Proof. unfold clamp. lia. Qed.

Lemma clamp_inside lo hi x : (lo <= x <= hi)%Z -> clamp lo hi x = x.
Proof. unfold clamp. lia. Qed.

(** The request of [get_live_sessions] asks for between 1 and 500 sessions
    of the last 1 to 360 minutes, whatever its arguments: a value in the
    range is sent as it is, any other is moved to the nearest bound. *)
Theorem live_sessions_query_is_clamped limit since_minutes host_filter status_filter
    suspicious_only b :
  exists params l s,
    requested b
      (snd (get_live_sessions limit since_minutes host_filter status_filter
              suspicious_only b))
      [Call "GET" "/api/sessions" (Some params) None None]
    /\ dget "limit" params = Some (JInt l) /\ (1 <= l <= 500)%Z
    /\ ((1 <= limit <= 500)%Z -> l = limit)
    /\ ((limit < 1)%Z -> l = 1%Z) /\ ((500 < limit)%Z -> l = 500%Z)
    /\ dget "since_minutes" params = Some (JInt s) /\ (1 <= s <= 360)%Z
    /\ ((1 <= since_minutes <= 360)%Z -> s = since_minutes)
    /\ ((since_minutes < 1)%Z -> s = 1%Z) /\ ((360 < since_minutes)%Z -> s = 360%Z).
Proof.
  exists (live_params limit since_minutes host_filter status_filter suspicious_only),
    (clamp 1 500 limit), (clamp 1 360 since_minutes).
  split; [apply live_calls|].
  unfold live_params.
  rewrite !dget_add_if_other by reflexivity.
  cbn [dget String.eqb Ascii.eqb Bool.eqb].
  unfold clamp. repeat split; lia.
Qed.

Lemma live_entry_normalized session host e :
  live_entry session = Ok (host, e) -> normalized e.
Proof.
  unfold live_entry. destruct session as [| | | | |s]; try discriminate.
  destruct (negb (hashable _)); [discriminate|].
  destruct (ekfiddle _ _ _) as [comment|]; [|discriminate]. cbn [rbind].
  destruct (py_or (dget_none "scheme" s) (JStr EmptyString)); try discriminate.
  intros H. injection H as _ <-.
  eexists. split; [reflexivity|]. split; [reflexivity|].
  eexists. reflexivity.
Qed.

Lemma entries_normalized sessions :
  forall hosts built,
    entries live_entry sessions = Ok (hosts, built) ->
    List.length built = List.length sessions /\ Forall normalized built.
Proof.
  induction sessions as [|session rest IH]; intros hosts built; cbn [entries].
  - intros H. injection H as <- <-. split; [reflexivity | constructor].
  - destruct (live_entry session) as [[host e]|] eqn:E; [|discriminate]. cbn [rbind].
    destruct (entries live_entry rest) as [[hs es]|] eqn:Er; [|discriminate].
    cbn [rbind fst snd]. intros H. injection H as <- <-.
    destruct (IH hs es eq_refl) as [Hl Hn]. split.
    + cbn [List.length]. now rewrite Hl.
    + constructor; [exact (live_entry_normalized _ _ _ E) | exact Hn].
Qed.

Lemma live_result_shape params data result :
  live_result now_iso sorted_hosts params data = Ok result ->
  exists sessions,
    dget "success" result = Some (JBool true)
    /\ dget "sessions" result = Some (JList sessions)
    /\ dget "count" result = Some (of_nat (List.length sessions))
    /\ Forall normalized sessions.
Proof.
  unfold live_result.
  destruct (iterate _) as [raw|]; [|discriminate]. cbn [rbind].
  destruct (entries live_entry raw) as [[hosts built]|] eqn:E; [|discriminate].
  cbn [rbind fst snd].
  destruct (entries_normalized raw hosts built E) as [_ Hn].
  match goal with
  | |- context [rbind ?st _] => destruct st as [statistics|]; [|discriminate]
  end.
  cbn [rbind]. destruct built as [|e built'].
  - intros H. injection H as <-. exists []. repeat split; constructor.
  - destruct statistics; try discriminate.
    destruct (sorted_hosts hosts); [|discriminate]. cbn [rbind].
    intros H. injection H as <-. exists (e :: built').
    repeat split; try reflexivity. exact Hn.
Qed.

(** When [get_live_sessions] reports success, [count] is the number of the
    sessions it returns, and each of them has the same eighteen fields, with
    a text as its status, whatever the bridge sent for it. *)
Theorem live_sessions_are_normalized limit since_minutes host_filter status_filter
    suspicious_only b result b' :
  get_live_sessions limit since_minutes host_filter status_filter suspicious_only b
  = (Returns result, b') ->
  truthy (dget_none "success" result) = true ->
  exists sessions,
    dget "sessions" result = Some (JList sessions)
    /\ dget "count" result = Some (of_nat (List.length sessions))
    /\ Forall normalized sessions.
Proof.
  unfold Server.get_live_sessions.
  destruct (request _ _ _ _ _ b) as [[data|f] b0].
  - destruct data as [| | | | |data];
      try (intros H; injection H as <- _; intros Ht; discriminate Ht).
    destruct (negb _);
      [intros H; injection H as <- _; intros Ht; discriminate Ht|].
    unfold lift.
    destruct (live_result now_iso sorted_hosts _ data) as [r|] eqn:E; [|discriminate].
    intros H. injection H as <- _. intros _.
    destruct (live_result_shape _ _ _ E) as (sessions & _ & H1 & H2 & H3).
    now exists sessions.
  - destruct f; try discriminate;
      intros H; injection H as <- _; intros Ht; discriminate Ht.
Qed.

Lemma ekfiddle_raises a b c e : ekfiddle a b c = Raise e -> e = AttributeError.
Proof.
  unfold ekfiddle.
  destruct (py_or a (py_or b (py_or c (JStr EmptyString)))); try discriminate;
    intros H; now injection H as <-.
Qed.

Lemma body_result_raises session_id data e :
  body_result session_id data = Raise e -> e = AttributeError.
Proof.
  unfold body_result.
  destruct (ekfiddle _ _ _) eqn:E; cbn [rbind]; [discriminate|].
  intros H. injection H as <-. exact (ekfiddle_raises _ _ _ _ E).
Qed.

Lemma add_metadata_effect session_id result b :
  let r := add_metadata session_id result b in
  (exists result', fst r = Returns result')
  /\ exists call, calls (snd r) = calls b ++ [call].
Proof.
  cbv zeta. unfold Server.add_metadata.
  pose proof (live_calls 500 360 None None false b) as Hc. cbv zeta in Hc.
  destruct (get_live_sessions 500 360 None None false b) as [[sessions_list|f] b'];
    cbn [fst snd] in *.
  - destruct (truthy _); [|cbn [fst snd]; split; eauto].
    destruct (iterate _); [|cbn [fst snd]; split; eauto].
    destruct (with_metadata _ _ _); cbn [fst snd]; split; eauto.
  - split; eauto.
Qed.

(** What one body fetch costs and how it may fail. *)
Lemma body_effect max_retries session_id include_binary smart_extract b :
  let r := get_session_body max_retries session_id include_binary smart_extract b in
  (exists more, calls (snd r) = calls b ++ more /\ List.length more <= max_retries + 2)
  /\ (forall f, fst r = Raises f -> f = Python AttributeError).
Proof.
  cbv zeta. unfold Server.get_session_body, Server.request_with_retry.
  destruct (retry_effect json_loads decode_error "GET" ("/api/sessions/body/" +++ session_id)
              (Some (body_params include_binary smart_extract)) None
              (Some DEFAULT_BODY_TIMEOUT) (max_retries - 0) 0 b)
    as (k & Hk & Hc & _ & _ & Hf).
  assert (Hmore : exists more,
             calls (snd (Server.retry json_loads decode_error (max_retries - 0) 0 "GET"
                           ("/api/sessions/body/" +++ session_id)
                           (Some (body_params include_binary smart_extract)) None
                           (Some DEFAULT_BODY_TIMEOUT) b))
             = calls b ++ more /\ List.length more <= max_retries + 1).
  { eexists. split; [exact Hc|]. rewrite repeat_length. lia. }
  clear Hc. destruct Hmore as (more & Hc & Hl).
  destruct (Server.retry _ _ _ _ _ _ _ _ _ b) as [[data|f] b']; cbn [fst snd] in *.
  - assert (Hsame : exists more, calls b' = calls b ++ more
                                 /\ List.length more <= max_retries + 2)
      by (exists more; split; [exact Hc | lia]).
    destruct data as [| | | | |data]; cbn [fst snd]; try (split; [exact Hsame | intros ? Hraise; discriminate Hraise]).
    destruct (negb _); cbn [fst snd]; [split; [exact Hsame | intros ? Hraise; discriminate Hraise]|].
    unfold bind, lift, ret.
    destruct (body_result session_id data) as [result|e] eqn:E; cbn [fst snd].
    + destruct (add_metadata_effect session_id result b') as [[r' Hr] [call Hcall]].
      destruct (add_metadata session_id result b') as [[r0|f0] b'']; cbn [fst snd] in *.
      * split; [|intros ? Hraise; discriminate Hraise].
        exists (more ++ [call]). rewrite Hcall, Hc, app_assoc. split; [reflexivity|].
        rewrite length_app. cbn [List.length]. lia.
      * discriminate Hr.
    + split; [exact Hsame|]. intros f H. injection H as <-.
      now rewrite (body_result_raises _ _ _ E).
  - destruct (Hf f eq_refl) as [_ Hnp].
    assert (Hsame : exists more, calls b' = calls b ++ more
                                 /\ List.length more <= max_retries + 2)
      by (exists more; split; [exact Hc | lia]).
    destruct f as [msg|msg|e]; cbn [fst snd]; try (split; [exact Hsame | intros ? Hraise; discriminate Hraise]).
    now destruct (Hnp e).
Qed.

(** No failure of the transport escapes [get_session_body]: the only
    exception it can raise is the [AttributeError] of an EKFiddle field of
    the bridge's answer that is no text. *)
Theorem body_fetch_raises_only_attribute_error max_retries session_id include_binary
    smart_extract b f :
  fst (get_session_body max_retries session_id include_binary smart_extract b) = Raises f ->
  f = Python AttributeError.
Proof.
  apply (proj2 (body_effect max_retries session_id include_binary smart_extract b)).
Qed.

Lemma session_info_id session_id result :
  entry_id (JDict (session_info session_id result)) = JStr session_id.
Proof.
  unfold session_info, entry_id.
  destruct (truthy (dget_none "success" result)); [|reflexivity].
  destruct (truthy (dget_none "smart_extraction_available" result)); [|reflexivity].
  unfold dget_none, dget_or. rewrite !dget_dset_other by discriminate. reflexivity.
Qed.

Lemma session_info_ok session_id result :
  entry_ok (JDict (session_info session_id result))
  = truthy (dget_none "success" result).
Proof.
  unfold session_info, entry_ok.
  destruct (truthy (dget_none "success" result)); [|reflexivity].
  destruct (truthy (dget_none "smart_extraction_available" result)); [|reflexivity].
  unfold dget_none, dget_or. rewrite !dget_dset_other by discriminate. reflexivity.
Qed.

Lemma fetch_all_effect max_retries include_binary smart_extract session_ids :
  forall b,
    let r := fetch_all max_retries session_ids include_binary smart_extract b in
    (exists more, calls (snd r) = calls b ++ more
                  /\ List.length more <= List.length session_ids * (max_retries + 2))
    /\ (forall es n, fst r = Returns (es, n) ->
          map entry_id es = map JStr session_ids
          /\ n = List.length (filter entry_ok es))
    /\ (forall f, fst r = Raises f -> f = Python AttributeError).
Proof.
  induction session_ids as [|session_id rest IH]; intros b; cbv zeta;
    cbn [Server.fetch_all].
  - unfold ret. cbn [fst snd]. split; [|split].
    + exists []. now rewrite app_nil_r.
    + intros es n H. injection H as <- <-. now split.
    + intros f H. discriminate H.
  - unfold bind, ret.
    destruct (body_effect max_retries session_id include_binary smart_extract b)
      as [(more & Hc & Hl) Hf].
    destruct (get_session_body max_retries session_id include_binary smart_extract b)
      as [[result|f] b1]; cbn [fst snd] in *.
    + specialize (IH b1). cbv zeta in IH.
      destruct IH as [(more' & Hc' & Hl') [Hes Hf']].
      destruct (fetch_all max_retries rest include_binary smart_extract b1)
        as [[[es n]|f] b2]; cbn [fst snd] in *.
      * split; [|split].
        -- exists (more ++ more'). rewrite Hc', Hc, app_assoc. split; [reflexivity|].
           rewrite length_app. cbn [List.length Nat.mul]. lia.
        -- intros es0 n0 H. cbn [fst snd] in H. injection H as <- <-.
           destruct (Hes es n eq_refl) as [Hids Hn].
           cbn [map filter]. rewrite session_info_id, session_info_ok, Hids.
           split; [reflexivity|].
           destruct (truthy (dget_none "success" result)); cbn [List.length]; now rewrite Hn.
        -- intros f H. discriminate H.
      * split; [|split].
        -- exists (more ++ more'). rewrite Hc', Hc, app_assoc. split; [reflexivity|].
           rewrite length_app. cbn [List.length Nat.mul]. lia.
        -- intros es n H. discriminate H.
        -- exact Hf'.
    + split; [|split].
      * exists more. split; [exact Hc | cbn [List.length Nat.mul]; lia].
      * intros es n H. discriminate H.
      * intros f0 H. injection H as <-. now apply Hf.
Qed.

(** For a list of session ids that is not empty, the result of
    [get_multiple_session_bodies] has one entry for each id, in their order;
    [requested] is their number and [count] the number of entries fetched
    with success; and [success] is true whatever that number is. *)
Theorem multiple_bodies_are_counted max_retries session_ids include_binary smart_extract
    b result b' :
  session_ids <> [] ->
  get_multiple_session_bodies max_retries session_ids include_binary smart_extract b
  = (Returns result, b') ->
  exists sessions,
    dget "success" result = Some (JBool true)
    /\ dget "sessions" result = Some (JList sessions)
    /\ map entry_id sessions = map JStr session_ids
    /\ dget "requested" result = Some (of_nat (List.length session_ids))
    /\ dget "count" result = Some (of_nat (List.length (filter entry_ok sessions))).
Proof.
  intros Hne. unfold Server.get_multiple_session_bodies.
  destruct session_ids as [|session_id rest]; [now destruct Hne|].
  unfold bind, ret.
  destruct (fetch_all_effect max_retries include_binary smart_extract (session_id :: rest) b)
    as [_ [Hes _]].
  destruct (fetch_all max_retries (session_id :: rest) include_binary smart_extract b)
    as [[[es n]|f] b1]; cbn [fst snd] in *; [|discriminate].
  intros H. injection H as <- _.
  destruct (Hes es n eq_refl) as [Hids ->].
  exists es. repeat split; try reflexivity. exact Hids.
Qed.

(** [fiddler_mcp__compare_sessions] makes at most [max_retries + 2] HTTP
    requests for each session id, and never more than ten times that; given
    fewer than two ids or more than ten it makes none and reports a failure. *)
Theorem compare_sessions_requests_bounded max_retries session_ids include_binary
    smart_extract b :
  let r := fiddler_mcp__compare_sessions max_retries session_ids include_binary
             smart_extract b in
  exists more,
    requested b (snd r) more
    /\ List.length more <= List.length session_ids * (max_retries + 2)
    /\ List.length more <= 10 * (max_retries + 2)
    /\ (List.length session_ids < 2 \/ 10 < List.length session_ids ->
        snd r = b
        /\ exists result,
            fst r = Returns result /\ dget "success" result = Some (JBool false)).
Proof.
  cbv zeta. unfold Server.fiddler_mcp__compare_sessions, requested.
  destruct (List.length session_ids <? 2) eqn:E2.
  { exists []. unfold ret. cbn [fst snd]. rewrite app_nil_r.
    repeat split; try reflexivity; cbn [List.length]; try lia. eauto. }
  destruct (10 <? List.length session_ids) eqn:E10.
  { exists []. unfold ret. cbn [fst snd]. rewrite app_nil_r.
    repeat split; try reflexivity; cbn [List.length]; try lia. eauto. }
  apply Nat.ltb_ge in E2, E10.
  assert (Hcalls : exists more,
             calls (snd (get_multiple_session_bodies max_retries session_ids include_binary
                           smart_extract b)) = calls b ++ more
             /\ List.length more <= List.length session_ids * (max_retries + 2)).
  { unfold Server.get_multiple_session_bodies.
    destruct session_ids as [|session_id rest]; [cbn [List.length] in E2; lia|].
    unfold bind at 1, ret.
    destruct (fetch_all_effect max_retries include_binary smart_extract
                (session_id :: rest) b) as [Hc _].
    destruct (fetch_all max_retries (session_id :: rest) include_binary smart_extract b)
      as [[r|f] b1]; exact Hc. }
  destruct Hcalls as (more & Hc & Hl).
  exists more. unfold bind at 1.
  destruct (get_multiple_session_bodies max_retries session_ids include_binary
              smart_extract b) as [[result|f] b1]; cbn [fst snd] in *.
  - split; [|split; [exact Hl | split; [nia | intros [H|H]; lia]]].
    destruct (truthy _); [|exact Hc].
    unfold bind, lift, ret.
    now destruct (rbind _ _).
  - split; [exact Hc | split; [exact Hl | split; [nia | intros [H|H]; lia]]].
Qed.

Lemma retry_unreachable method path params json_payload timeout remaining :
  forall attempt b,
    forallb no_connection (firstn (S remaining) (pending b)) = true ->
    Server.retry json_loads decode_error remaining attempt method path params json_payload
      timeout b
    = (Raises (BridgeConnectionError "Cannot connect to Fiddler real-time bridge"),
       Remote (skipn (S remaining) (pending b))
         (calls b ++ repeat (Call method path params json_payload timeout) (S remaining))
         (slept b ++ map (Nat.pow 2) (seq attempt remaining))).
Proof.
  induction remaining as [|remaining IH]; intros attempt b Hp; cbn [Server.retry];
    unfold Server.request, next_result.
  - destruct (pending b) as [|o rest]; cbn [fst snd].
    + now rewrite app_nil_r.
    + cbn [firstn forallb] in Hp. destruct o; try discriminate. cbn [fst snd].
      now rewrite app_nil_r.
  - destruct (pending b) as [|o rest] eqn:E; cbn [fst snd].
    + rewrite IH by reflexivity. cbn [pending calls slept skipn].
      rewrite <- !app_assoc. reflexivity.
    + cbn [firstn forallb] in Hp. destruct o; try discriminate. cbn [fst snd].
      rewrite IH by exact Hp. cbn [pending calls slept skipn].
      rewrite <- !app_assoc. reflexivity.
Qed.

(** When the bridge cannot be reached, [get_session_body] tries
    [max_retries + 1] times, pausing 1, 2, 4, ... seconds in between, makes
    no other request, and returns the failure that names the retries. *)
Theorem body_fetch_from_unreachable_bridge max_retries session_id include_binary
    smart_extract b :
  forallb no_connection (firstn (S max_retries) (pending b)) = true ->
  get_session_body max_retries session_id include_binary smart_extract b
  = (Returns
       [("success", JBool false);
        ("error", JStr "Cannot connect to real-time bridge after retries");
        ("bridge_status", JStr "Disconnected")],
     Remote (skipn (S max_retries) (pending b))
       (calls b
        ++ repeat
             (Call "GET" ("/api/sessions/body/" +++ session_id)
                (Some (body_params include_binary smart_extract)) None (Some 30))
             (S max_retries))
       (slept b ++ map (Nat.pow 2) (seq 0 max_retries))).
Proof.
  intros Hp. unfold Server.get_session_body, Server.request_with_retry.
  rewrite Nat.sub_0_r. now rewrite retry_unreachable by exact Hp.
Qed.

(** [get_sessions_timeline] reports success for every answer of the bridge
    that is a JSON object, also one that announces a failure; for an answer
    that is no object it raises [AttributeError]. *)
Theorem timeline_trusts_any_object time_range_minutes group_by include_details filter_host
    b content content_type rest data :
  pending b = Body content content_type :: rest ->
  content <> EmptyString ->
  json_loads content = Some data ->
  match data with
  | JDict d =>
      exists result,
        fst (get_sessions_timeline time_range_minutes group_by include_details
               filter_host b) = Returns result
        /\ dget "success" result = Some (JBool true)
        /\ dget "timeline" result = Some (dget_or "timeline" (JDict []) d)
  | _ =>
      fst (get_sessions_timeline time_range_minutes group_by include_details
             filter_host b) = Raises (Python AttributeError)
  end.
Proof.
  intros Hp Hne Hd.
  unfold Server.get_sessions_timeline, Server.request, next_result.
  rewrite Hp. cbn [fst snd].
  apply String.eqb_neq in Hne. rewrite Hne, Hd.
  destruct data; destruct (Py.contains "application/json" content_type);
    cbn [fst snd]; try reflexivity; eexists; repeat split.
Qed.

End Tools.

End ToolFacts.

Section Budget.

Variable dump_path : string -> string -> string -> option string.












Variable json_loads : string -> option json.








End Budget.

(** [load_config] returns nothing, or a configuration whose API key passes
    the test of [main] and that says whether bodies are saved; and a file
    that holds an API key is returned with all its entries, whatever the
    environment says. *)
Theorem load_config_is_usable_or_empty (file : config_file)
    (getenv : string -> option string) :
  (load_config file getenv = []
   \/ (truthy (dget_none "api_key" (load_config file getenv)) = true
       /\ dmem "auto_save_full_bodies" (load_config file getenv) = true))
  /\ (forall config,
        file = Decoded (JDict config) ->
        truthy (dget_none "api_key" config) = true ->
        forall k v, dget k config = Some v -> dget k (load_config file getenv) = Some v).
Proof.
  assert (Henv :
            let e :=
              match getenv "GEMINI_API_KEY" with
              | Some api_key =>
                  if String.eqb api_key EmptyString then []
                  else
                    [("api_key", JStr api_key);
                     ("model", JStr (getenv_or getenv "GEMINI_MODEL" "gemini-2.5-flash"));
                     ("auto_save_full_bodies",
                      JBool (switched_on
                               (Py.lower
                                  (getenv_or getenv "GEMINI_AUTO_SAVE_FULL_BODIES" "false"))))]
              | None => []
              end in
            e = [] \/ (truthy (dget_none "api_key" e) = true
                       /\ dmem "auto_save_full_bodies" e = true)).
  { cbv zeta. destruct (getenv "GEMINI_API_KEY") as [api_key|]; [|now left].
    destruct (String.eqb api_key EmptyString) eqn:E; [now left|].
    right. split; [|reflexivity].
    unfold dget_none, dget_or. cbn [dget String.eqb Ascii.eqb Bool.eqb truthy].
    now rewrite E. }
  cbv zeta in Henv. split.
  - unfold load_config. cbv zeta.
    destruct file as [| |config]; try exact Henv.
    destruct config as [| | | | |config]; try exact Henv.
    destruct (truthy (dget_none "api_key" config)) eqn:Ek; [|exact Henv].
    right. split; [|apply dmem_setdefault].
    unfold dget_none, dget_or. rewrite dget_setdefault_other by discriminate. exact Ek.
  - intros config -> Hk k v Hv. unfold load_config. cbv zeta. rewrite Hk.
    unfold setdefault. destruct (dmem "auto_save_full_bodies" config) eqn:Em; [exact Hv|].
    rewrite dget_dset_other; [exact Hv|].
    intros ->. unfold dmem in Em. now rewrite Hv in Em.
Qed.

(** ** The properties at concrete inputs *)

Lemma call_tool_on_terminated_server_witness :
  call_tool Json.loads Run.no_dump (JStr "live_stats") (JDict []) Sample.stopped
  = (Ok (JDict [("error", JStr "MCP server process has terminated")]),
     with_request_id (S (request_id Sample.stopped)) Sample.stopped).
Proof.
  apply (call_tool_on_terminated_server Json.loads Run.no_dump "live_stats" []
           Sample.stopped).
  - reflexivity.
  - reflexivity.
  - vm_compute. repeat (first [left; reflexivity | right]).
Defined.

Lemma query_on_terminated_server_witness :
  alive (snd (chat Json.loads Run.no_dump "How many sessions?" Sample.stopped_busy)) = false
  /\ wire (snd (chat Json.loads Run.no_dump "How many sessions?" Sample.stopped_busy))
     = wire Sample.stopped_busy
  /\ server (snd (chat Json.loads Run.no_dump "How many sessions?" Sample.stopped_busy))
     = server Sample.stopped_busy.
Proof.
  apply (query_on_terminated_server Json.loads Run.no_dump "How many sessions?"
           Sample.stopped_busy).
  reflexivity.
Defined.

Lemma extracted_call_has_both_keys_witness :
  exists d, Run.listing = JDict d /\ dmem "tool" d = true /\ dmem "arguments" d = true.
Proof.
  apply (extracted_call_has_both_keys Json.loads Run.embedded_reply Run.listing).
  vm_compute. reflexivity.
Defined.

Lemma prose_is_no_call_witness :
  parse_gemini_response Json.loads
    "The capture looks clean: none of the 12 sessions was flagged." = Ok None.
Proof.
  apply (prose_is_no_call Json.loads
           "The capture looks clean: none of the 12 sessions was flagged."
           JsonFacts.loads_scalar); try reflexivity.
  vm_compute. lia.
Defined.

Lemma scanned_objects_are_flat_witness :
  Braces.flat_object Run.listing_call /\ part_of Run.listing_call Run.embedded_reply.
Proof.
  apply (ScanSound.scanned_objects_are_flat Run.embedded_reply Run.listing_call).
  vm_compute. left. reflexivity.
Defined.

Lemma text_before_embedded_call_witness :
  _extract_text_before_tool_call
    (("I will list the sessions first." +++ String newline "Tool Call: ")
     +++ Run.listing_call +++ " Then I will summarise.")
  = "I will list the sessions first.".
Proof.
  rewrite (Preceding.text_before_embedded_call
             ("I will list the sessions first." +++ String newline "Tool Call: ")
             Run.listing_call " Then I will summarise.").
  - vm_compute. reflexivity.
  - reflexivity.
  - reflexivity.
  - reflexivity.
  - exists EmptyString, Braces.quoted_tool,
      (dq ": 'fiddler_mcp__live_sessions', 'arguments': {'limit': 5}").
    split; [reflexivity|]. split; [reflexivity|]. split; [left; reflexivity | reflexivity].
Defined.


Lemma live_sessions_are_normalized_witness :
  exists sessions,
    dget "sessions" Sample.listed = Some (JList sessions)
    /\ dget "count" Sample.listed = Some (Server.of_nat (List.length sessions))
    /\ Forall normalized sessions.
Proof.
  apply (ToolFacts.live_sessions_are_normalized Json.loads Sample.no_detail Sample.stamp
           Sample.in_order 20 60 None None false (Sample.answering Sample.one_session)
           Sample.listed (snd Sample.listing_run)).
  - vm_compute. reflexivity.
  - vm_compute. reflexivity.
Defined.

Lemma body_fetch_raises_only_attribute_error_witness :
  exists f,
    fst (Server.get_session_body Json.loads Sample.no_detail Sample.stamp Sample.in_order
           3 "7" false false (Sample.answering Sample.numbered_comment))
    = Server.Raises f
    /\ f = Server.Python AttributeError.
Proof.
  assert (H : fst (Server.get_session_body Json.loads Sample.no_detail Sample.stamp
                     Sample.in_order 3 "7" false false
                     (Sample.answering Sample.numbered_comment))
              = Server.Raises (Server.Python AttributeError))
    by (vm_compute; reflexivity).
  exists (Server.Python AttributeError). split; [exact H|].
  exact (ToolFacts.body_fetch_raises_only_attribute_error Json.loads Sample.no_detail
           Sample.stamp Sample.in_order 3 "7" false false
           (Sample.answering Sample.numbered_comment) _ H).
Defined.

Lemma multiple_bodies_are_counted_witness :
  exists sessions,
    dget "success" Sample.fetched = Some (JBool true)
    /\ dget "sessions" Sample.fetched = Some (JList sessions)
    /\ map entry_id sessions = map JStr ["7"; "8"]
    /\ dget "requested" Sample.fetched = Some (Server.of_nat 2)
    /\ dget "count" Sample.fetched
       = Some (Server.of_nat (List.length (filter entry_ok sessions))).
Proof.
  apply (ToolFacts.multiple_bodies_are_counted Json.loads Sample.no_detail Sample.stamp
           Sample.in_order 3 ["7"; "8"] false false Sample.gone Sample.fetched
           (snd Sample.fetched_run)).
  - discriminate.
  - vm_compute. reflexivity.
Defined.

Lemma body_fetch_from_unreachable_bridge_witness :
  Server.get_session_body Json.loads Sample.no_detail Sample.stamp Sample.in_order
    3 "7" false false Sample.gone
  = (Server.Returns
       [("success", JBool false);
        ("error", JStr "Cannot connect to real-time bridge after retries");
        ("bridge_status", JStr "Disconnected")],
     Server.Remote []
       (repeat (Server.Call "GET" "/api/sessions/body/7" (Some []) None (Some 30)) 4)
       [1; 2; 4]).
Proof.
  apply (ToolFacts.body_fetch_from_unreachable_bridge Json.loads Sample.no_detail
           Sample.stamp Sample.in_order 3 "7" false false Sample.gone).
  reflexivity.
Defined.

Lemma timeline_trusts_any_object_witness :
  exists result,
    fst (Server.get_sessions_timeline Json.loads Sample.no_detail 60 Server.MINUTE false
           None (Sample.answering Sample.refused)) = Server.Returns result
    /\ dget "success" result = Some (JBool true)
    /\ dget "timeline" result = Some (JDict []).
Proof.
  apply (ToolFacts.timeline_trusts_any_object Json.loads Sample.no_detail 60 Server.MINUTE
           false None (Sample.answering Sample.refused) Sample.refused "application/json" []
           (JDict [("success", JBool false); ("error", JStr "no such session")])).
  - reflexivity.
  - vm_compute. discriminate.
  - vm_compute. reflexivity.
Defined.
